(** * sriov-netplan-shim: PCI network device discovery and VF reconciliation

    A shallow embedding of [sriov_netplan_shim/pci.py] and
    [sriov_netplan_shim/cmd.py].

    Python text is modelled as [string] (characters are the code points
    0..255).  Exceptions are values of type [exn]; a computation that can
    raise returns a [res].  Code that reads or writes the kernel's sysfs
    tree, runs [lspci] or logs runs in the monad [M], which threads the
    state of the host and the list of observable events (log lines and
    sysfs writes). *)

From Stdlib Require Import String Ascii List Bool Arith ZArith Lia.
From Stdlib Require Import DecimalString DecimalPos.
Import ListNotations.
Local Open Scope list_scope.
Local Open Scope string_scope.

(** ** Python exceptions and results *)

Inductive exn_class :=
| ValueError | TypeError | KeyError | IndexError | AttributeError
| OSError | CalledProcessError.

Record exn := Exn { exn_kind : exn_class; exn_msg : string }.

Inductive res (A : Type) :=
| Ok (a : A)
| Raise (e : exn).
Arguments Ok {A} a.
Arguments Raise {A} e.

Definition res_bind {A B} (r : res A) (k : A -> res B) : res B :=
  match r with
  | Ok a => k a
  | Raise e => Raise e
  end.

Definition raises {A} (r : res A) (c : exn_class) : Prop :=
  exists msg, r = Raise (Exn c msg).

(** ** The fragment of Python's [str] and [os.path] the program uses *)

Module Py.

(** [str(n)] for an [int]. *)
Definition str_of_int (n : Z) : string := NilZero.string_of_int (Z.to_int n).

Definition str_of_nat (n : nat) : string := str_of_int (Z.of_nat n).

(** [s.split(sep)] for a one-character separator: every occurrence of
    [sep] ends a part, so the result has one part more than [s] has
    separators. *)
Fixpoint split (sep : ascii) (s : string) : list string :=
  match s with
  | EmptyString => [""]
  | String c s' =>
      if Ascii.eqb c sep then "" :: split sep s'
      else match split sep s' with
           | [] => [String c ""]
           | p :: ps => String c p :: ps
           end
  end.

(** [sep.join(parts)] *)
Fixpoint join (sep : string) (parts : list string) : string :=
  match parts with
  | [] => ""
  | [p] => p
  | p :: ps => p ++ sep ++ join sep ps
  end.

(** ['0' * n] *)
Fixpoint zeros (n : nat) : string :=
  match n with
  | O => ""
  | S n' => String "0" (zeros n')
  end.

(** [s.zfill(width)]: pads on the left with ['0']; a leading sign stays
    in front of the padding. *)
Definition zfill (width : nat) (s : string) : string :=
  if (width <=? String.length s)%nat then s
  else
    let fill := zeros (width - String.length s) in
    match s with
    | String c s' =>
        if Ascii.eqb c "+" || Ascii.eqb c "-" then String c (fill ++ s')
        else fill ++ s
    | EmptyString => fill
    end.

(** Characters [str.strip()] removes: the white space of [str.isspace]
    among the code points below 256. *)
Definition isspace (c : ascii) : bool :=
  let n := nat_of_ascii c in
  (((9 <=? n) && (n <=? 13)) || ((28 <=? n) && (n <=? 32))
   || (n =? 133) || (n =? 160))%nat.

Fixpoint lstrip (s : string) : string :=
  match s with
  | String c s' => if isspace c then lstrip s' else s
  | EmptyString => ""
  end.

Fixpoint rstrip (s : string) : string :=
  match s with
  | EmptyString => ""
  | String c s' =>
      match rstrip s' with
      | EmptyString => if isspace c then "" else String c ""
      | r => String c r
      end
  end.

(** [s.strip()] *)
Definition strip (s : string) : string := rstrip (lstrip s).

(** [s.startswith(p)] *)
Definition startswith (p s : string) : bool := String.prefix p s.

(** [sub in s] *)
Fixpoint contains (sub s : string) : bool :=
  String.prefix sub s ||
  match s with
  | EmptyString => false
  | String _ s' => contains sub s'
  end.

Definition isdigit (c : ascii) : bool :=
  let n := nat_of_ascii c in ((48 <=? n) && (n <=? 57))%nat.

Definition digit_val (c : ascii) : Z := Z.of_nat (nat_of_ascii c) - 48.

(** The digits of an [int] literal accepted by [int()]: decimal digits,
    with single underscores allowed between two digits.  [acc] is the
    value read so far, [prev] tells whether the previous character was a
    digit. *)
Fixpoint int_digits (acc : Z) (prev : bool) (s : string) : option Z :=
  match s with
  | EmptyString => if prev then Some acc else None
  | String c s' =>
      if isdigit c then int_digits (10 * acc + digit_val c) true s'
      else if Ascii.eqb c "_" && prev then
             match s' with
             | String d _ => if isdigit d then int_digits acc false s' else None
             | EmptyString => None
             end
           else None
  end.

(** [int(s)] in base 10, without the limit on the number of digits of
    Python 3.11.  The message quotes [s] as [repr] does for a text
    without quotes or escapes. *)
Definition int (s : string) : res Z :=
  let bad := Raise (Exn ValueError
                      ("invalid literal for int() with base 10: '" ++ s ++ "'")) in
  match strip s with
  | String c s' =>
      if Ascii.eqb c "-" then
        match int_digits 0 false s' with Some n => Ok (- n)%Z | None => bad end
      else if Ascii.eqb c "+" then
        match int_digits 0 false s' with Some n => Ok n | None => bad end
      else
        match int_digits 0 false (String c s') with Some n => Ok n | None => bad end
  | EmptyString => bad
  end.

(** [os.path.join(a, b)] on POSIX. *)
Definition endswith_slash (s : string) : bool :=
  match String.length s with
  | O => false
  | S n => match String.get n s with
           | Some c => Ascii.eqb c "/"
           | None => false
           end
  end.

Definition path_join2 (a b : string) : string :=
  if String.prefix "/" b then b
  else if (String.length a =? 0)%nat || endswith_slash a then a ++ b
       else a ++ "/" ++ b.

(** [os.path.join(a, p1, ..., pn)] *)
Definition path_join (a : string) (ps : list string) : string :=
  fold_left path_join2 ps a.

(** [xs[-1]] and [xs[-2]] *)
Definition last_item (xs : list string) : res string :=
  match rev xs with
  | x :: _ => Ok x
  | [] => Raise (Exn IndexError "list index out of range")
  end.

Definition penultimate_item (xs : list string) : res string :=
  match rev xs with
  | _ :: x :: _ => Ok x
  | _ => Raise (Exn IndexError "list index out of range")
  end.

End Py.

(** ** The fragment of Python's [re] the program uses *)

Module Re.

(** Regular expressions as [re] parses them; a group has no effect on
    whether a string matches and is not represented. *)
Inductive regex :=
| Chr (c : ascii)              (* a literal character *)
| Range (lo hi : ascii)        (* a class [[lo-hi]] *)
| Plus (r : regex)             (* [r+] *)
| Seq (r1 r2 : regex)          (* [r1 r2] *)
| Alt (r1 r2 : regex)          (* [r1|r2] *)
| Eos.                         (* [$] *)

Definition lower (c : ascii) : ascii :=
  let n := nat_of_ascii c in
  if ((65 <=? n) && (n <=? 90))%nat then ascii_of_nat (n + 32) else c.

Definition upper (c : ascii) : ascii :=
  let n := nat_of_ascii c in
  if ((97 <=? n) && (n <=? 122))%nat then ascii_of_nat (n - 32) else c.

(** Does the literal [c] of the pattern match the character [a]? *)
Definition chr_matches (ignorecase : bool) (c a : ascii) : bool :=
  if ignorecase then Ascii.eqb (lower c) (lower a) else Ascii.eqb c a.

Definition between (lo hi a : ascii) : bool :=
  ((nat_of_ascii lo <=? nat_of_ascii a) && (nat_of_ascii a <=? nat_of_ascii hi))%nat.

Definition range_matches (ignorecase : bool) (lo hi a : ascii) : bool :=
  between lo hi a
  || (ignorecase && (between lo hi (lower a) || between lo hi (upper a))).

(** [$] without [re.MULTILINE]: at the end of the text, or just before
    a newline that ends the text. *)
Definition at_end (s : string) : bool :=
  match s with
  | EmptyString => true
  | String c EmptyString => Ascii.eqb c "010"
  | _ => false
  end.

(** One or more repetitions of [step]; [fuel] bounds the number of
    repetitions, and a repetition that consumes nothing is not
    repeated. *)
Fixpoint repeat1 (step : string -> list string) (fuel : nat) (s : string)
  : list string :=
  match fuel with
  | O => []
  | S fuel' =>
      flat_map
        (fun rest =>
           (if (String.length rest <? String.length s)%nat
            then repeat1 step fuel' rest else []) ++ [rest])%list
        (step s)
  end.

(** [run ic r s]: every way [r] matches a prefix of [s], given by the
    text that remains after the match, in the order a backtracking
    matcher tries them. *)
Fixpoint run (ignorecase : bool) (r : regex) (s : string) : list string :=
  match r with
  | Chr c =>
      match s with
      | String a s' => if chr_matches ignorecase c a then [s'] else []
      | EmptyString => []
      end
  | Range lo hi =>
      match s with
      | String a s' => if range_matches ignorecase lo hi a then [s'] else []
      | EmptyString => []
      end
  | Plus r1 => repeat1 (run ignorecase r1) (S (String.length s)) s
  | Seq r1 r2 => flat_map (run ignorecase r2) (run ignorecase r1 s)
  | Alt r1 r2 => (run ignorecase r1 s ++ run ignorecase r2 s)%list
  | Eos => if at_end s then [s] else []
  end.

(** [pattern.match(s) is not None]: a match that starts at the first
    character of [s]. *)
Definition is_match (ignorecase : bool) (r : regex) (s : string) : bool :=
  match run ignorecase r s with
  | [] => false
  | _ :: _ => true
  end.

End Re.

(** ** [shlex.split] *)

Module Shlex.

Inductive lex_state :=
| White                      (* between tokens *)
| Word                       (* inside a token *)
| Quote (q : ascii)          (* inside a quoted part opened by [q] *)
| Escape (q : option ascii). (* after a backslash; [q] is the quote it is in *)

Definition is_white (c : ascii) : bool :=
  Ascii.eqb c " " || Ascii.eqb c "009" || Ascii.eqb c "013" || Ascii.eqb c "010".

Definition is_quote (c : ascii) : bool := Ascii.eqb c "'" || Ascii.eqb c "034".

Definition snoc (tok : string) (c : ascii) : string := tok ++ String c "".

Definition emit (tok : string) (quoted : bool) (rest : res (list string))
  : res (list string) :=
  if negb (String.length tok =? 0)%nat || quoted
  then res_bind rest (fun toks => Ok (tok :: toks))
  else rest.

(** The POSIX-mode tokenizer with [whitespace_split] set and no comment
    characters, as [shlex.split(line)] configures it. *)
Fixpoint tokens (st : lex_state) (tok : string) (quoted : bool) (s : string)
  : res (list string) :=
  match s with
  | EmptyString =>
      match st with
      | White => Ok []
      | Word => emit tok quoted (Ok [])
      | Quote _ => Raise (Exn ValueError "No closing quotation")
      | Escape _ => Raise (Exn ValueError "No escaped character")
      end
  | String c s' =>
      match st with
      | White =>
          if is_white c then tokens White "" false s'
          else if Ascii.eqb c "\" then tokens (Escape None) "" false s'
          else if is_quote c then tokens (Quote c) "" true s'
          else tokens Word (String c "") false s'
      | Word =>
          if is_white c then emit tok quoted (tokens White "" false s')
          else if is_quote c then tokens (Quote c) tok true s'
          else if Ascii.eqb c "\" then tokens (Escape None) tok quoted s'
          else tokens Word (snoc tok c) quoted s'
      | Quote q =>
          if Ascii.eqb c q then tokens Word tok true s'
          else if Ascii.eqb c "\" && Ascii.eqb q "034"
               then tokens (Escape (Some q)) tok true s'
               else tokens (Quote q) (snoc tok c) true s'
      | Escape (Some q) =>
          let tok' := if negb (Ascii.eqb c "\") && negb (Ascii.eqb c q)
                      then snoc tok "\" else tok in
          tokens (Quote q) (snoc tok' c) quoted s'
      | Escape None => tokens Word (snoc tok c) quoted s'
      end
  end.

Definition split (line : string) : res (list string) :=
  tokens White "" false line.

End Shlex.

(** ** The host: kernel sysfs, the [lspci] command, the configuration file *)

(** The documents [yaml.load] returns, without floats and booleans: a
    document that holds one is outside this model, and nothing below
    speaks of it.  A mapping keeps its entries in document order, which is
    the order in which Python iterates over the [dict]. *)
#[warnings="-register-all"] Inductive yaml :=
| YNull
| YInt (n : Z)
| YStr (s : string)
| YSeq (items : list yaml)
| YMap (entries : list (yaml * yaml)).

(** What the program asks of the operating system.  [W] is the state of
    the host; only [write_text] changes it. *)
Class Host (W : Type) := {
  (** [glob.glob(pattern)] *)
  glob : W -> string -> list string;
  (** [os.path.realpath(path)] *)
  realpath : W -> string -> string;
  (** [os.listdir(path)] *)
  listdir : W -> string -> res (list string);
  (** [open(path, "r")] followed by [read()] *)
  read_text : W -> string -> res string;
  (** [os.path.exists(path)] *)
  path_exists : W -> string -> bool;
  (** [open(path, "w")] followed by [write(data)] and the close *)
  write_text : W -> string -> string -> res unit * W;
  (** [subprocess.check_output(cmd).decode("UTF-8")] *)
  check_output : W -> list string -> res string;
  (** [open(path, "r")] followed by [yaml.load] *)
  yaml_load : W -> string -> res yaml
}.

(** What an observer of a run sees. *)
Inductive event :=
| LogWarn (msg : string)               (* [logging.warn(msg)] *)
| LogInfo (msg : string)               (* [logging.info(msg)] *)
| SysWrite (path data : string).       (* [data] written to the file [path] *)

Definition is_write (e : event) : bool :=
  match e with SysWrite _ _ => true | _ => false end.

Definition is_warning (e : event) : bool :=
  match e with LogWarn _ => true | _ => false end.

Definition writes (evs : list event) : list event := filter is_write evs.
Definition warnings (evs : list event) : list event := filter is_warning evs.

(** ** The monad of effectful code: host state, event log, exceptions *)

Record run_state (W : Type) := RunState { host : W; events : list event }.
Arguments RunState {W} host events.
Arguments host {W} _.
Arguments events {W} _.

Definition M (W A : Type) : Type := run_state W -> res A * run_state W.

Definition ret {W A} (a : A) : M W A := fun st => (Ok a, st).

Definition bind {W A B} (c : M W A) (k : A -> M W B) : M W B :=
  fun st =>
    match c st with
    | (Ok a, st') => k a st'
    | (Raise e, st') => (Raise e, st')
    end.

Definition throw {W A} (e : exn) : M W A := fun st => (Raise e, st).

(** A computation that only reads the host. *)
Definition ask {W A} (f : W -> res A) : M W A := fun st => (f (host st), st).

Definition lift {W A} (r : res A) : M W A := fun st => (r, st).

Definition emit_event {W} (e : event) : M W unit :=
  fun st => (Ok tt, RunState (host st) (events st ++ [e])%list).

Declare Scope monad_scope.
Delimit Scope monad_scope with monad.
Notation "x <- c ;; k" := (bind c (fun x => k))
  (at level 100, c at next level, right associativity) : monad_scope.
Notation "c ;;; k" := (bind c (fun _ => k))
  (at level 100, right associativity) : monad_scope.
Notation "x <~ r ;; k" := (res_bind r (fun x => k))
  (at level 100, r at next level, right associativity) : monad_scope.
Local Open Scope monad_scope.

(** [for x in xs: body(x)] *)
Fixpoint for_each {W A} (body : A -> M W unit) (xs : list A) : M W unit :=
  match xs with
  | [] => ret tt
  | x :: xs' => body x ;;; for_each body xs'
  end.

(** A loop that threads a value through its iterations. *)
Fixpoint fold_m {W A B} (body : B -> A -> M W B) (xs : list A) (b : B) : M W B :=
  match xs with
  | [] => ret b
  | x :: xs' => b' <- body b x ;; fold_m body xs' b'
  end.

(** What a computation returns and logs when it starts on host [w] with
    an empty event list. *)
Definition outcome {W A} (c : M W A) (w : W) : res A := fst (c (RunState w [])).
Definition logged {W A} (c : M W A) (w : W) : list event :=
  events (snd (c (RunState w []))).

(** A quiet computation leaves the host as it is, writes nothing, and
    what it returns and logs depends on the host only. *)
Definition quiet {W A} (c : M W A) : Prop :=
  forall w evs,
    c (RunState w evs) = (outcome c w, RunState w (evs ++ logged c w)%list)
    /\ writes (logged c w) = [].

(** ** pci.py *)

Module Pci.

(** [format_pci_addr]: the two tuple assignments raise [ValueError] when
    [split] does not give exactly three, respectively two, parts. *)
Definition unpack_error (expected got : nat) : exn :=
  Exn ValueError
    (if (got <? expected)%nat
     then "not enough values to unpack (expected " ++ Py.str_of_nat expected
          ++ ", got " ++ Py.str_of_nat got ++ ")"
     else "too many values to unpack (expected " ++ Py.str_of_nat expected ++ ")").

Definition format_pci_addr (pci_addr : string) : res string :=
  match Py.split ":" pci_addr with
  | [domain; bus; slot_func] =>
      match Py.split "." slot_func with
      | [slot; func] =>
          Ok (Py.zfill 4 domain ++ ":" ++ Py.zfill 2 bus ++ ":"
              ++ Py.zfill 2 slot ++ "." ++ func)
      | parts => Raise (unpack_error 2 (List.length parts))
      end
  | parts => Raise (unpack_error 3 (List.length parts))
  end.

(** The [dict] that [get_sysnet_interfaces_and_macs] builds for a network
    device; the last two keys are present only when ["sriov"] is true. *)
Record net_dev := NetDev {
  nd_interface : string;
  nd_mac_address : string;
  nd_pci_address : string;
  nd_state : string;
  nd_sriov : bool;
  nd_sriov_totalvfs : option Z;
  nd_sriov_numvfs : option Z
}.

(** The attributes of a [PCINetDevice] object; [None] is Python's [None]. *)
Record PCINetDevice := Device {
  pci_address : string;
  interface_name : option string;
  mac_address : option string;
  state : option string;
  sriov : bool;
  sriov_totalvfs : option Z;
  sriov_numvfs : option Z
}.

(** [PF_PHYS_PORT_NAME_REGEX]: [(p[0-9]+$)|(p[0-9]+s[0-9]+$)], compiled
    with [re.IGNORECASE]. *)
Definition digits1 : Re.regex := Re.Plus (Re.Range "0" "9").

Definition PF_PHYS_PORT_NAME_REGEX : Re.regex :=
  Re.Alt (Re.Seq (Re.Chr "p") (Re.Seq digits1 Re.Eos))
         (Re.Seq (Re.Chr "p")
                 (Re.Seq digits1 (Re.Seq (Re.Chr "s") (Re.Seq digits1 Re.Eos)))).

(** The part of the scan's loop body that names the device: [fq_path] is
    the real path of the matched directory. *)
Definition pci_address_of_path (fq_path : string) : res string :=
  let path := Py.split "/" fq_path in
  last <~ Py.last_item path ;;
  if Py.contains "virtio" last then Py.penultimate_item path else Ok last.

Section WithHost.
Context {W : Type} `{Host W}.

Definition get_sysnet_mac (w : W) (sysdir ifname : string) : res string :=
  let mac_addr_file := Py.path_join sysdir ["net"; ifname; "address"] in
  read_data <~ read_text w mac_addr_file ;;
  Ok (Py.strip read_data).

Definition get_sysnet_device_state (w : W) (sysdir ifname : string) : res string :=
  let state_file := Py.path_join sysdir ["net"; ifname; "operstate"] in
  read_data <~ read_text w state_file ;;
  Ok (Py.strip read_data).

Definition is_sriov (w : W) (sysdir : string) : bool :=
  path_exists w (Py.path_join sysdir ["sriov_totalvfs"]).

Definition get_sriov_totalvfs (w : W) (sysdir : string) : res Z :=
  let sriov_totalvfs_file := Py.path_join sysdir ["sriov_totalvfs"] in
  read_data <~ read_text w sriov_totalvfs_file ;;
  Py.int (Py.strip read_data).

Definition get_sriov_numvfs (w : W) (sysdir : string) : res Z :=
  let sriov_numvfs_file := Py.path_join sysdir ["sriov_numvfs"] in
  read_data <~ read_text w sriov_numvfs_file ;;
  Py.int (Py.strip read_data).

(** [_phys_port_name_is_pf]: [None] when reading the file raises an
    [OSError]; any other exception propagates. *)
Definition _phys_port_name_is_pf (w : W) (sysnetdir : string) : res (option bool) :=
  match read_text w (Py.path_join sysnetdir ["phys_port_name"]) with
  | Ok content =>
      Ok (Some (Re.is_match true PF_PHYS_PORT_NAME_REGEX (Py.strip content)))
  | Raise e =>
      match exn_kind e with
      | OSError => Ok None
      | _ => Raise e
      end
  end.

(** The loop of [get_sysnet_interface] over the netdevs; an exhausted
    loop makes the function return [None]. *)
Fixpoint first_pf (w : W) (sysnetdir : string) (netdevs : list string)
  : res (option string) :=
  match netdevs with
  | [] => Ok None
  | netdev :: rest =>
      is_pf <~ _phys_port_name_is_pf w (Py.path_join sysnetdir [netdev]) ;;
      match is_pf with
      | Some true => Ok (Some netdev)
      | Some false | None => first_pf w sysnetdir rest
      end
  end.

Definition get_sysnet_interface (w : W) (sysdir : string) : res (option string) :=
  let sysnetdir := Py.path_join sysdir ["net"] in
  netdevs <~ listdir w sysnetdir ;;
  match netdevs with
  | [netdev] => Ok (Some netdev)
  | _ => first_pf w sysnetdir netdevs
  end.

(** The body of the loop of [get_sysnet_interfaces_and_macs] for one
    matched directory; [net_devs] is the list built so far. *)
Definition scan_dir (net_devs : list net_dev) (sdir : string)
  : M W (list net_dev) :=
  pci_addr <- ask (fun w => pci_address_of_path (realpath w sdir)) ;;
  ifname <- ask (fun w => get_sysnet_interface w sdir) ;;
  match ifname with
  | None | Some EmptyString =>
      emit_event (LogWarn ("Unable to determine interface name for PCI device "
                           ++ pci_addr)) ;;;
      ret net_devs
  | Some ifname =>
      mac <- ask (fun w => get_sysnet_mac w sdir ifname) ;;
      st <- ask (fun w => get_sysnet_device_state w sdir ifname) ;;
      is_vf_capable <- ask (fun w => Ok (is_sriov w sdir)) ;;
      if is_vf_capable : bool then
        total <- ask (fun w => get_sriov_totalvfs w sdir) ;;
        num <- ask (fun w => get_sriov_numvfs w sdir) ;;
        ret (net_devs ++ [NetDev ifname mac pci_addr st true (Some total) (Some num)])%list
      else
        ret (net_devs ++ [NetDev ifname mac pci_addr st false None None])%list
  end.

Definition get_sysnet_interfaces_and_macs : M W (list net_dev) :=
  sdirs <- ask (fun w =>
                  Ok (glob w "/sys/bus/pci/devices/*/net/../"
                      ++ glob w "/sys/bus/pci/devices/*/virtio*/net/../")%list) ;;
  fold_m scan_dir sdirs [].

Definition lspci_line (pci_addresses : list string) (line : string)
  : res (list string) :=
  columns <~ Shlex.split line ;;
  match columns with
  | pci_addr :: class :: _ =>
      if String.eqb class "Ethernet controller"
      then formatted <~ format_pci_addr pci_addr ;;
           Ok (pci_addresses ++ [formatted])%list
      else Ok pci_addresses
  | _ => Ok pci_addresses
  end.

Fixpoint lspci_lines (pci_addresses : list string) (lines : list string)
  : res (list string) :=
  match lines with
  | [] => Ok pci_addresses
  | line :: rest =>
      acc <~ lspci_line pci_addresses line ;;
      lspci_lines acc rest
  end.

Definition get_pci_ethernet_addresses (w : W) : res (list string) :=
  lspci_output <~ check_output w ["lspci"; "-m"; "-D"] ;;
  lspci_lines [] (Py.split "010" lspci_output).

(** A missing key of the device [dict]. *)
Definition dict_get (key : string) (v : option Z) : res Z :=
  match v with
  | Some n => Ok n
  | None => Raise (Exn KeyError ("'" ++ key ++ "'"))
  end.

(** The body of the loop of [update_interface_info]. *)
Definition update_from (self : PCINetDevice) (interface : net_dev)
  : res PCINetDevice :=
  if String.eqb (pci_address self) (nd_pci_address interface) then
    if nd_sriov interface then
      total <~ dict_get "sriov_totalvfs" (nd_sriov_totalvfs interface) ;;
      num <~ dict_get "sriov_numvfs" (nd_sriov_numvfs interface) ;;
      Ok (Device (pci_address self)
                 (Some (nd_interface interface))
                 (Some (nd_mac_address interface))
                 (Some (nd_state interface))
                 true (Some total) (Some num))
    else
      Ok (Device (pci_address self)
                 (Some (nd_interface interface))
                 (Some (nd_mac_address interface))
                 (Some (nd_state interface))
                 false (sriov_totalvfs self) (sriov_numvfs self))
  else Ok self.

Fixpoint update_from_all (self : PCINetDevice) (net_devices : list net_dev)
  : res PCINetDevice :=
  match net_devices with
  | [] => Ok self
  | interface :: rest =>
      self' <~ update_from self interface ;;
      update_from_all self' rest
  end.

Definition update_interface_info (self : PCINetDevice) : M W PCINetDevice :=
  net_devices <- get_sysnet_interfaces_and_macs ;;
  lift (update_from_all self net_devices).

Definition update_attributes (self : PCINetDevice) : M W PCINetDevice :=
  update_interface_info self.

(** [PCINetDevice.__init__] *)
Definition new_PCINetDevice (pci_addr : string) : M W PCINetDevice :=
  update_attributes (Device pci_addr None None None false None None).

Definition sriov_numvfs_path (self : PCINetDevice) : string :=
  Py.path_join "/sys/bus/pci/devices" [pci_address self; "sriov_numvfs"].

Definition sys_write (path data : string) : M W unit :=
  fun st =>
    let (r, w') := write_text (host st) path data in
    (r, RunState w' (events st ++ [SysWrite path data])%list).

Definition _set_sriov_numvfs (self : PCINetDevice) (numvfs : Z) : M W PCINetDevice :=
  let sdevice := sriov_numvfs_path self in
  sys_write sdevice (Py.str_of_int numvfs) ;;;
  update_attributes self.

(** [numvfs != self.sriov_numvfs], where the attribute may be [None]. *)
Definition differs (numvfs : Z) (current : option Z) : bool :=
  match current with
  | Some n => negb (Z.eqb numvfs n)
  | None => true
  end.

(** [set_sriov_numvfs] returns the indication and, since the object is
    mutated in place, the object's new attributes. *)
Definition set_sriov_numvfs (self : PCINetDevice) (numvfs : Z)
  : M W (bool * PCINetDevice) :=
  if sriov self && differs numvfs (sriov_numvfs self) then
    self1 <- _set_sriov_numvfs self 0 ;;
    self2 <- _set_sriov_numvfs self1 numvfs ;;
    ret (true, self2)
  else ret (false, self).

(** [PCINetDevices.__init__]: the list comprehension. *)
Fixpoint new_devices (addrs : list string) : M W (list PCINetDevice) :=
  match addrs with
  | [] => ret []
  | dev :: rest =>
      d <- new_PCINetDevice dev ;;
      ds <- new_devices rest ;;
      ret (d :: ds)
  end.

Definition new_PCINetDevices : M W (list PCINetDevice) :=
  addrs <- ask get_pci_ethernet_addresses ;;
  new_devices addrs.

(** [PCINetDevices.update_devices] *)
Fixpoint update_devices (pci_devices : list PCINetDevice) : M W (list PCINetDevice) :=
  match pci_devices with
  | [] => ret []
  | pcidev :: rest =>
      d <- update_attributes pcidev ;;
      ds <- update_devices rest ;;
      ret (d :: ds)
  end.

Definition opt_str_eqb (a b : option string) : bool :=
  match a, b with
  | Some x, Some y => String.eqb x y
  | None, None => true
  | _, _ => false
  end.

(** [PCINetDevices.get_macs]: [if pcidev.mac_address] holds for a string
    that is not empty. *)
Fixpoint get_macs (pci_devices : list PCINetDevice) : list string :=
  match pci_devices with
  | [] => []
  | pcidev :: rest =>
      match mac_address pcidev with
      | Some (String c mac) => String c mac :: get_macs rest
      | Some EmptyString | None => get_macs rest
      end
  end.

Definition get_device_from_mac (pci_devices : list PCINetDevice) (mac : option string)
  : option PCINetDevice :=
  find (fun pcidev => opt_str_eqb (mac_address pcidev) mac) pci_devices.

Definition get_device_from_pci_address (pci_devices : list PCINetDevice) (pci_addr : string)
  : option PCINetDevice :=
  find (fun pcidev => String.eqb (pci_address pcidev) pci_addr) pci_devices.

(** [pcidev.interface_name == interface_name], where the right-hand side
    is whatever the caller passes: a string, [None] or another value. *)
Definition name_eqb (name : option string) (v : yaml) : bool :=
  match name, v with
  | Some x, YStr y => String.eqb x y
  | None, YNull => true
  | _, _ => false
  end.

Definition get_device_from_interface_name
  (pci_devices : list PCINetDevice) (name : yaml) : option PCINetDevice :=
  find (fun pcidev => name_eqb (interface_name pcidev) name) pci_devices.

End WithHost.

End Pci.

(** ** cmd.py *)

Module Cmd.

Definition DEFAULT_CONF_FILE : string := "/etc/sriov-netplan-shim/interfaces.yaml".

(** [repr(v)] for a key. *)
Definition repr (v : yaml) : string :=
  match v with
  | YNull => "None"
  | YInt n => Py.str_of_int n
  | YStr s => "'" ++ s ++ "'"
  | YSeq _ => "[...]"
  | YMap _ => "{...}"
  end.

Definition type_name (v : yaml) : string :=
  match v with
  | YNull => "NoneType"
  | YInt _ => "int"
  | YStr _ => "str"
  | YSeq _ => "list"
  | YMap _ => "dict"
  end.

(** Equality of two keys of a [dict]. *)
Definition key_eqb (a b : yaml) : bool :=
  match a, b with
  | YNull, YNull => true
  | YInt x, YInt y => Z.eqb x y
  | YStr x, YStr y => String.eqb x y
  | _, _ => false
  end.

Fixpoint dict_lookup (entries : list (yaml * yaml)) (key : yaml) : option yaml :=
  match entries with
  | [] => None
  | (k, v) :: rest => if key_eqb k key then Some v else dict_lookup rest key
  end.

(** [xs[i]] for a sequence of length [List.length xs]; a negative index
    counts from the end. *)
Definition seq_index {A} (xs : list A) (i : Z) : option A :=
  let n := Z.of_nat (List.length xs) in
  if (0 <=? i)%Z then nth_error xs (Z.to_nat i)
  else if (0 <=? n + i)%Z then nth_error xs (Z.to_nat (n + i))
       else None.

(** [v[key]] *)
Definition getitem (v key : yaml) : res yaml :=
  match v with
  | YMap entries =>
      match key with
      | YSeq _ | YMap _ =>
          Raise (Exn TypeError ("unhashable type: '" ++ type_name key ++ "'"))
      | _ =>
          match dict_lookup entries key with
          | Some x => Ok x
          | None => Raise (Exn KeyError (repr key))
          end
      end
  | YSeq items =>
      match key with
      | YInt i =>
          match seq_index items i with
          | Some x => Ok x
          | None => Raise (Exn IndexError "list index out of range")
          end
      | _ => Raise (Exn TypeError
                      ("list indices must be integers or slices, not "
                       ++ type_name key))
      end
  | YStr s =>
      match key with
      | YInt i =>
          match seq_index (list_ascii_of_string s) i with
          | Some c => Ok (YStr (String c ""))
          | None => Raise (Exn IndexError "string index out of range")
          end
      | _ => Raise (Exn TypeError
                      ("string indices must be integers, not '"
                       ++ type_name key ++ "'"))
      end
  | YNull | YInt _ =>
      Raise (Exn TypeError ("'" ++ type_name v ++ "' object is not subscriptable"))
  end.

(** The items [for x in v] visits. *)
Definition iterate (v : yaml) : res (list yaml) :=
  match v with
  | YMap entries => Ok (map fst entries)
  | YSeq items => Ok items
  | YStr s => Ok (map (fun c => YStr (String c "")) (list_ascii_of_string s))
  | YNull | YInt _ =>
      Raise (Exn TypeError ("'" ++ type_name v ++ "' object is not iterable"))
  end.

(** ["{}".format(v)] *)
Definition format_name (name : option string) : string :=
  match name with
  | Some s => s
  | None => "None"
  end.

Definition format_opt_int (v : option Z) : string :=
  match v with
  | Some n => Py.str_of_int n
  | None => "None"
  end.

Definition format_value (v : yaml) : string :=
  match v with
  | YStr s => s
  | _ => repr v
  end.

(** The [TypeError] of [num_vfs > device.sriov_totalvfs], which is
    defined between two [int]s only. *)
Definition not_comparable (num_vfs : yaml) (total : option Z) : exn :=
  Exn TypeError
    ("'>' not supported between instances of '" ++ type_name num_vfs
     ++ "' and '" ++ match total with Some _ => "int" | None => "NoneType" end
     ++ "'").

Section WithHost.
Context {W : Type} `{Host W}.

Definition too_high_warning (num_vfs : yaml) (device : Pci.PCINetDevice) : string :=
  "Requested value for sriov_numfs (" ++ format_value num_vfs
  ++ ") too high for interface " ++ format_name (Pci.interface_name device)
  ++ ". Falling back to interface totalvfs value: "
  ++ format_opt_int (Pci.sriov_totalvfs device).

Definition configuring_info (device : Pci.PCINetDevice) (num_vfs : Z) : string :=
  "Configuring SR-IOV device " ++ format_name (Pci.interface_name device)
  ++ " with " ++ Py.str_of_int num_vfs ++ " VF's".

(** The body of the loop of [configure]. *)
Definition configure_interface (interfaces interface_name : yaml) : M W unit :=
  entry <- lift (getitem interfaces interface_name) ;;
  num_vfs <- lift (getitem entry (YStr "num_vfs")) ;;
  devices <- Pci.new_PCINetDevices ;;
  match Pci.get_device_from_interface_name devices interface_name with
  | Some device =>
      if Pci.sriov device then
        match num_vfs, Pci.sriov_totalvfs device with
        | YInt n, Some total =>
            num_vfs' <- (if (n >? total)%Z then
                           emit_event (LogWarn (too_high_warning num_vfs device)) ;;;
                           ret total
                         else ret n) ;;
            emit_event (LogInfo (configuring_info device num_vfs')) ;;;
            _ <- Pci.set_sriov_numvfs device num_vfs' ;;
            ret tt
        | _, total => throw (not_comparable num_vfs total)
        end
      else ret tt
  | None => ret tt
  end.

Definition configure : M W unit :=
  conf_exists <- ask (fun w => Ok (path_exists w DEFAULT_CONF_FILE)) ;;
  if conf_exists : bool then
    configuration <- ask (fun w => yaml_load w DEFAULT_CONF_FILE) ;;
    interfaces <- lift (getitem configuration (YStr "interfaces")) ;;
    names <- lift (iterate interfaces) ;;
    for_each (configure_interface interfaces) names
  else
    emit_event (LogWarn "No configuration file found, skipping configuration").

(** How the process ends: [main] returns, or [SystemExit(msg)] leaves the
    interpreter, which prints [msg] and exits with status 1. *)
Inductive exit :=
| Returned
| SystemExit (msg : string).

Definition exit_code (e : exit) : Z :=
  match e with
  | Returned => 0
  | SystemExit _ => 1
  end.

(** [main], after [parser.parse_args()] returned: [func] is the [func]
    attribute of the namespace, set by the [configure] subcommand only. *)
Definition main (prog : string) (func : option (M W unit))
  : run_state W -> exit * run_state W :=
  fun st =>
    let r := match func with
             | Some f => f st
             | None => (Raise (Exn AttributeError
                                 "'Namespace' object has no attribute 'func'"), st)
             end in
    match r with
    | (Ok _, st') => (Returned, st')
    | (Raise e, st') => (SystemExit (prog ++ ": " ++ exn_msg e), st')
    end.

End WithHost.

End Cmd.

(** ** A simulated host

    A small file tree standing for sysfs, used to run the program on
    concrete hosts.  Paths are compared after lexical normalisation; a
    sysfs attribute can be written only if it exists. *)

Module Sim.

Record sim := SimHost {
  globs : list (string * list string);     (* pattern, matches *)
  dirs : list (string * list string);      (* directory, entries *)
  files : list (string * string);          (* file, content *)
  lspci : res string;                      (* output of lspci -m -D *)
  documents : list (string * res yaml)     (* file, parsed YAML document *)
}.

Fixpoint assoc {A} (key : string) (l : list (string * A)) : option A :=
  match l with
  | [] => None
  | (k, v) :: rest => if String.eqb k key then Some v else assoc key rest
  end.

Fixpoint assoc_set {A} (key : string) (v : A) (l : list (string * A))
  : list (string * A) :=
  match l with
  | [] => []
  | (k, v0) :: rest =>
      if String.eqb k key then (k, v) :: rest else (k, v0) :: assoc_set key v rest
  end.

Definition norm_step (stack : list string) (part : string) : list string :=
  if String.eqb part "" || String.eqb part "." then stack
  else if String.eqb part ".." then tl stack
       else part :: stack.

Definition normpath (path : string) : string :=
  "/" ++ Py.join "/" (rev (fold_left norm_step (Py.split "/" path) [])).

Definition no_such_file (path : string) : exn :=
  Exn OSError ("[Errno 2] No such file or directory: '" ++ path ++ "'").

Definition sim_listdir (w : sim) (path : string) : res (list string) :=
  match assoc (normpath path) (dirs w) with
  | Some l => Ok l
  | None => Raise (no_such_file path)
  end.

Definition sim_read (w : sim) (path : string) : res string :=
  match assoc (normpath path) (files w) with
  | Some c => Ok c
  | None => Raise (no_such_file path)
  end.

Definition sim_exists (w : sim) (path : string) : bool :=
  match assoc (normpath path) (files w), assoc (normpath path) (dirs w),
        assoc (normpath path) (documents w) with
  | None, None, None => false
  | _, _, _ => true
  end.

Definition sim_write (w : sim) (path data : string) : res unit * sim :=
  match assoc (normpath path) (files w) with
  | Some _ =>
      (Ok tt, SimHost (globs w) (dirs w) (assoc_set (normpath path) data (files w))
                   (lspci w) (documents w))
  | None => (Raise (no_such_file path), w)
  end.

Definition sim_glob (w : sim) (pattern : string) : list string :=
  match assoc pattern (globs w) with
  | Some l => l
  | None => []
  end.

Definition sim_yaml_load (w : sim) (path : string) : res yaml :=
  match assoc (normpath path) (documents w) with
  | Some d => d
  | None => Raise (no_such_file path)
  end.

#[global] Instance sim_host : Host sim := {
  glob := sim_glob;
  realpath := fun _ => normpath;
  listdir := sim_listdir;
  read_text := sim_read;
  path_exists := sim_exists;
  write_text := sim_write;
  check_output := fun w _ => lspci w;
  yaml_load := sim_yaml_load
}.

Definition nl : string := String "010" "".
Definition dq (s : string) : string := String "034" (s ++ String "034" "").

(** A host with an SR-IOV capable adapter [eth0] (8 VFs at most, 2
    configured) and an adapter [eth1] that is not capable. *)
Definition dev0 : string := "/sys/bus/pci/devices/0000:01:00.0".
Definition dev1 : string := "/sys/bus/pci/devices/0000:02:00.0".

Definition two_nics (document : res yaml) : sim := {|
  globs := [("/sys/bus/pci/devices/*/net/../",
             [dev0 ++ "/net/../"; dev1 ++ "/net/../"])];
  dirs := [(dev0 ++ "/net", ["eth0"]); (dev1 ++ "/net", ["eth1"])];
  files := [(dev0 ++ "/net/eth0/address", "52:54:00:00:00:01" ++ nl);
            (dev0 ++ "/net/eth0/operstate", "up" ++ nl);
            (dev0 ++ "/sriov_totalvfs", "8" ++ nl);
            (dev0 ++ "/sriov_numvfs", "2" ++ nl);
            (dev1 ++ "/net/eth1/address", "52:54:00:00:00:02" ++ nl);
            (dev1 ++ "/net/eth1/operstate", "down" ++ nl)];
  lspci := Ok ("0000:00:00.0 " ++ dq "Host bridge" ++ " " ++ dq "Intel Corporation" ++ nl
               ++ "0000:01:00.0 " ++ dq "Ethernet controller" ++ " "
               ++ dq "Intel Corporation" ++ " " ++ dq "82599ES" ++ " -r01" ++ nl
               ++ "0000:02:00.0 " ++ dq "Ethernet controller" ++ " "
               ++ dq "Red Hat, Inc." ++ " " ++ dq "Virtio network device" ++ nl);
  documents := [(Cmd.DEFAULT_CONF_FILE, document)]
|}.

(** A device with three netdevs: a VF representor, the physical function
    and a netdev without [phys_port_name]. *)
Definition dev2 : string := "/sys/bus/pci/devices/0000:03:00.0".

Definition multi_port : sim := {|
  globs := [("/sys/bus/pci/devices/*/net/../", [dev2 ++ "/net/../"])];
  dirs := [(dev2 ++ "/net", ["eth2_0"; "enp3s0f0"; "eth2_1"])];
  files := [(dev2 ++ "/net/eth2_0/phys_port_name", "pf0vf0" ++ nl);
            (dev2 ++ "/net/enp3s0f0/phys_port_name", "p0" ++ nl);
            (dev2 ++ "/net/enp3s0f0/address", "52:54:00:00:00:03" ++ nl);
            (dev2 ++ "/net/enp3s0f0/operstate", "up" ++ nl)];
  lspci := Ok ("0000:03:00.0 " ++ dq "Ethernet controller" ++ " "
               ++ dq "Mellanox Technologies" ++ " " ++ dq "MT27800" ++ nl);
  documents := []
|}.

Definition interfaces_doc (entries : list (string * Z)) : yaml :=
  YMap [(YStr "interfaces",
         YMap (map (fun e => (YStr (fst e), YMap [(YStr "num_vfs", YInt (snd e))]))
                   entries))].

Definition start (w : sim) : run_state sim := RunState w [].

(** The device object for [eth0] as discovery builds it on [two_nics]. *)
Definition eth0 : Pci.PCINetDevice :=
  Pci.Device "0000:01:00.0" (Some "eth0") (Some "52:54:00:00:00:01") (Some "up")
             true (Some 8%Z) (Some 2%Z).

Definition eth1 : Pci.PCINetDevice :=
  Pci.Device "0000:02:00.0" (Some "eth1") (Some "52:54:00:00:00:02") (Some "down")
             false None None.

(** A device object whose adapter is no longer in the inventory. *)
Definition gone : Pci.PCINetDevice :=
  Pci.Device "0000:09:00.0" (Some "eth9") (Some "52:54:00:00:00:09") (Some "up")
             true (Some 16%Z) (Some 4%Z).

(** The host with two adapters, where the [sriov_totalvfs] of the first
    does not read as a number. *)
Definition garbled : sim :=
  SimHost (globs (two_nics (Ok YNull))) (dirs (two_nics (Ok YNull)))
          (assoc_set (dev0 ++ "/sriov_totalvfs") "n/a" (files (two_nics (Ok YNull))))
          (lspci (two_nics (Ok YNull))) [].

(** The host with two adapters and a third Ethernet controller that
    [lspci] reports and that has no netdev in sysfs. *)
Definition with_unbound : sim :=
  SimHost (globs (two_nics (Ok YNull))) (dirs (two_nics (Ok YNull)))
          (files (two_nics (Ok YNull)))
          (res_bind (lspci (two_nics (Ok YNull)))
             (fun out => Ok (out ++ "0000:05:00.0 " ++ dq "Ethernet controller" ++ " "
                                 ++ dq "Intel Corporation" ++ " " ++ dq "I350" ++ nl)))
          [].

Definition unbound : Pci.PCINetDevice :=
  Pci.Device "0000:05:00.0" None None None false None None.

(** The host with two adapters and no configuration file. *)
Definition unconfigured : sim :=
  SimHost (globs (two_nics (Ok YNull))) (dirs (two_nics (Ok YNull)))
          (files (two_nics (Ok YNull))) (lspci (two_nics (Ok YNull))) [].

(** Desired VF counts for [eth0] (more than it supports), for [eth1], which
    is not capable, and for [eth7], which does not exist. *)
Definition desired : yaml :=
  YMap [(YStr "eth7", YMap [(YStr "num_vfs", YInt 3)]);
        (YStr "eth1", YMap [(YStr "num_vfs", YInt 1)]);
        (YStr "eth0", YMap [(YStr "num_vfs", YInt 128)])].

Definition configured : sim :=
  two_nics (Ok (YMap [(YStr "interfaces", desired)])).

End Sim.

(** ** Vocabulary of the specification *)

Module Spec.

(** [s.count(c)] *)
Fixpoint count (c : ascii) (s : string) : nat :=
  match s with
  | EmptyString => 0
  | String a s' => (if Ascii.eqb a c then 1 else 0) + count c s'
  end.

(** The text after the last [c] of [s]; all of [s] when it has none. *)
Fixpoint after_last (c : ascii) (s : string) : string :=
  match s with
  | EmptyString => ""
  | String a s' =>
      if (0 <? count c s')%nat then after_last c s'
      else if Ascii.eqb a c then s' else s
  end.

Fixpoint all_chars (p : ascii -> bool) (s : string) : bool :=
  match s with
  | EmptyString => true
  | String a s' => p a && all_chars p s'
  end.

Definition is_hex_digit (c : ascii) : bool :=
  let n := nat_of_ascii c in
  (((48 <=? n) && (n <=? 57)) || ((65 <=? n) && (n <=? 70))
   || ((97 <=? n) && (n <=? 102)))%nat.

(** A component of a PCI address: hexadecimal digits. *)
Definition is_hex (s : string) : bool := all_chars is_hex_digit s.

(** [s] padded with zeros on the left to [width] characters. *)
Definition pad_left (width : nat) (s : string) : string :=
  Py.zeros (width - String.length s) ++ s.

(** The separators of [domain:bus:slot.function]: two [:], and one [.]
    in the part after the second. *)
Definition well_separated (s : string) : bool :=
  (count ":" s =? 2)%nat && (count "." (after_last ":" s) =? 1)%nat.

(** A decimal number: one digit or more. *)
Definition is_number (s : string) : Prop :=
  s <> "" /\ all_chars Py.isdigit s = true.

(** The names [p<N>] and [p<N>s<M>], in either case. *)
Definition pf_pattern (t : string) : Prop :=
  exists (p : ascii) (n : string),
    (p = "p" \/ p = "P")%char /\ is_number n /\
    (t = String p n \/
     exists (s : ascii) (m : string),
       (s = "s" \/ s = "S")%char /\ is_number m /\ t = String p (n ++ String s m)).

(** The rule for the PCI address of a matched directory in the words of
    section 4.3 of the specification, which looks at how the last
    component of the real path begins.  It is compared below with
    [Pci.pci_address_of_path], the rule of the code. *)
Definition pci_address_by_prefix (fq_path : string) : res string :=
  let path := Py.split "/" fq_path in
  last <~ Py.last_item path ;;
  if Py.startswith "virtio" last then Py.penultimate_item path else Ok last.

(** The capacity attributes of a capable device are set. *)
Definition capacity_known (d : Pci.PCINetDevice) : Prop :=
  Pci.sriov d = true ->
  exists total num, Pci.sriov_totalvfs d = Some total /\ Pci.sriov_numvfs d = Some num.

(** The top-level value of the configuration document is a mapping with
    the key [interfaces]. *)
Definition has_interfaces (doc : yaml) : bool :=
  match doc with
  | YMap entries =>
      match Cmd.dict_lookup entries (YStr "interfaces") with
      | Some _ => true
      | None => false
      end
  | _ => false
  end.

(** A record of the inventory: the interface is named, and the two VF
    counts are there exactly when the device is SR-IOV capable. *)
Definition record_ok (r : Pci.net_dev) : Prop :=
  Pci.nd_interface r <> ""
  /\ (if Pci.nd_sriov r
      then exists total num,
          Pci.nd_sriov_totalvfs r = Some total /\ Pci.nd_sriov_numvfs r = Some num
      else Pci.nd_sriov_totalvfs r = None /\ Pci.nd_sriov_numvfs r = None).

(** Where a record of the scan comes from: a matched directory [sdir]
    whose real path gives the address and whose resolver gives the name. *)
Definition from_dir {W} `{Host W} (w : W) (sdir : string) (r : Pci.net_dev) : Prop :=
  Pci.pci_address_of_path (realpath w sdir) = Ok (Pci.nd_pci_address r)
  /\ Pci.get_sysnet_interface w sdir = Ok (Some (Pci.nd_interface r)).

(** A device object no refresh has found a record for: it is as
    [__init__] left it. *)
Definition never_found (d : Pci.PCINetDevice) : Prop :=
  d = Pci.Device (Pci.pci_address d) None None None false None None.

(** A device object some refresh has found a record for. *)
Definition once_found (d : Pci.PCINetDevice) : Prop :=
  exists name mac st,
    Pci.interface_name d = Some name /\ Pci.mac_address d = Some mac
    /\ Pci.state d = Some st.

(** An event that is not a write, or is a write to the [sriov_numvfs]
    file that [os.path.join] builds for a PCI address in canonical form,
    which is [/sys/bus/pci/devices/<address>/sriov_numvfs] when the
    address holds no [/]. *)
Definition numvfs_write_only (e : event) : Prop :=
  match e with
  | SysWrite path _ =>
      exists addr,
        Pci.format_pci_addr addr = Ok addr
        /\ path = Py.path_join "/sys/bus/pci/devices" [addr; "sriov_numvfs"]
        /\ (count "/" addr = 0 ->
            path = "/sys/bus/pci/devices/" ++ addr ++ "/sriov_numvfs")
  | _ => True
  end.

(** The name of a PCI device directory of sysfs, [DDDD:BB:SS.F]:
    hexadecimal digits, [:] and [.]. *)
Definition pci_name_char (c : ascii) : bool :=
  is_hex_digit c || Ascii.eqb c ":" || Ascii.eqb c ".".

Definition is_pci_name (s : string) : bool := all_chars pci_name_char s.

(** Whatever a computation adds to the event list satisfies [P]. *)
Definition confined {W A} (P : event -> Prop) (c : M W A) : Prop :=
  forall st r st',
    c st = (r, st') ->
    exists new, events st' = (events st ++ new)%list /\ Forall P new.

(** The [phys_port_name] attribute file of a netdev of the device
    directory [sysdir]. *)
Definition phys_port_name_file (sysdir netdev : string) : string :=
  Py.path_join sysdir ["net"; netdev; "phys_port_name"].

(** The candidate [netdev] has a readable [phys_port_name] whose trimmed
    content is a physical-function name. *)
Definition names_pf {W} `{Host W} (w : W) (sysdir netdev : string) : Prop :=
  exists content,
    read_text w (phys_port_name_file sysdir netdev) = Ok content
    /\ pf_pattern (Py.strip content).

(** [netdev] is the first candidate of [netdevs] that names a physical
    function. *)
Definition first_pf_of {W} `{Host W} (w : W) (sysdir : string)
           (netdevs : list string) (netdev : string) : Prop :=
  exists before after,
    netdevs = (before ++ netdev :: after)%list
    /\ names_pf w sysdir netdev
    /\ forall x, In x before -> ~ names_pf w sysdir x.

End Spec.

(** * Properties *)

(** ** Strings *)

Section StringFacts.

Lemma append_nil_r (s : string) : s ++ "" = s.
Proof. induction s as [|a s IH]; simpl; [reflexivity | now rewrite IH]. Qed.

Lemma append_assoc (s t u : string) : (s ++ t) ++ u = s ++ (t ++ u).
Proof. induction s as [|a s IH]; simpl; [reflexivity | now rewrite IH]. Qed.

Lemma length_append (s t : string) :
  String.length (s ++ t) = String.length s + String.length t.
Proof. induction s as [|a s IH]; simpl; [reflexivity | now rewrite IH]. Qed.

Lemma count_append c (s t : string) :
  Spec.count c (s ++ t) = Spec.count c s + Spec.count c t.
Proof. induction s as [|a s IH]; simpl; [reflexivity | rewrite IH; lia]. Qed.

Lemma split_not_nil c s : Py.split c s <> [].
Proof.
  destruct s as [|a s]; simpl; [discriminate|].
  destruct (Ascii.eqb a c); [discriminate|].
  destruct (Py.split c s); discriminate.
Qed.

(** [split] gives one part more than there are separators. *)
Lemma length_split c s : List.length (Py.split c s) = S (Spec.count c s).
Proof.
  induction s as [|a s IH]; simpl; [reflexivity|].
  destruct (Ascii.eqb a c); simpl; [now rewrite IH|].
  destruct (Py.split c s) eqn:E; simpl in *; [discriminate | exact IH].
Qed.

Lemma split_no_sep c s : Spec.count c s = 0 -> Py.split c s = [s].
Proof.
  induction s as [|a s IH]; simpl; [reflexivity|].
  destruct (Ascii.eqb a c); simpl; [discriminate|].
  intros E. now rewrite (IH E).
Qed.

Lemma split_app_sep c s t :
  Spec.count c s = 0 -> Py.split c (s ++ String c t) = s :: Py.split c t.
Proof.
  induction s as [|a s IH]; simpl.
  - intros _. now rewrite Ascii.eqb_refl.
  - destruct (Ascii.eqb a c); simpl; [discriminate|].
    intros E. now rewrite (IH E).
Qed.

(** The last part [split] gives is the text after the last separator. *)
Lemma last_split c s : last (Py.split c s) "" = Spec.after_last c s.
Proof.
  induction s as [|a s IH]; simpl; [reflexivity|].
  destruct (Nat.ltb_spec 0 (Spec.count c s)) as [Hpos|Hzero].
  - destruct (Ascii.eqb a c).
    + simpl. destruct (Py.split c s) eqn:E; [now destruct (split_not_nil c s)|].
      exact IH.
    + destruct (Py.split c s) as [|p ps] eqn:E; [now destruct (split_not_nil c s)|].
      destruct ps as [|q qs].
      * pose proof (length_split c s) as L. rewrite E in L. simpl in L. lia.
      * exact IH.
  - assert (Z0 : Spec.count c s = 0) by lia.
    rewrite (split_no_sep c s Z0).
    destruct (Ascii.eqb a c); reflexivity.
Qed.

Lemma hex_digit_not c a :
  Spec.is_hex_digit a = true -> Spec.is_hex_digit c = false -> Ascii.eqb a c = false.
Proof.
  intros Ha Hc. destruct (Ascii.eqb_spec a c) as [->|]; [congruence | reflexivity].
Qed.

Lemma hex_count c s :
  Spec.is_hex_digit c = false -> Spec.is_hex s = true -> Spec.count c s = 0.
Proof.
  intros Hc. induction s as [|a s IH]; simpl; [reflexivity|].
  intros Hs. apply andb_prop in Hs as [Ha Hs].
  rewrite (hex_digit_not c a Ha Hc). now rewrite (IH Hs).
Qed.

(** On a string of hexadecimal digits [zfill] pads on the left. *)
Lemma zfill_hex w s : Spec.is_hex s = true -> Py.zfill w s = Spec.pad_left w s.
Proof.
  intros Hs. unfold Py.zfill, Spec.pad_left.
  destruct (Nat.leb_spec w (String.length s)) as [Hle|Hlt].
  - replace (w - String.length s) with 0 by lia. reflexivity.
  - destruct s as [|a s]; simpl.
    + now rewrite append_nil_r.
    + simpl in Hs. apply andb_prop in Hs as [Ha _].
      rewrite (hex_digit_not "+" a Ha eq_refl), (hex_digit_not "-" a Ha eq_refl).
      reflexivity.
Qed.

End StringFacts.

(** ** The PCI address formatter *)

(** C7: on an address [domain:bus:slot.function] whose components are
    hexadecimal digits, [format_pci_addr] returns the address with the
    domain padded with zeros to 4 characters, the bus to 2 and the slot to
    2, and the function as it was. *)
Theorem format_pci_addr_pads (domain bus slot func : string) :
  Spec.is_hex domain = true -> Spec.is_hex bus = true ->
  Spec.is_hex slot = true -> Spec.is_hex func = true ->
  Pci.format_pci_addr (domain ++ ":" ++ bus ++ ":" ++ slot ++ "." ++ func)
  = Ok (Spec.pad_left 4 domain ++ ":" ++ Spec.pad_left 2 bus ++ ":"
        ++ Spec.pad_left 2 slot ++ "." ++ func).
Proof.
  intros Hd Hb Hs Hf. unfold Pci.format_pci_addr.
  change (domain ++ ":" ++ bus ++ ":" ++ slot ++ "." ++ func)
    with (domain ++ String ":" (bus ++ String ":" (slot ++ String "." func))).
  rewrite (split_app_sep ":" domain) by (now apply hex_count).
  rewrite (split_app_sep ":" bus) by (now apply hex_count).
  rewrite (split_no_sep ":" (slot ++ String "." func)).
  2:{ rewrite count_append. simpl.
      rewrite (hex_count ":" slot eq_refl Hs), (hex_count ":" func eq_refl Hf).
      reflexivity. }
  rewrite (split_app_sep "." slot) by (now apply hex_count).
  rewrite (split_no_sep "." func) by (now apply hex_count).
  now rewrite !zfill_hex.
Qed.

Lemma format_pci_addr_examples :
  (Spec.is_hex "8086" = true /\ Spec.is_hex "2" = true /\ Spec.is_hex "0" = true
   /\ Spec.is_hex "1" = true)
  /\ Pci.format_pci_addr "8086:2:0.1" = Ok "8086:02:00.1"
  /\ Pci.format_pci_addr "0:0:0.0" = Ok "0000:00:00.0".
Proof.
  split; [repeat split|split].
  - exact (format_pci_addr_pads "8086" "2" "0" "1" eq_refl eq_refl eq_refl eq_refl).
  - exact (format_pci_addr_pads "0" "0" "0" "0" eq_refl eq_refl eq_refl eq_refl).
Defined.

Lemma unpack_error_raises {A} expected got :
  raises (@Raise A (Pci.unpack_error expected got)) ValueError.
Proof. unfold raises, Pci.unpack_error. eexists. reflexivity. Qed.

(** C8: on a string that does not have exactly two [:] with exactly one
    [.] after the second, [format_pci_addr] raises [ValueError], the
    error of a malformed address; it returns no string. *)
Theorem format_pci_addr_rejects (pci_addr : string) :
  Spec.well_separated pci_addr = false ->
  raises (Pci.format_pci_addr pci_addr) ValueError.
Proof.
  unfold Spec.well_separated, Pci.format_pci_addr. intros Hbad.
  pose proof (length_split ":" pci_addr) as L.
  pose proof (last_split ":" pci_addr) as La.
  destruct (Py.split ":" pci_addr) as [|d [|b [|sf [|x xs]]]];
    try apply unpack_error_raises.
  simpl in L, La. injection L as L. rewrite <- L, <- La in Hbad. simpl in Hbad.
  pose proof (length_split "." sf) as L2.
  destruct (Py.split "." sf) as [|s [|f [|y ys]]];
    try apply unpack_error_raises.
  simpl in L2. injection L2 as L2. rewrite <- L2 in Hbad. discriminate.
Qed.

Lemma format_pci_addr_rejects_examples :
  raises (Pci.format_pci_addr "0000:00:00") ValueError
  /\ raises (Pci.format_pci_addr "0000-00-00.0") ValueError
  /\ raises (Pci.format_pci_addr "0000:00:00.0.1") ValueError
  /\ raises (Pci.format_pci_addr "0:0000:00:00.0") ValueError.
Proof.
  repeat split; apply format_pci_addr_rejects; reflexivity.
Defined.

(** ** Computations that only read the host *)

Section Quiet.
Context {W : Type} `{Host W}.

Lemma writes_app (evs1 evs2 : list event) :
  writes (evs1 ++ evs2)%list = (writes evs1 ++ writes evs2)%list.
Proof. apply filter_app. Qed.

Lemma quiet_ret {A} (a : A) : quiet (@ret W A a).
Proof. intros w evs. unfold ret, logged; simpl. now rewrite app_nil_r. Qed.

Lemma quiet_lift {A} (r : res A) : quiet (@lift W A r).
Proof. intros w evs. unfold lift, logged; simpl. now rewrite app_nil_r. Qed.

Lemma quiet_throw {A} (e : exn) : quiet (@throw W A e).
Proof. intros w evs. unfold throw, logged; simpl. now rewrite app_nil_r. Qed.

Lemma quiet_ask {A} (f : W -> res A) : quiet (ask f).
Proof. intros w evs. unfold ask, logged; simpl. now rewrite app_nil_r. Qed.

Lemma quiet_warn (msg : string) : quiet (@emit_event W (LogWarn msg)).
Proof. intros w evs. unfold emit_event, logged; simpl. auto. Qed.

Lemma quiet_info (msg : string) : quiet (@emit_event W (LogInfo msg)).
Proof. intros w evs. unfold emit_event, logged; simpl. auto. Qed.

Lemma quiet_bind {A B} (c : M W A) (k : A -> M W B) :
  quiet c -> (forall a, quiet (k a)) -> quiet (bind c k).
Proof.
  intros Hc Hk w evs.
  destruct (Hc w evs) as [E1 W1]. destruct (Hc w []) as [E0 _].
  unfold outcome, logged, bind in *. rewrite E1.
  destruct (c (RunState w [])) as [[a|e] st0] eqn:Ec; simpl in *.
  - destruct (Hk a w (evs ++ events st0)%list) as [E2 W2].
    destruct (Hk a w (events st0)) as [E3 _].
    unfold outcome, logged in *.
    injection E0 as ->. simpl in *.
    rewrite E2, E3. simpl. rewrite writes_app, W1, W2, app_assoc. auto.
  - injection E0 as ->. simpl in *. auto.
Qed.

Lemma quiet_fold_m {A B} (body : B -> A -> M W B) (xs : list A) :
  (forall b x, quiet (body b x)) -> forall b, quiet (fold_m body xs b).
Proof.
  intros Hbody. induction xs as [|x xs IH]; intros b; simpl.
  - apply quiet_ret.
  - apply quiet_bind; auto.
Qed.

Lemma quiet_scan_dir net_devs sdir : quiet (Pci.scan_dir net_devs sdir).
Proof.
  unfold Pci.scan_dir.
  apply quiet_bind; [apply quiet_ask|intros pci_addr].
  apply quiet_bind; [apply quiet_ask|intros [[|a ifname]|]].
  - apply quiet_bind; [apply quiet_warn|intros _; apply quiet_ret].
  - apply quiet_bind; [apply quiet_ask|intros mac].
    apply quiet_bind; [apply quiet_ask|intros st].
    apply quiet_bind; [apply quiet_ask|intros [|]].
    + apply quiet_bind; [apply quiet_ask|intros total].
      apply quiet_bind; [apply quiet_ask|intros num]. apply quiet_ret.
    + apply quiet_ret.
  - apply quiet_bind; [apply quiet_warn|intros _; apply quiet_ret].
Qed.

Lemma quiet_scan : quiet Pci.get_sysnet_interfaces_and_macs.
Proof.
  unfold Pci.get_sysnet_interfaces_and_macs.
  apply quiet_bind; [apply quiet_ask|intros sdirs].
  apply quiet_fold_m. intros; apply quiet_scan_dir.
Qed.

Lemma quiet_update_attributes self : quiet (Pci.update_attributes self).
Proof.
  unfold Pci.update_attributes, Pci.update_interface_info.
  apply quiet_bind; [apply quiet_scan|intros; apply quiet_lift].
Qed.

Lemma quiet_new_devices addrs : quiet (Pci.new_devices addrs).
Proof.
  induction addrs as [|a addrs IH]; simpl; [apply quiet_ret|].
  apply quiet_bind; [apply quiet_update_attributes|intros d].
  apply quiet_bind; [exact IH|intros ds; apply quiet_ret].
Qed.

(** Discovery reads the host and logs; it writes nothing. *)
Lemma quiet_new_PCINetDevices : quiet Pci.new_PCINetDevices.
Proof.
  unfold Pci.new_PCINetDevices.
  apply quiet_bind; [apply quiet_ask|intros; apply quiet_new_devices].
Qed.

(** A quiet computation that ran: host and writes are as before. *)
Lemma quiet_run {A} (c : M W A) st r st' :
  quiet c -> c st = (r, st') ->
  host st' = host st /\ writes (events st') = writes (events st)
  /\ r = outcome c (host st)
  /\ events st' = (events st ++ logged c (host st))%list.
Proof.
  intros Hq E. destruct st as [w evs]. destruct (Hq w evs) as [E1 W1].
  rewrite E1 in E. injection E as <- <-. simpl.
  rewrite writes_app, W1, app_nil_r. auto.
Qed.

End Quiet.

(** ** The device model *)

Section DeviceModel.
Context {W : Type} `{Host W}.

Lemma update_from_pci_address self interface self' :
  Pci.update_from self interface = Ok self' ->
  Pci.pci_address self' = Pci.pci_address self.
Proof.
  unfold Pci.update_from.
  destruct (String.eqb _ _); [|now intros [= <-]].
  destruct (Pci.nd_sriov interface).
  - destruct (Pci.nd_sriov_totalvfs interface); simpl; [|discriminate].
    destruct (Pci.nd_sriov_numvfs interface); simpl; [|discriminate].
    now intros [= <-].
  - now intros [= <-].
Qed.

(** A refresh never changes the address of the device. *)
Lemma update_from_all_pci_address net_devices : forall self self',
  Pci.update_from_all self net_devices = Ok self' ->
  Pci.pci_address self' = Pci.pci_address self.
Proof.
  induction net_devices as [|r rs IH]; simpl; intros self self'.
  - now intros [= <-].
  - destruct (Pci.update_from self r) as [s1|e] eqn:E; simpl; [|discriminate].
    intros E'. rewrite (IH _ _ E'). eapply update_from_pci_address; eauto.
Qed.

Lemma update_attributes_pci_address self w self' :
  outcome (Pci.update_attributes self) w = Ok self' ->
  Pci.pci_address self' = Pci.pci_address self.
Proof.
  unfold outcome, Pci.update_attributes, Pci.update_interface_info, bind, lift.
  destruct (Pci.get_sysnet_interfaces_and_macs _) as [[recs|e] st']; simpl;
    [|discriminate].
  apply update_from_all_pci_address.
Qed.

Lemma update_from_all_no_match net_devices self :
  Forall (fun r => Pci.nd_pci_address r <> Pci.pci_address self) net_devices ->
  Pci.update_from_all self net_devices = Ok self.
Proof.
  induction 1 as [|r rs Hr _ IH]; simpl; [reflexivity|].
  unfold Pci.update_from.
  destruct (String.eqb_spec (Pci.pci_address self) (Pci.nd_pci_address r)) as [E|_].
  - now destruct Hr.
  - exact IH.
Qed.

(** C5: when the inventory scan of a refresh returns no record with the
    device's PCI address, [update_interface_info] and [update_attributes]
    leave every attribute of the device as it was. *)
Theorem refresh_without_record_keeps_attributes
  (self : Pci.PCINetDevice) (st st' : run_state W) (net_devices : list Pci.net_dev) :
  Pci.get_sysnet_interfaces_and_macs st = (Ok net_devices, st') ->
  Forall (fun r => Pci.nd_pci_address r <> Pci.pci_address self) net_devices ->
  Pci.update_interface_info self st = (Ok self, st')
  /\ Pci.update_attributes self st = (Ok self, st').
Proof.
  intros Hscan Hnone.
  assert (E : Pci.update_interface_info self st = (Ok self, st')).
  { unfold Pci.update_interface_info, bind, lift. rewrite Hscan.
    now rewrite update_from_all_no_match. }
  split; [exact E | exact E].
Qed.

(** C2: on a device that is not SR-IOV capable, or with a target equal to
    the [sriov_numvfs] the device knows, [set_sriov_numvfs] returns [False]
    and leaves the device, the host and the event list as they were: it
    writes nothing. *)
Theorem set_sriov_numvfs_noop
  (self : Pci.PCINetDevice) (numvfs : Z) (st : run_state W) :
  (0 <= numvfs)%Z ->
  Pci.sriov self = false \/ Pci.sriov_numvfs self = Some numvfs ->
  Pci.set_sriov_numvfs self numvfs st = (Ok (false, self), st).
Proof.
  intros _ [Hno|Hsame]; unfold Pci.set_sriov_numvfs.
  - now rewrite Hno.
  - rewrite Hsame. simpl. rewrite Z.eqb_refl, andb_false_r. reflexivity.
Qed.

Lemma _set_sriov_numvfs_run self numvfs w evs w' self' :
  write_text w (Pci.sriov_numvfs_path self) (Py.str_of_int numvfs) = (Ok tt, w') ->
  outcome (Pci.update_attributes self) w' = Ok self' ->
  Pci._set_sriov_numvfs self numvfs (RunState w evs)
  = (Ok self',
     RunState w' (evs ++ [SysWrite (Pci.sriov_numvfs_path self) (Py.str_of_int numvfs)]
                      ++ logged (Pci.update_attributes self) w')%list).
Proof.
  intros Hw Hr. unfold Pci._set_sriov_numvfs, bind, Pci.sys_write. simpl.
  rewrite Hw.
  destruct (quiet_update_attributes self w'
              (evs ++ [SysWrite (Pci.sriov_numvfs_path self) (Py.str_of_int numvfs)])%list)
    as [E _].
  rewrite E, Hr, <- app_assoc. reflexivity.
Qed.

(** C1: on an SR-IOV capable device and a target that differs from the
    [sriov_numvfs] the device knows, [set_sriov_numvfs] writes ["0"] and
    then the target to the device's [sriov_numvfs] file, these two writes
    and no other; the attributes it leaves are those of the refresh that
    follows the second write, and it returns [True].  The kernel accepts
    both writes and both refreshes succeed. *)
Theorem set_sriov_numvfs_two_writes
  (self self1 self2 : Pci.PCINetDevice) (numvfs : Z) (w w1 w2 : W) (evs : list event) :
  Pci.sriov self = true ->
  Pci.sriov_numvfs self <> Some numvfs ->
  write_text w (Pci.sriov_numvfs_path self) "0" = (Ok tt, w1) ->
  outcome (Pci.update_attributes self) w1 = Ok self1 ->
  write_text w1 (Pci.sriov_numvfs_path self) (Py.str_of_int numvfs) = (Ok tt, w2) ->
  outcome (Pci.update_attributes self1) w2 = Ok self2 ->
  exists evs',
    Pci.set_sriov_numvfs self numvfs (RunState w evs) = (Ok (true, self2), RunState w2 evs')
    /\ evs' = (evs ++ [SysWrite (Pci.sriov_numvfs_path self) "0"]
                   ++ logged (Pci.update_attributes self) w1
                   ++ [SysWrite (Pci.sriov_numvfs_path self) (Py.str_of_int numvfs)]
                   ++ logged (Pci.update_attributes self1) w2)%list
    /\ writes evs' = (writes evs
                      ++ [SysWrite (Pci.sriov_numvfs_path self) "0";
                          SysWrite (Pci.sriov_numvfs_path self) (Py.str_of_int numvfs)])%list.
Proof.
  intros Hcap Hdiff Hw0 Hr1 Hw1 Hr2.
  assert (Hpath : Pci.sriov_numvfs_path self1 = Pci.sriov_numvfs_path self).
  { unfold Pci.sriov_numvfs_path.
    now rewrite (update_attributes_pci_address _ _ _ Hr1). }
  assert (Hd : Pci.differs numvfs (Pci.sriov_numvfs self) = true).
  { unfold Pci.differs. destruct (Pci.sriov_numvfs self) as [k|]; [|reflexivity].
    destruct (Z.eqb_spec numvfs k) as [->|]; [now destruct Hdiff | reflexivity]. }
  eexists. split; [|split; [reflexivity|]].
  - unfold Pci.set_sriov_numvfs. rewrite Hcap, Hd. simpl. unfold bind at 1.
    rewrite (_set_sriov_numvfs_run self 0 w evs w1 self1 Hw0 Hr1).
    unfold bind at 1. rewrite <- Hpath in Hw1.
    rewrite (_set_sriov_numvfs_run self1 numvfs w1 _ w2 self2 Hw1 Hr2).
    rewrite Hpath. unfold ret. rewrite <- !app_assoc. reflexivity.
  - destruct (quiet_update_attributes self w1 []) as [_ Q1].
    destruct (quiet_update_attributes self1 w2 []) as [_ Q2].
    rewrite !writes_app, Q1, Q2. reflexivity.
Qed.

Lemma _set_sriov_numvfs_rejected self numvfs w evs w' e :
  write_text w (Pci.sriov_numvfs_path self) (Py.str_of_int numvfs) = (Raise e, w') ->
  Pci._set_sriov_numvfs self numvfs (RunState w evs)
  = (Raise e,
     RunState w' (evs ++ [SysWrite (Pci.sriov_numvfs_path self) (Py.str_of_int numvfs)])%list).
Proof.
  intros Hw. unfold Pci._set_sriov_numvfs, bind, Pci.sys_write. simpl. now rewrite Hw.
Qed.

(** A write the kernel rejects surfaces to the caller: when the first
    write raises, [set_sriov_numvfs] raises the same exception after that
    one write, and the target is never written. *)
Lemma set_sriov_numvfs_rejected_reset
  (self : Pci.PCINetDevice) (numvfs : Z) (w w1 : W) (evs : list event) (e : exn) :
  Pci.sriov self = true ->
  Pci.sriov_numvfs self <> Some numvfs ->
  write_text w (Pci.sriov_numvfs_path self) "0" = (Raise e, w1) ->
  Pci.set_sriov_numvfs self numvfs (RunState w evs)
  = (Raise e, RunState w1 (evs ++ [SysWrite (Pci.sriov_numvfs_path self) "0"])%list).
Proof.
  intros Hcap Hdiff Hw0.
  assert (Hd : Pci.differs numvfs (Pci.sriov_numvfs self) = true).
  { unfold Pci.differs. destruct (Pci.sriov_numvfs self) as [k|]; [|reflexivity].
    destruct (Z.eqb_spec numvfs k) as [->|]; [now destruct Hdiff | reflexivity]. }
  unfold Pci.set_sriov_numvfs. rewrite Hcap, Hd. simpl. unfold bind at 1.
  now rewrite (_set_sriov_numvfs_rejected self 0 w evs w1 e Hw0).
Qed.

End DeviceModel.

(** ** Devices built by discovery *)

Section Discovery.
Context {W : Type} `{Host W}.

Lemma update_from_capacity self interface self' :
  Spec.capacity_known self -> Pci.update_from self interface = Ok self' ->
  Spec.capacity_known self'.
Proof.
  unfold Pci.update_from. intros Hself.
  destruct (String.eqb _ _); [|now intros [= <-]].
  destruct (Pci.nd_sriov interface).
  - destruct (Pci.nd_sriov_totalvfs interface) as [t|]; simpl; [|discriminate].
    destruct (Pci.nd_sriov_numvfs interface) as [k|]; simpl; [|discriminate].
    intros [= <-] _. simpl. eauto.
  - intros [= <-] Hcap. discriminate Hcap.
Qed.

Lemma update_from_all_capacity net_devices : forall self self',
  Spec.capacity_known self -> Pci.update_from_all self net_devices = Ok self' ->
  Spec.capacity_known self'.
Proof.
  induction net_devices as [|r rs IH]; simpl; intros self self' Hself.
  - now intros [= <-].
  - destruct (Pci.update_from self r) as [s1|e] eqn:E; simpl; [|discriminate].
    apply IH. eapply update_from_capacity; eauto.
Qed.

Lemma update_attributes_capacity self st self' st' :
  Spec.capacity_known self -> Pci.update_attributes self st = (Ok self', st') ->
  Spec.capacity_known self'.
Proof.
  unfold Pci.update_attributes, Pci.update_interface_info, bind, lift.
  intros Hself.
  destruct (Pci.get_sysnet_interfaces_and_macs st) as [[recs|e] st1]; [|discriminate].
  intros [= E _]. eapply update_from_all_capacity; eauto.
Qed.

Lemma new_PCINetDevice_capacity pci_addr st d st' :
  Pci.new_PCINetDevice pci_addr st = (Ok d, st') -> Spec.capacity_known d.
Proof.
  unfold Pci.new_PCINetDevice. apply update_attributes_capacity.
  intros Hcap. discriminate Hcap.
Qed.

Lemma new_devices_capacity addrs : forall st ds st',
  Pci.new_devices addrs st = (Ok ds, st') -> Forall Spec.capacity_known ds.
Proof.
  induction addrs as [|a addrs IH]; simpl; intros st ds st'.
  - unfold ret. intros [= <- _]. constructor.
  - unfold bind at 1.
    destruct (Pci.new_PCINetDevice a st) as [[d|e] st1] eqn:Ed; [|discriminate].
    unfold bind at 1.
    destruct (Pci.new_devices addrs st1) as [[ds1|e] st2] eqn:Eds; [|discriminate].
    unfold ret. intros [= <- _]. constructor.
    + eapply new_PCINetDevice_capacity; eauto.
    + eapply IH; eauto.
Qed.

(** Every capable device of a collection knows its [sriov_totalvfs] and
    [sriov_numvfs]. *)
Lemma new_PCINetDevices_capacity st ds st' :
  Pci.new_PCINetDevices st = (Ok ds, st') -> Forall Spec.capacity_known ds.
Proof.
  unfold Pci.new_PCINetDevices, bind at 1, ask.
  destruct (Pci.get_pci_ethernet_addresses (host st)) as [addrs|e]; [|discriminate].
  apply new_devices_capacity.
Qed.

Lemma get_device_from_interface_name_In devices name device :
  Pci.get_device_from_interface_name devices name = Some device -> In device devices.
Proof. unfold Pci.get_device_from_interface_name. intros E. now apply find_some in E. Qed.

End Discovery.

(** ** The reconciliation driver *)

Section Reconciliation.
Context {W : Type} `{Host W}.

Lemma configure_interface_capable interfaces interface_name entry (n : Z)
      (st st1 : run_state W) devices device total :
  Cmd.getitem interfaces interface_name = Ok entry ->
  Cmd.getitem entry (YStr "num_vfs") = Ok (YInt n) ->
  Pci.new_PCINetDevices st = (Ok devices, st1) ->
  Pci.get_device_from_interface_name devices interface_name = Some device ->
  Pci.sriov device = true ->
  Pci.sriov_totalvfs device = Some total ->
  Cmd.configure_interface interfaces interface_name st
  = bind (if (n >? total)%Z
          then bind (emit_event (LogWarn (Cmd.too_high_warning (YInt n) device)))
                    (fun _ => ret total)
          else ret n)
         (fun applied =>
            bind (emit_event (LogInfo (Cmd.configuring_info device applied)))
                 (fun _ => bind (Pci.set_sriov_numvfs device applied)
                                (fun _ => ret tt))) st1.
Proof.
  intros He Hn Hd Hfind Hcap Htot. unfold Cmd.configure_interface.
  unfold bind at 1, lift. rewrite He.
  unfold bind at 1. rewrite Hn.
  unfold bind at 1. rewrite Hd, Hfind, Hcap, Htot. reflexivity.
Qed.

(** C3: for an entry whose interface name finds an SR-IOV capable device,
    [configure] calls [set_sriov_numvfs] with the device's
    [sriov_totalvfs], after logging a warning, when the desired [num_vfs]
    is greater, and with the desired [num_vfs] otherwise. *)
Theorem configure_clamps_to_totalvfs
  (interfaces interface_name entry : yaml) (n : Z)
  (st st1 : run_state W) (devices : list Pci.PCINetDevice) (device : Pci.PCINetDevice) :
  Cmd.getitem interfaces interface_name = Ok entry ->
  Cmd.getitem entry (YStr "num_vfs") = Ok (YInt n) ->
  Pci.new_PCINetDevices st = (Ok devices, st1) ->
  Pci.get_device_from_interface_name devices interface_name = Some device ->
  Pci.sriov device = true ->
  exists total,
    Pci.sriov_totalvfs device = Some total
    /\ ((n > total)%Z ->
        Cmd.configure_interface interfaces interface_name st
        = bind (Pci.set_sriov_numvfs device total) (fun _ => ret tt)
            (RunState (host st1)
               (events st1 ++ [LogWarn (Cmd.too_high_warning (YInt n) device);
                               LogInfo (Cmd.configuring_info device total)])%list))
    /\ ((n <= total)%Z ->
        Cmd.configure_interface interfaces interface_name st
        = bind (Pci.set_sriov_numvfs device n) (fun _ => ret tt)
            (RunState (host st1)
               (events st1 ++ [LogInfo (Cmd.configuring_info device n)])%list)).
Proof.
  intros He Hn Hd Hfind Hcap.
  pose proof (new_PCINetDevices_capacity _ _ _ Hd) as Hall.
  rewrite Forall_forall in Hall.
  destruct (Hall device (get_device_from_interface_name_In _ _ _ Hfind) Hcap)
    as (total & num & Htot & _).
  exists total. split; [exact Htot|].
  rewrite (configure_interface_capable _ _ _ _ _ _ _ _ _ He Hn Hd Hfind Hcap Htot).
  split; intros Hcmp.
  - replace (n >? total)%Z with true by (symmetry; rewrite Z.gtb_ltb; apply Z.ltb_lt; lia).
    unfold bind at 1 2, emit_event, ret. simpl. unfold bind at 1.
    simpl. rewrite <- app_assoc. reflexivity.
  - replace (n >? total)%Z with false by (symmetry; rewrite Z.gtb_ltb; apply Z.ltb_ge; lia).
    unfold bind at 1, ret at 1. unfold bind at 1, emit_event. reflexivity.
Qed.

(** C4, as the code has it: for an entry whose interface name finds no
    device, or a device that is not SR-IOV capable, the loop body of
    [configure] does nothing once discovery has run: it raises nothing,
    logs nothing of its own, writes nothing, and the loop goes on with the
    remaining entries. *)
Theorem configure_skips_silently
  (interfaces interface_name entry num_vfs : yaml) (rest : list yaml)
  (st st1 : run_state W) (devices : list Pci.PCINetDevice) :
  Cmd.getitem interfaces interface_name = Ok entry ->
  Cmd.getitem entry (YStr "num_vfs") = Ok num_vfs ->
  Pci.new_PCINetDevices st = (Ok devices, st1) ->
  (Pci.get_device_from_interface_name devices interface_name = None
   \/ exists device,
       Pci.get_device_from_interface_name devices interface_name = Some device
       /\ Pci.sriov device = false) ->
  Cmd.configure_interface interfaces interface_name st = (Ok tt, st1)
  /\ host st1 = host st
  /\ writes (events st1) = writes (events st)
  /\ events st1 = (events st ++ logged Pci.new_PCINetDevices (host st))%list
  /\ for_each (Cmd.configure_interface interfaces) (interface_name :: rest) st
     = for_each (Cmd.configure_interface interfaces) rest st1.
Proof.
  intros He Hn Hd Hskip.
  assert (E : Cmd.configure_interface interfaces interface_name st = (Ok tt, st1)).
  { unfold Cmd.configure_interface.
    unfold bind at 1, lift. rewrite He.
    unfold bind at 1. rewrite Hn.
    unfold bind at 1. rewrite Hd.
    destruct Hskip as [-> | (device & -> & ->)]; reflexivity. }
  destruct (quiet_run _ _ _ _ quiet_new_PCINetDevices Hd) as (Hh & Hw & _ & Hev).
  repeat split; try assumption.
  simpl. unfold bind at 1. now rewrite E.
Qed.

(** C10: when the configuration file is missing, [configure] logs a
    warning and [main] returns; when the file is there and the document is
    not a mapping, or is a mapping without the key [interfaces],
    [configure] raises before it does anything and [main] ends the process
    with [SystemExit] and the message, a non-zero exit. *)
Theorem configure_requires_interfaces_key (prog : string) (st : run_state W) :
  (path_exists (host st) Cmd.DEFAULT_CONF_FILE = false ->
   Cmd.main prog (Some Cmd.configure) st
   = (Cmd.Returned,
      RunState (host st)
        (events st ++ [LogWarn "No configuration file found, skipping configuration"])%list))
  /\ (forall doc,
        path_exists (host st) Cmd.DEFAULT_CONF_FILE = true ->
        yaml_load (host st) Cmd.DEFAULT_CONF_FILE = Ok doc ->
        Spec.has_interfaces doc = false ->
        exists e,
          (exn_kind e = KeyError \/ exn_kind e = TypeError)
          /\ Cmd.configure st = (Raise e, st)
          /\ Cmd.main prog (Some Cmd.configure) st
             = (Cmd.SystemExit (prog ++ ": " ++ exn_msg e), st)
          /\ Cmd.exit_code (fst (Cmd.main prog (Some Cmd.configure) st)) <> 0%Z).
Proof.
  split.
  - intros Hno. unfold Cmd.main, Cmd.configure, bind, ask. now rewrite Hno.
  - intros doc Hyes Hdoc Hlack.
    assert (Hget : exists e, (exn_kind e = KeyError \/ exn_kind e = TypeError)
                             /\ Cmd.getitem doc (YStr "interfaces") = Raise e).
    { destruct doc as [|k|s|items|entries]; simpl in *;
        try (eexists; split; [|reflexivity]; right; reflexivity).
      destruct (Cmd.dict_lookup entries (YStr "interfaces")); [discriminate|].
      eexists; split; [|reflexivity]; left; reflexivity. }
    destruct Hget as (e & Hkind & Hget). exists e.
    assert (E : Cmd.configure st = (Raise e, st)).
    { unfold Cmd.configure. unfold bind at 1, ask. rewrite Hyes.
      unfold bind at 1. rewrite Hdoc. unfold bind at 1, lift. now rewrite Hget. }
    unfold Cmd.main. rewrite E. simpl. repeat split; auto. discriminate.
Qed.

End Reconciliation.

(** ** The PCI address of a matched directory *)

Section PciAddressOfPath.

Lemma prefix_app (sub post : string) : String.prefix sub (sub ++ post) = true.
Proof.
  induction sub as [|a sub IH]; simpl; [now destruct post|].
  destruct (ascii_dec a a) as [_|N]; [exact IH | now destruct N].
Qed.

Lemma prefix_inv (sub s : string) :
  String.prefix sub s = true -> exists post, s = sub ++ post.
Proof.
  revert s. induction sub as [|a sub IH]; intros s.
  - intros _. now exists s.
  - destruct s as [|b s]; simpl; [discriminate|].
    destruct (ascii_dec a b) as [->|_]; [|discriminate].
    intros E. destruct (IH s E) as [post ->]. now exists post.
Qed.

(** [sub in s] holds exactly when [sub] occurs somewhere in [s]. *)
Lemma contains_iff (sub s : string) :
  Py.contains sub s = true <-> exists pre post, s = pre ++ sub ++ post.
Proof.
  induction s as [|a s IH]; cbn [Py.contains].
  - rewrite orb_false_r. split.
    + intros E. destruct (prefix_inv _ _ E) as [post ->]. now exists "", post.
    + intros (pre & post & E). destruct pre; [|discriminate E].
      simpl in E. rewrite E. apply prefix_app.
  - rewrite orb_true_iff, IH. split.
    + intros [E | (pre & post & ->)].
      * destruct (prefix_inv _ _ E) as [post E']. now exists "", post.
      * now exists (String a pre), post.
    + intros (pre & post & E). destruct pre as [|b pre]; simpl in E.
      * left. rewrite E. apply prefix_app.
      * right. injection E as _ ->. now exists pre, post.
Qed.

Lemma split_app c s t :
  Py.split c (s ++ String c t) = (Py.split c s ++ Py.split c t)%list.
Proof.
  induction s as [|a s IH]; simpl.
  - now rewrite Ascii.eqb_refl.
  - destruct (Ascii.eqb a c); simpl; [now rewrite IH|].
    rewrite IH. destruct (Py.split c s) eqn:E; [now destruct (split_not_nil c s)|].
    reflexivity.
Qed.

Lemma split_path dir parent last :
  Spec.count "/" parent = 0 -> Spec.count "/" last = 0 ->
  rev (Py.split "/" (dir ++ "/" ++ parent ++ "/" ++ last))
  = last :: parent :: rev (Py.split "/" dir).
Proof.
  intros Hp Hl.
  change (dir ++ "/" ++ parent ++ "/" ++ last)
    with (dir ++ String "/" (parent ++ String "/" last)).
  rewrite split_app, (split_app_sep "/" parent _ Hp), (split_no_sep "/" last Hl).
  rewrite rev_app_distr. reflexivity.
Qed.

(** On any text [dir/parent/last], the code takes the second-to-last
    component [parent] exactly when the last component contains
    ["virtio"], which it does when it begins with it, and the last
    component otherwise. *)
Theorem pci_address_of_path_virtio (dir parent last : string) :
  Spec.count "/" parent = 0 -> Spec.count "/" last = 0 ->
  ((exists pre post, last = pre ++ "virtio" ++ post) ->
   Pci.pci_address_of_path (dir ++ "/" ++ parent ++ "/" ++ last) = Ok parent)
  /\ (~ (exists pre post, last = pre ++ "virtio" ++ post) ->
      Pci.pci_address_of_path (dir ++ "/" ++ parent ++ "/" ++ last) = Ok last)
  /\ (Py.startswith "virtio" last = true ->
      Pci.pci_address_of_path (dir ++ "/" ++ parent ++ "/" ++ last) = Ok parent).
Proof.
  intros Hp Hl.
  assert (E : Pci.pci_address_of_path (dir ++ "/" ++ parent ++ "/" ++ last)
              = if Py.contains "virtio" last then Ok parent else Ok last).
  { unfold Pci.pci_address_of_path, Py.last_item, Py.penultimate_item.
    rewrite (split_path dir parent last Hp Hl). reflexivity. }
  rewrite E. split; [|split].
  - intros Hin. apply contains_iff in Hin. now rewrite Hin.
  - intros Hout. destruct (Py.contains "virtio" last) eqn:C; [|reflexivity].
    apply contains_iff in C. now destruct Hout.
  - intros Hstart. destruct (prefix_inv _ _ Hstart) as [post Epost].
    assert (C : Py.contains "virtio" last = true).
    { apply contains_iff. now exists "", post. }
    now rewrite C.
Qed.

Lemma pci_address_of_path_virtio_examples :
  Pci.pci_address_of_path "/sys/devices/pci0000:00/0000:00:03.0/virtio0"
  = Ok "0000:00:03.0"
  /\ Pci.pci_address_of_path "/sys/devices/pci0000:00/0000:00:1f.6" = Ok "0000:00:1f.6".
Proof.
  split.
  - apply (pci_address_of_path_virtio "/sys/devices/pci0000:00" "0000:00:03.0" "virtio0");
      [reflexivity | reflexivity | reflexivity].
  - apply (pci_address_of_path_virtio "/sys/devices" "pci0000:00" "0000:00:1f.6");
      [reflexivity | reflexivity |].
    intros (pre & post & E).
    assert (C : Py.contains "virtio" "0000:00:1f.6" = true)
      by (apply contains_iff; now exists pre, post).
    discriminate C.
Defined.

(** Why the shape of sysfs matters: on a text whose last component
    contains ["virtio"] without beginning with it, which is the real path
    of no PCI device directory, the substring test of the code and the
    prefix rule differ. *)
Lemma pci_address_of_path_not_by_prefix :
  Py.startswith "virtio" "net-virtio0" = false
  /\ Pci.pci_address_of_path "/sys/devices/pci0000:00/0000:00:03.0/net-virtio0"
     = Ok "0000:00:03.0"
  /\ Spec.pci_address_by_prefix "/sys/devices/pci0000:00/0000:00:03.0/net-virtio0"
     = Ok "net-virtio0"
  /\ Pci.pci_address_of_path "/sys/devices/pci0000:00/0000:00:03.0/net-virtio0"
     <> Spec.pci_address_by_prefix "/sys/devices/pci0000:00/0000:00:03.0/net-virtio0".
Proof. repeat split. discriminate. Qed.

Lemma no_v_no_virtio (q : ascii -> bool) (s : string) :
  q "v"%char = false -> Spec.all_chars q s = true ->
  Py.contains "virtio" s = false /\ Py.startswith "virtio" s = false.
Proof.
  intros Hv. unfold Py.startswith. induction s as [|a s IH]; [now split|].
  cbn [Spec.all_chars]. intros Hs. apply andb_prop in Hs as [Ha Hs].
  assert (Hp : String.prefix "virtio" (String a s) = false).
  { cbn [String.prefix]. destruct (ascii_dec "v" a) as [<-|_]; [congruence | reflexivity]. }
  split; [|exact Hp].
  cbn [Py.contains]. rewrite Hp. exact (proj1 (IH Hs)).
Qed.

Lemma startswith_contains (sub s : string) :
  Py.startswith sub s = true -> Py.contains sub s = true.
Proof.
  unfold Py.startswith. intros Hp. destruct s; cbn [Py.contains]; now rewrite Hp.
Qed.

(** C9: for a matched directory of sysfs, whose real path ends in the name
    of a PCI device directory or, below it, in a component that begins
    with ["virtio"], the PCI address is the second-to-last component of
    the real path exactly when the last component begins with ["virtio"],
    and the last component otherwise: the code follows the rule of the
    specification. *)
Theorem pci_address_of_path_sysfs (dir parent last : string) :
  Spec.count "/" parent = 0 -> Spec.count "/" last = 0 ->
  Py.startswith "virtio" last = true \/ Spec.is_pci_name last = true ->
  Pci.pci_address_of_path (dir ++ "/" ++ parent ++ "/" ++ last)
  = Ok (if Py.startswith "virtio" last then parent else last)
  /\ Pci.pci_address_of_path (dir ++ "/" ++ parent ++ "/" ++ last)
     = Spec.pci_address_by_prefix (dir ++ "/" ++ parent ++ "/" ++ last).
Proof.
  intros Hp Hl Hshape.
  assert (Ecode : Pci.pci_address_of_path (dir ++ "/" ++ parent ++ "/" ++ last)
                  = if Py.contains "virtio" last then Ok parent else Ok last).
  { unfold Pci.pci_address_of_path, Py.last_item, Py.penultimate_item.
    rewrite (split_path dir parent last Hp Hl). reflexivity. }
  assert (Espec : Spec.pci_address_by_prefix (dir ++ "/" ++ parent ++ "/" ++ last)
                  = if Py.startswith "virtio" last then Ok parent else Ok last).
  { unfold Spec.pci_address_by_prefix, Py.last_item, Py.penultimate_item.
    rewrite (split_path dir parent last Hp Hl). reflexivity. }
  assert (Hsame : Py.contains "virtio" last = Py.startswith "virtio" last).
  { destruct Hshape as [Hstart | Hname].
    - now rewrite Hstart, (startswith_contains _ _ Hstart).
    - destruct (no_v_no_virtio Spec.pci_name_char last eq_refl Hname) as [-> ->].
      reflexivity. }
  rewrite Ecode, Espec, Hsame. split; [|reflexivity].
  now destruct (Py.startswith "virtio" last).
Qed.

(** A virtio network device below its PCI device, and a PCI network
    device. *)
Lemma pci_address_of_path_sysfs_examples :
  (Pci.pci_address_of_path "/sys/devices/pci0000:00/0000:00:03.0/virtio0"
   = Ok "0000:00:03.0"
   /\ Pci.pci_address_of_path "/sys/devices/pci0000:00/0000:00:03.0/virtio0"
      = Spec.pci_address_by_prefix "/sys/devices/pci0000:00/0000:00:03.0/virtio0")
  /\ (Pci.pci_address_of_path "/sys/devices/pci0000:00/0000:00:1f.6" = Ok "0000:00:1f.6"
      /\ Pci.pci_address_of_path "/sys/devices/pci0000:00/0000:00:1f.6"
         = Spec.pci_address_by_prefix "/sys/devices/pci0000:00/0000:00:1f.6").
Proof.
  split.
  - apply (pci_address_of_path_sysfs "/sys/devices/pci0000:00" "0000:00:03.0" "virtio0");
      [reflexivity | reflexivity | left; reflexivity].
  - apply (pci_address_of_path_sysfs "/sys/devices" "pci0000:00" "0000:00:1f.6");
      [reflexivity | reflexivity | right; reflexivity].
Defined.

End PciAddressOfPath.

(** ** Runs on the simulated host *)

Section SimulatedRuns.

(** Discovery on the host with two adapters. *)
Lemma two_nics_discovery doc :
  Pci.new_PCINetDevices (Sim.start (Sim.two_nics doc))
  = (Ok [Sim.eth0; Sim.eth1], Sim.start (Sim.two_nics doc)).
Proof. vm_compute. reflexivity. Qed.

(** End to end: [eth0] has 2 VFs and 4 are asked for. *)
Lemma configure_eth0_run :
  events (snd (Cmd.configure
                 (Sim.start (Sim.two_nics (Ok (Sim.interfaces_doc [("eth0", 4%Z)]))))))
  = [LogInfo "Configuring SR-IOV device eth0 with 4 VF's";
     SysWrite "/sys/bus/pci/devices/0000:01:00.0/sriov_numvfs" "0";
     SysWrite "/sys/bus/pci/devices/0000:01:00.0/sriov_numvfs" "4"].
Proof. vm_compute. reflexivity. Qed.

(** A change from 2 VFs to 4, both non-zero: ["0"] is written first. *)
Lemma set_sriov_numvfs_two_writes_eth0 :
  exists evs',
    Pci.set_sriov_numvfs Sim.eth0 4 (Sim.start (Sim.two_nics (Ok YNull)))
    = (Ok (true, Pci.Device "0000:01:00.0" (Some "eth0") (Some "52:54:00:00:00:01")
                            (Some "up") true (Some 8%Z) (Some 4%Z)),
       RunState (snd (Sim.sim_write
                        (snd (Sim.sim_write (Sim.two_nics (Ok YNull))
                                (Pci.sriov_numvfs_path Sim.eth0) "0"))
                        (Pci.sriov_numvfs_path Sim.eth0) "4")) evs')
    /\ writes evs' = [SysWrite "/sys/bus/pci/devices/0000:01:00.0/sriov_numvfs" "0";
                      SysWrite "/sys/bus/pci/devices/0000:01:00.0/sriov_numvfs" "4"].
Proof.
  destruct (set_sriov_numvfs_two_writes
              Sim.eth0
              (Pci.Device "0000:01:00.0" (Some "eth0") (Some "52:54:00:00:00:01")
                          (Some "up") true (Some 8%Z) (Some 0%Z))
              (Pci.Device "0000:01:00.0" (Some "eth0") (Some "52:54:00:00:00:01")
                          (Some "up") true (Some 8%Z) (Some 4%Z))
              4%Z
              (Sim.two_nics (Ok YNull))
              (snd (Sim.sim_write (Sim.two_nics (Ok YNull))
                      (Pci.sriov_numvfs_path Sim.eth0) "0"))
              (snd (Sim.sim_write
                      (snd (Sim.sim_write (Sim.two_nics (Ok YNull))
                              (Pci.sriov_numvfs_path Sim.eth0) "0"))
                      (Pci.sriov_numvfs_path Sim.eth0) "4"))
              [])
    as (evs' & Hrun & _ & Hwrites).
  - reflexivity.
  - simpl. discriminate.
  - vm_compute. reflexivity.
  - vm_compute. reflexivity.
  - vm_compute. reflexivity.
  - vm_compute. reflexivity.
  - exists evs'. split; [exact Hrun | exact Hwrites].
Defined.

(** The target equals the 2 VFs the device has; and a device that is not
    capable. *)
Lemma set_sriov_numvfs_noop_examples :
  Pci.set_sriov_numvfs Sim.eth0 2 (Sim.start (Sim.two_nics (Ok YNull)))
  = (Ok (false, Sim.eth0), Sim.start (Sim.two_nics (Ok YNull)))
  /\ Pci.set_sriov_numvfs Sim.eth1 3 (Sim.start (Sim.two_nics (Ok YNull)))
     = (Ok (false, Sim.eth1), Sim.start (Sim.two_nics (Ok YNull))).
Proof.
  split.
  - apply set_sriov_numvfs_noop; [lia | right; reflexivity].
  - apply set_sriov_numvfs_noop; [lia | left; reflexivity].
Defined.

Lemma refresh_without_record_example :
  Pci.update_interface_info Sim.gone (Sim.start (Sim.two_nics (Ok YNull)))
  = (Ok Sim.gone, Sim.start (Sim.two_nics (Ok YNull)))
  /\ Pci.update_attributes Sim.gone (Sim.start (Sim.two_nics (Ok YNull)))
     = (Ok Sim.gone, Sim.start (Sim.two_nics (Ok YNull))).
Proof.
  apply (refresh_without_record_keeps_attributes
           Sim.gone (Sim.start (Sim.two_nics (Ok YNull))) (Sim.start (Sim.two_nics (Ok YNull)))
           [Pci.NetDev "eth0" "52:54:00:00:00:01" "0000:01:00.0" "up" true
                       (Some 8%Z) (Some 2%Z);
            Pci.NetDev "eth1" "52:54:00:00:00:02" "0000:02:00.0" "down" false
                       None None]).
  - vm_compute. reflexivity.
  - repeat constructor; simpl; discriminate.
Defined.

(** 128 VFs are asked of [eth0], which supports 8. *)
Lemma configure_clamps_eth0 :
  Cmd.configure_interface Sim.desired (YStr "eth0") (Sim.start Sim.configured)
  = bind (Pci.set_sriov_numvfs Sim.eth0 8) (fun _ => ret tt)
      (RunState Sim.configured
         [LogWarn (Cmd.too_high_warning (YInt 128) Sim.eth0);
          LogInfo (Cmd.configuring_info Sim.eth0 8)])
  /\ writes (events (snd (Cmd.configure_interface Sim.desired (YStr "eth0")
                            (Sim.start Sim.configured))))
     = [SysWrite "/sys/bus/pci/devices/0000:01:00.0/sriov_numvfs" "0";
        SysWrite "/sys/bus/pci/devices/0000:01:00.0/sriov_numvfs" "8"].
Proof.
  destruct (configure_clamps_to_totalvfs
              Sim.desired (YStr "eth0") (YMap [(YStr "num_vfs", YInt 128)]) 128%Z
              (Sim.start Sim.configured) (Sim.start Sim.configured)
              [Sim.eth0; Sim.eth1] Sim.eth0)
    as (total & Htotal & Hgreater & _).
  - reflexivity.
  - reflexivity.
  - vm_compute. reflexivity.
  - reflexivity.
  - reflexivity.
  - injection Htotal as <-. split.
    + apply Hgreater. lia.
    + vm_compute. reflexivity.
Defined.

(** [eth7] names no device and [eth1] is not capable: both are skipped. *)
Lemma configure_skips_examples :
  Cmd.configure_interface Sim.desired (YStr "eth7") (Sim.start Sim.configured)
  = (Ok tt, Sim.start Sim.configured)
  /\ Cmd.configure_interface Sim.desired (YStr "eth1") (Sim.start Sim.configured)
     = (Ok tt, Sim.start Sim.configured)
  /\ for_each (Cmd.configure_interface Sim.desired)
       [YStr "eth7"; YStr "eth1"; YStr "eth0"] (Sim.start Sim.configured)
     = for_each (Cmd.configure_interface Sim.desired)
         [YStr "eth0"] (Sim.start Sim.configured).
Proof.
  destruct (configure_skips_silently
              Sim.desired (YStr "eth7") (YMap [(YStr "num_vfs", YInt 3)]) (YInt 3)
              [YStr "eth1"; YStr "eth0"]
              (Sim.start Sim.configured) (Sim.start Sim.configured)
              [Sim.eth0; Sim.eth1])
    as (H7 & _ & _ & _ & Hnext7);
    [reflexivity | reflexivity | vm_compute; reflexivity | left; reflexivity |].
  destruct (configure_skips_silently
              Sim.desired (YStr "eth1") (YMap [(YStr "num_vfs", YInt 1)]) (YInt 1)
              [YStr "eth0"]
              (Sim.start Sim.configured) (Sim.start Sim.configured)
              [Sim.eth0; Sim.eth1])
    as (H1 & _ & _ & _ & Hnext1);
    [reflexivity | reflexivity | vm_compute; reflexivity
     | right; exists Sim.eth1; split; reflexivity |].
  split; [exact H7 | split; [exact H1|]].
  rewrite Hnext7. exact Hnext1.
Defined.

(** The entries for [eth7], for which no device is found, and for [eth1],
    whose device is not SR-IOV capable, are skipped and no warning is
    logged: the run logs nothing. *)
Lemma configure_skip_logs_no_warning :
  Pci.get_device_from_interface_name [Sim.eth0; Sim.eth1] (YStr "eth7") = None
  /\ Pci.get_device_from_interface_name [Sim.eth0; Sim.eth1] (YStr "eth1") = Some Sim.eth1
  /\ Pci.sriov Sim.eth1 = false
  /\ Cmd.configure_interface Sim.desired (YStr "eth7") (Sim.start Sim.configured)
     = (Ok tt, RunState Sim.configured [])
  /\ Cmd.configure_interface Sim.desired (YStr "eth1") (Sim.start Sim.configured)
     = (Ok tt, RunState Sim.configured [])
  /\ ~ (exists msg,
          In (LogWarn msg)
             (events (snd (Cmd.configure_interface Sim.desired (YStr "eth7")
                             (Sim.start Sim.configured)))))
  /\ ~ (exists msg,
          In (LogWarn msg)
             (events (snd (Cmd.configure_interface Sim.desired (YStr "eth1")
                             (Sim.start Sim.configured))))).
Proof.
  repeat split; try (vm_compute; reflexivity).
  - intros (msg & Hin). vm_compute in Hin. exact Hin.
  - intros (msg & Hin). vm_compute in Hin. exact Hin.
Qed.

(** A missing file; an empty document; a document whose only key is
    misspelt. *)
Lemma configure_requires_interfaces_key_examples :
  Cmd.main "sriov-netplan-shim" (Some Cmd.configure) (Sim.start Sim.unconfigured)
  = (Cmd.Returned,
     RunState Sim.unconfigured
       [LogWarn "No configuration file found, skipping configuration"])
  /\ (exists e,
        Cmd.configure (Sim.start (Sim.two_nics (Ok YNull)))
        = (Raise e, Sim.start (Sim.two_nics (Ok YNull)))
        /\ Cmd.main "sriov-netplan-shim" (Some Cmd.configure)
             (Sim.start (Sim.two_nics (Ok YNull)))
           = (Cmd.SystemExit ("sriov-netplan-shim: " ++ exn_msg e),
              Sim.start (Sim.two_nics (Ok YNull))))
  /\ (exists e,
        Cmd.configure (Sim.start (Sim.two_nics (Ok (YMap [(YStr "interface", Sim.desired)]))))
        = (Raise e, Sim.start (Sim.two_nics (Ok (YMap [(YStr "interface", Sim.desired)]))))
        /\ exn_kind e = KeyError).
Proof.
  split; [|split].
  - destruct (configure_requires_interfaces_key
                "sriov-netplan-shim" (Sim.start Sim.unconfigured)) as [Hmissing _].
    apply Hmissing. reflexivity.
  - destruct (configure_requires_interfaces_key
                "sriov-netplan-shim" (Sim.start (Sim.two_nics (Ok YNull)))) as [_ Hdoc].
    destruct (Hdoc YNull eq_refl eq_refl eq_refl) as (e & _ & Hrun & Hmain & _).
    exists e. split; [exact Hrun | exact Hmain].
  - destruct (configure_requires_interfaces_key
                "sriov-netplan-shim"
                (Sim.start (Sim.two_nics (Ok (YMap [(YStr "interface", Sim.desired)])))))
      as [_ Hdoc].
    destruct (Hdoc (YMap [(YStr "interface", Sim.desired)]) eq_refl eq_refl eq_refl)
      as (e & _ & Hrun & _ & _).
    exists e. split; [exact Hrun|].
    vm_compute in Hrun. injection Hrun as <-. reflexivity.
Defined.

End SimulatedRuns.

(** ** The physical-function naming pattern *)

Section PfPattern.

Lemma range_digit (a : ascii) : Re.range_matches true "0" "9" a = Py.isdigit a.
Proof. destruct a as [[] [] [] [] [] [] [] []]; reflexivity. Qed.

Lemma chr_matches_either (lo up a : ascii) :
  Re.lower lo = lo -> Re.lower up = lo ->
  (forall b, Re.lower b = lo -> b = lo \/ b = up) ->
  Re.chr_matches true lo a = true <-> a = lo \/ a = up.
Proof.
  intros Hlo Hup Honly. unfold Re.chr_matches. rewrite Hlo. split.
  - intros E. apply Ascii.eqb_eq in E. symmetry in E. auto.
  - intros [-> | ->]; apply Ascii.eqb_eq; congruence.
Qed.

Lemma lower_p (b : ascii) : Re.lower b = "p"%char -> (b = "p" \/ b = "P")%char.
Proof.
  destruct b as [[] [] [] [] [] [] [] []]; vm_compute; intros E;
    solve [discriminate E | now left | now right].
Qed.

Lemma lower_s (b : ascii) : Re.lower b = "s"%char -> (b = "s" \/ b = "S")%char.
Proof.
  destruct b as [[] [] [] [] [] [] [] []]; vm_compute; intros E;
    solve [discriminate E | now left | now right].
Qed.

Lemma chr_p (a : ascii) : Re.chr_matches true "p" a = true <-> (a = "p" \/ a = "P")%char.
Proof. apply chr_matches_either; [reflexivity | reflexivity | exact lower_p]. Qed.

Lemma chr_s (a : ascii) : Re.chr_matches true "s" a = true <-> (a = "s" \/ a = "S")%char.
Proof. apply chr_matches_either; [reflexivity | reflexivity | exact lower_s]. Qed.

Lemma digit_run (s : string) :
  Re.run true (Re.Range "0" "9") s
  = match s with
    | String a s' => if Py.isdigit a then [s'] else []
    | EmptyString => []
    end.
Proof. destruct s as [|a s']; simpl; [reflexivity | now rewrite range_digit]. Qed.

(** What [[0-9]+] can leave of [s]: the text after any non-empty run of
    digits that [s] begins with. *)
Lemma repeat1_digits (fuel : nat) : forall s rest,
  String.length s < fuel ->
  In rest (Re.repeat1 (Re.run true (Re.Range "0" "9")) fuel s)
  <-> exists ds, Spec.is_number ds /\ s = ds ++ rest.
Proof.
  induction fuel as [|fuel IH]; intros s rest Hlen; [lia|].
  cbn [Re.repeat1]. rewrite digit_run. destruct s as [|a s'].
  - simpl. split; [tauto|]. intros (ds & [Hne _] & E).
    destruct ds; [congruence | discriminate].
  - destruct (Py.isdigit a) eqn:Da.
    + cbn [flat_map]. rewrite app_nil_r.
      replace (String.length s' <? String.length (String a s'))%nat with true
        by (symmetry; apply Nat.ltb_lt; simpl; lia).
      rewrite in_app_iff, IH by (simpl in Hlen; lia). split.
      * intros [(ds & [Hne Hd] & E) | [E | []]].
        -- exists (String a ds). split; [split; [discriminate|]|].
           ++ simpl. now rewrite Da.
           ++ simpl. now rewrite E.
        -- exists (String a ""). subst. split; [split; [discriminate|]|reflexivity].
           simpl. now rewrite Da.
      * intros (ds & [Hne Hd] & E). destruct ds as [|b ds]; [congruence|].
        simpl in E. injection E as -> E. simpl in Hd.
        apply andb_prop in Hd as [_ Hd]. destruct ds as [|c ds].
        -- right. left. exact E.
        -- left. exists (String c ds). split; [split; [discriminate | exact Hd] | exact E].
    + simpl. split; [tauto|]. intros (ds & [Hne Hd] & E).
      destruct ds as [|b ds]; [congruence|]. simpl in E. injection E as -> _.
      simpl in Hd. rewrite Da in Hd. discriminate.
Qed.

Lemma in_digits1 (s rest : string) :
  In rest (Re.run true Pci.digits1 s) <-> exists ds, Spec.is_number ds /\ s = ds ++ rest.
Proof. unfold Pci.digits1. cbn [Re.run]. apply repeat1_digits. lia. Qed.

Lemma in_run_seq r1 r2 s rest :
  In rest (Re.run true (Re.Seq r1 r2) s)
  <-> exists mid, In mid (Re.run true r1 s) /\ In rest (Re.run true r2 mid).
Proof. cbn [Re.run]. apply in_flat_map. Qed.

Lemma in_run_alt r1 r2 s rest :
  In rest (Re.run true (Re.Alt r1 r2) s)
  <-> In rest (Re.run true r1 s) \/ In rest (Re.run true r2 s).
Proof. cbn [Re.run]. apply in_app_iff. Qed.

Lemma in_run_chr c s rest :
  In rest (Re.run true (Re.Chr c) s)
  <-> exists a, s = String a rest /\ Re.chr_matches true c a = true.
Proof.
  cbn [Re.run]. destruct s as [|a s'].
  - split; [intros [] | intros (a & E & _); discriminate].
  - destruct (Re.chr_matches true c a) eqn:E; cbn [In].
    + split.
      * intros [<- | []]. now exists a.
      * intros (b & Es & _). injection Es as _ ->. now left.
    + split; [intros [] | intros (b & Es & E')].
      injection Es as <- _. rewrite E in E'. discriminate E'.
Qed.

Lemma in_run_eos s rest :
  In rest (Re.run true Re.Eos s) <-> rest = s /\ Re.at_end s = true.
Proof.
  cbn [Re.run]. destruct (Re.at_end s); simpl.
  - split; [intros [<- | []]; auto | intros [-> _]; now left].
  - split; [intros [] | intros [_ E]; discriminate].
Qed.

Lemma is_match_iff r s :
  Re.is_match true r s = true <-> exists rest, In rest (Re.run true r s).
Proof.
  unfold Re.is_match. destruct (Re.run true r s) as [|x xs]; simpl.
  - split; [discriminate | intros (rest & [])].
  - split; [intros _; exists x; now left | reflexivity].
Qed.

(** [PF_PHYS_PORT_NAME_REGEX.match(t)] succeeds exactly on a
    physical-function name, possibly followed by a last newline. *)
Lemma pf_regex_matches (t : string) :
  Re.is_match true Pci.PF_PHYS_PORT_NAME_REGEX t = true
  <-> exists name tail,
        Spec.pf_pattern name /\ t = name ++ tail /\ Re.at_end tail = true.
Proof.
  rewrite is_match_iff. unfold Pci.PF_PHYS_PORT_NAME_REGEX. split.
  - intros (rest & Hin). apply in_run_alt in Hin as [HA | HB].
    + apply in_run_seq in HA as (m1 & Hp & H2).
      apply in_run_chr in Hp as (p & -> & Hp).
      apply in_run_seq in H2 as (m2 & Hd & He).
      apply in_digits1 in Hd as (n & Hn & ->).
      apply in_run_eos in He as (-> & Hend).
      exists (String p n), m2. split; [|split; [reflexivity | exact Hend]].
      exists p, n. split; [now apply chr_p|]. split; [exact Hn | now left].
    + apply in_run_seq in HB as (m1 & Hp & H2).
      apply in_run_chr in Hp as (p & -> & Hp).
      apply in_run_seq in H2 as (m2 & Hd & H3).
      apply in_digits1 in Hd as (n & Hn & ->).
      apply in_run_seq in H3 as (m3 & Hs & H4).
      apply in_run_chr in Hs as (s & -> & Hs).
      apply in_run_seq in H4 as (m4 & Hd2 & He).
      apply in_digits1 in Hd2 as (m & Hm & ->).
      apply in_run_eos in He as (-> & Hend).
      exists (String p (n ++ String s m)), m4. split; [|split; [|exact Hend]].
      * exists p, n. split; [now apply chr_p|]. split; [exact Hn|].
        right. exists s, m. split; [now apply chr_s|]. now split.
      * simpl. now rewrite append_assoc.
  - intros (name & tail & (p & n & Hp & Hn & Hshape) & -> & Hend).
    exists tail. apply in_run_alt.
    destruct Hshape as [-> | (s & m & Hs & Hm & ->)]; [left | right].
    + apply in_run_seq. exists (n ++ tail). split.
      * apply in_run_chr. exists p. split; [reflexivity | now apply chr_p].
      * apply in_run_seq. exists tail. split.
        -- apply in_digits1. now exists n.
        -- now apply in_run_eos.
    + apply in_run_seq. exists (n ++ String s (m ++ tail)). split.
      * apply in_run_chr. exists p. split; [|now apply chr_p].
        simpl. now rewrite append_assoc.
      * apply in_run_seq. exists (String s (m ++ tail)). split.
        -- apply in_digits1. now exists n.
        -- apply in_run_seq. exists (m ++ tail). split.
           ++ apply in_run_chr. exists s. split; [reflexivity | now apply chr_s].
           ++ apply in_run_seq. exists tail. split.
              ** apply in_digits1. now exists m.
              ** now apply in_run_eos.
Qed.

(** [rstrip] leaves no white space at the end. *)
Lemma rstrip_last (s : string) : forall u a,
  Py.rstrip s = u ++ String a "" -> Py.isspace a = false.
Proof.
  induction s as [|c s IH]; intros u a; simpl.
  - destruct u; discriminate.
  - destruct (Py.rstrip s) as [|d r] eqn:E.
    + destruct (Py.isspace c) eqn:Sc.
      * destruct u; discriminate.
      * destruct u as [|b u]; simpl.
        -- intros [= <-]. exact Sc.
        -- intros E'. injection E' as _ E'. destruct u; discriminate E'.
    + destruct u as [|b u]; simpl.
      * intros E'. inversion E'.
      * intros [= _ E']. now apply (IH u a).
Qed.

Lemma strip_tail (content name tail : string) :
  Py.strip content = name ++ tail -> Re.at_end tail = true -> tail = "".
Proof.
  intros E Hend. destruct tail as [|c [|d tail]]; [reflexivity| |discriminate].
  simpl in Hend. apply Ascii.eqb_eq in Hend. subst c.
  unfold Py.strip in E. apply rstrip_last in E. discriminate.
Qed.

(** On trimmed content the regular expression accepts the names [p<N>]
    and [p<N>s<M>], in either case, and nothing else. *)
Lemma pf_regex_strip (content : string) :
  Re.is_match true Pci.PF_PHYS_PORT_NAME_REGEX (Py.strip content) = true
  <-> Spec.pf_pattern (Py.strip content).
Proof.
  rewrite pf_regex_matches. split.
  - intros (name & tail & Hname & E & Hend).
    rewrite (strip_tail _ _ _ E Hend), append_nil_r in E. now rewrite E.
  - intros Hname. exists (Py.strip content), "".
    split; [exact Hname | split; [now rewrite append_nil_r | reflexivity]].
Qed.

Lemma pf_regex_examples :
  Re.is_match true Pci.PF_PHYS_PORT_NAME_REGEX "p0" = true
  /\ Re.is_match true Pci.PF_PHYS_PORT_NAME_REGEX "p0s1" = true
  /\ Re.is_match true Pci.PF_PHYS_PORT_NAME_REGEX "P0" = true
  /\ Re.is_match true Pci.PF_PHYS_PORT_NAME_REGEX "P12S3" = true
  /\ Re.is_match true Pci.PF_PHYS_PORT_NAME_REGEX "eth0" = false
  /\ Re.is_match true Pci.PF_PHYS_PORT_NAME_REGEX "pf0vf1" = false
  /\ Re.is_match true Pci.PF_PHYS_PORT_NAME_REGEX "xp0" = false
  /\ Re.is_match true Pci.PF_PHYS_PORT_NAME_REGEX "p0x" = false.
Proof. repeat split; reflexivity. Qed.

End PfPattern.

(** ** The physical-function resolver *)

Section Resolver.
Context {W : Type} `{Host W}.

(** What [_phys_port_name_is_pf] answers for a candidate whose attribute
    file is either readable or fails with an [OSError]. *)
Lemma _phys_port_name_is_pf_spec (w : W) (sysdir netdev : string) :
  (forall e, read_text w (Spec.phys_port_name_file sysdir netdev) = Raise e ->
             exn_kind e = OSError) ->
  exists answer,
    Pci._phys_port_name_is_pf w (Py.path_join (Py.path_join sysdir ["net"]) [netdev])
    = Ok answer
    /\ (answer = Some true <-> Spec.names_pf w sysdir netdev).
Proof.
  intros Hos. unfold Pci._phys_port_name_is_pf, Spec.names_pf.
  change (Py.path_join (Py.path_join (Py.path_join sysdir ["net"]) [netdev])
            ["phys_port_name"])
    with (Spec.phys_port_name_file sysdir netdev).
  destruct (read_text w (Spec.phys_port_name_file sysdir netdev)) as [content|e] eqn:E.
  - eexists. split; [reflexivity|]. split.
    + intros [= Hm]. exists content. split; [reflexivity | now apply pf_regex_strip].
    + intros (c & [= <-] & Hp). apply pf_regex_strip in Hp. now rewrite Hp.
  - rewrite (Hos e eq_refl). exists None. split; [reflexivity|]. split.
    + discriminate.
    + intros (c & Hc & _). discriminate Hc.
Qed.

Lemma first_pf_of_cons_skip (w : W) sysdir x rest netdev :
  ~ Spec.names_pf w sysdir x ->
  Spec.first_pf_of w sysdir (x :: rest) netdev <-> Spec.first_pf_of w sysdir rest netdev.
Proof.
  intros Hx. unfold Spec.first_pf_of. split.
  - intros (before & after & E & Hn & Hb). destruct before as [|b before].
    + injection E as -> _. now destruct Hx.
    + injection E as _ ->. exists before, after. split; [reflexivity|].
      split; [exact Hn | intros y Hy; apply Hb; now right].
  - intros (before & after & -> & Hn & Hb). exists (x :: before), after.
    split; [reflexivity|]. split; [exact Hn|].
    intros y [<- | Hy]; [exact Hx | now apply Hb].
Qed.

Lemma first_pf_of_cons_hit (w : W) sysdir x rest netdev :
  Spec.names_pf w sysdir x ->
  Spec.first_pf_of w sysdir (x :: rest) netdev <-> netdev = x.
Proof.
  intros Hx. unfold Spec.first_pf_of. split.
  - intros (before & after & E & _ & Hb). destruct before as [|b before].
    + now injection E as -> _.
    + injection E as <- _. destruct (Hb x); [now left | exact Hx].
  - intros ->. exists [], rest. split; [reflexivity|]. split; [exact Hx|].
    intros y [].
Qed.

(** The loop returns the first candidate that names a physical function,
    [None] when there is none, and raises nothing. *)
Lemma first_pf_spec (w : W) (sysdir : string) (netdevs : list string) :
  (forall netdev e,
      In netdev netdevs ->
      read_text w (Spec.phys_port_name_file sysdir netdev) = Raise e ->
      exn_kind e = OSError) ->
  (forall netdev,
      Pci.first_pf w (Py.path_join sysdir ["net"]) netdevs = Ok (Some netdev)
      <-> Spec.first_pf_of w sysdir netdevs netdev)
  /\ (Pci.first_pf w (Py.path_join sysdir ["net"]) netdevs = Ok None
      <-> forall x, In x netdevs -> ~ Spec.names_pf w sysdir x)
  /\ (exists found, Pci.first_pf w (Py.path_join sysdir ["net"]) netdevs = Ok found).
Proof.
  induction netdevs as [|x rest IH]; intros Hos.
  - simpl. split; [|split].
    + intros netdev. split; [discriminate|].
      intros (before & after & E & _). destruct before; discriminate E.
    + split; [intros _ y [] | reflexivity].
    + now exists None.
  - destruct IH as (IHsome & IHnone & IHtotal).
    { intros netdev e Hin. apply Hos. now right. }
    destruct (_phys_port_name_is_pf_spec w sysdir x) as (answer & Ea & Ha).
    { intros e. apply Hos. now left. }
    cbn [Pci.first_pf]. rewrite Ea. cbn [res_bind].
    assert (Hcases : (answer = Some true /\ Spec.names_pf w sysdir x)
                     \/ (answer <> Some true /\ ~ Spec.names_pf w sysdir x)).
    { destruct answer as [[|]|]; [left; split; [reflexivity | now apply Ha] | |];
        right; (split; [discriminate | intros Hx; apply Ha in Hx; discriminate Hx]). }
    destruct Hcases as [[-> Hx] | [Hno Hx]].
    + split; [|split].
      * intros netdev. rewrite (first_pf_of_cons_hit w sysdir x rest netdev Hx).
        split; [now intros [= ->] | now intros ->].
      * split; [discriminate|]. intros Hall. destruct (Hall x); [now left | exact Hx].
      * now exists (Some x).
    + assert (Estep : match answer with
                      | Some true => Ok (Some x)
                      | _ => Pci.first_pf w (Py.path_join sysdir ["net"]) rest
                      end = Pci.first_pf w (Py.path_join sysdir ["net"]) rest).
      { destruct answer as [[|]|]; [now destruct Hno | reflexivity | reflexivity]. }
      rewrite Estep. split; [|split].
      * intros netdev. rewrite (first_pf_of_cons_skip w sysdir x rest netdev Hx).
        apply IHsome.
      * rewrite IHnone. split.
        -- intros Hall y [<- | Hy]; [exact Hx | now apply Hall].
        -- intros Hall y Hy. apply Hall. now right.
      * exact IHtotal.
Qed.

(** C6: when the device's [net] directory has one netdev,
    [get_sysnet_interface] returns it and reads nothing else; when it has
    more, it returns the first netdev whose [phys_port_name] is readable
    and, trimmed, is [p<N>] or [p<N>s<M>] in either case, it skips the
    candidates whose [phys_port_name] cannot be read, and it returns
    [None] when no candidate matches. *)
Theorem get_sysnet_interface_resolves (w : W) (sysdir : string) (netdevs : list string) :
  listdir w (Py.path_join sysdir ["net"]) = Ok netdevs ->
  (forall netdev, netdevs = [netdev] ->
                  Pci.get_sysnet_interface w sysdir = Ok (Some netdev))
  /\ (1 < List.length netdevs ->
      (forall netdev e,
          In netdev netdevs ->
          read_text w (Spec.phys_port_name_file sysdir netdev) = Raise e ->
          exn_kind e = OSError) ->
      (forall netdev,
          Pci.get_sysnet_interface w sysdir = Ok (Some netdev)
          <-> Spec.first_pf_of w sysdir netdevs netdev)
      /\ (Pci.get_sysnet_interface w sysdir = Ok None
          <-> forall x, In x netdevs -> ~ Spec.names_pf w sysdir x)
      /\ (exists found, Pci.get_sysnet_interface w sysdir = Ok found)).
Proof.
  intros Hls. unfold Pci.get_sysnet_interface. rewrite Hls. cbn [res_bind]. split.
  - intros netdev ->. reflexivity.
  - intros Hmany Hos.
    assert (E : match netdevs with
                | [netdev] => Ok (Some netdev)
                | _ => Pci.first_pf w (Py.path_join sysdir ["net"]) netdevs
                end = Pci.first_pf w (Py.path_join sysdir ["net"]) netdevs).
    { destruct netdevs as [|a [|b l]]; simpl in Hmany; [lia | lia | reflexivity]. }
    rewrite E. now apply first_pf_spec.
Qed.

End Resolver.

Section ResolverRuns.

Lemma names_pf_enp3s0f0 :
  Spec.names_pf Sim.multi_port (Sim.dev2 ++ "/net/../") "enp3s0f0".
Proof.
  exists ("p0" ++ Sim.nl). split; [reflexivity|].
  exists "p"%char, "0". split; [now left|]. split; [|now left].
  split; [discriminate | reflexivity].
Qed.

Lemma not_names_pf_eth2_0 :
  ~ Spec.names_pf Sim.multi_port (Sim.dev2 ++ "/net/../") "eth2_0".
Proof.
  intros (content & Hread & Hname). vm_compute in Hread. injection Hread as <-.
  apply pf_regex_strip in Hname. vm_compute in Hname. discriminate Hname.
Qed.

(** A single netdev is returned as it is; among a representor named
    [pf0vf0], the physical function named [p0] and a netdev without
    [phys_port_name], the physical function is returned. *)
Lemma get_sysnet_interface_examples :
  Pci.get_sysnet_interface (Sim.two_nics (Ok YNull)) (Sim.dev0 ++ "/net/../")
  = Ok (Some "eth0")
  /\ Pci.get_sysnet_interface Sim.multi_port (Sim.dev2 ++ "/net/../")
     = Ok (Some "enp3s0f0").
Proof.
  split.
  - destruct (get_sysnet_interface_resolves
                (Sim.two_nics (Ok YNull)) (Sim.dev0 ++ "/net/../") ["eth0"])
      as [Hone _]; [vm_compute; reflexivity|].
    apply Hone. reflexivity.
  - destruct (get_sysnet_interface_resolves
                Sim.multi_port (Sim.dev2 ++ "/net/../")
                ["eth2_0"; "enp3s0f0"; "eth2_1"])
      as [_ Hmany]; [vm_compute; reflexivity|].
    destruct Hmany as (Hsome & _ & _).
    + simpl. lia.
    + intros netdev e Hin Hread. simpl in Hin.
      destruct Hin as [<- | [<- | [<- | []]]]; vm_compute in Hread;
        first [discriminate Hread | injection Hread as <-; reflexivity].
    + apply Hsome. exists ["eth2_0"], ["eth2_1"]. split; [reflexivity|].
      split; [exact names_pf_enp3s0f0|].
      intros x [<- | []]. exact not_names_pf_eth2_0.
Defined.

End ResolverRuns.

(** * Further properties *)

(** ** The formatter on every input *)

Section FormatterFacts.

Lemma split_parts_no_sep c s : Forall (fun p => Spec.count c p = 0) (Py.split c s).
Proof.
  induction s as [|a s IH]; simpl; [repeat constructor|].
  destruct (Ascii.eqb a c) eqn:E; [constructor; [reflexivity | exact IH]|].
  destruct (Py.split c s) as [|p ps]; [repeat constructor; simpl; now rewrite E|].
  inversion IH as [|? ? Hp Hps]; subst. constructor; [|exact Hps].
  simpl. now rewrite E, Hp.
Qed.

Lemma join_cons_char sep a p ps :
  Py.join sep (String a p :: ps) = String a (Py.join sep (p :: ps)).
Proof. destruct ps; reflexivity. Qed.

Lemma join_cons sep p ps :
  ps <> [] -> Py.join sep (p :: ps) = p ++ sep ++ Py.join sep ps.
Proof. destruct ps; [now intros [] | reflexivity]. Qed.

(** Joining the parts of a split with the separator gives the text back. *)
Lemma join_split c s : Py.join (String c "") (Py.split c s) = s.
Proof.
  induction s as [|a s IH]; simpl; [reflexivity|].
  pose proof (split_not_nil c s) as Hne.
  destruct (Ascii.eqb_spec a c) as [->|Hac].
  - rewrite join_cons by exact Hne. simpl. now rewrite IH.
  - destruct (Py.split c s) as [|p ps]; [now destruct Hne|].
    rewrite join_cons_char. now rewrite IH.
Qed.

Lemma count_zeros c n : c <> "0"%char -> Spec.count c (Py.zeros n) = 0.
Proof.
  intros Hc. induction n as [|n IH]; cbn [Py.zeros Spec.count]; [reflexivity|].
  destruct (Ascii.eqb_spec "0"%char c) as [E|_]; [now destruct Hc | exact IH].
Qed.

(** [zfill] adds nothing but zeros. *)
Lemma count_zfill c w s : c <> "0"%char -> Spec.count c (Py.zfill w s) = Spec.count c s.
Proof.
  intros Hc. unfold Py.zfill.
  destruct (w <=? String.length s)%nat; [reflexivity|].
  destruct s as [|a s]; [now apply count_zeros|].
  destruct (Ascii.eqb a "+" || Ascii.eqb a "-"); cbn [Spec.count];
    rewrite count_append, count_zeros by exact Hc; reflexivity.
Qed.

Lemma length_zeros n : String.length (Py.zeros n) = n.
Proof. induction n as [|n IH]; simpl; [reflexivity | now rewrite IH]. Qed.

Lemma length_zfill w s : String.length (Py.zfill w s) = Nat.max w (String.length s).
Proof.
  unfold Py.zfill. destruct (Nat.leb_spec w (String.length s)) as [Hle|Hlt]; [lia|].
  destruct s as [|a s]; [rewrite length_zeros; simpl; lia|].
  destruct (Ascii.eqb a "+" || Ascii.eqb a "-"); simpl in *;
    rewrite length_append, length_zeros; simpl; lia.
Qed.

Lemma zfill_idempotent w s : Py.zfill w (Py.zfill w s) = Py.zfill w s.
Proof.
  unfold Py.zfill at 1. rewrite length_zfill.
  now replace (w <=? Nat.max w (String.length s))%nat with true
    by (symmetry; apply Nat.leb_le; lia).
Qed.

(** The formatter on an address given by its four components, whatever
    their characters, as long as they hold no separator. *)
Lemma format_pci_addr_parts domain bus slot func :
  Spec.count ":" domain = 0 -> Spec.count ":" bus = 0 ->
  Spec.count ":" slot = 0 -> Spec.count ":" func = 0 ->
  Spec.count "." slot = 0 -> Spec.count "." func = 0 ->
  Pci.format_pci_addr (domain ++ ":" ++ bus ++ ":" ++ slot ++ "." ++ func)
  = Ok (Py.zfill 4 domain ++ ":" ++ Py.zfill 2 bus ++ ":"
        ++ Py.zfill 2 slot ++ "." ++ func).
Proof.
  intros Hd Hb Hs Hf Hs' Hf'. unfold Pci.format_pci_addr.
  change (domain ++ ":" ++ bus ++ ":" ++ slot ++ "." ++ func)
    with (domain ++ String ":" (bus ++ String ":" (slot ++ String "." func))).
  rewrite (split_app_sep ":" domain _ Hd), (split_app_sep ":" bus _ Hb).
  rewrite (split_no_sep ":" (slot ++ String "." func))
    by (rewrite count_append; simpl; lia).
  now rewrite (split_app_sep "." slot _ Hs'), (split_no_sep "." func Hf').
Qed.

(** Every address the formatter accepts has four components without
    separators, and the result is made of them. *)
Lemma format_pci_addr_inv pci_addr formatted :
  Pci.format_pci_addr pci_addr = Ok formatted ->
  exists domain bus slot func,
    pci_addr = domain ++ ":" ++ bus ++ ":" ++ slot ++ "." ++ func
    /\ formatted = Py.zfill 4 domain ++ ":" ++ Py.zfill 2 bus ++ ":"
                   ++ Py.zfill 2 slot ++ "." ++ func
    /\ (Spec.count ":" domain = 0 /\ Spec.count ":" bus = 0
        /\ Spec.count ":" slot = 0 /\ Spec.count ":" func = 0)
    /\ (Spec.count "." slot = 0 /\ Spec.count "." func = 0).
Proof.
  unfold Pci.format_pci_addr.
  pose proof (join_split ":" pci_addr) as J.
  pose proof (split_parts_no_sep ":" pci_addr) as N.
  destruct (Py.split ":" pci_addr) as [|d [|b [|sf [|x xs]]]]; try discriminate.
  pose proof (join_split "." sf) as J2.
  pose proof (split_parts_no_sep "." sf) as N2.
  destruct (Py.split "." sf) as [|sl [|f [|y ys]]]; try discriminate.
  intros [= <-]. exists d, b, sl, f.
  apply Forall_cons_iff in N as [Nd N]. apply Forall_cons_iff in N as [Nb N].
  apply Forall_cons_iff in N as [Nsf _].
  apply Forall_cons_iff in N2 as [Nsl N2]. apply Forall_cons_iff in N2 as [Nf _].
  cbn [Py.join] in J, J2. rewrite <- J2 in Nsf, J.
  rewrite !count_append in Nsf. simpl in Nsf.
  repeat split; try assumption; try lia. now rewrite <- J.
Qed.

Lemma formatted_is_fixed pci_addr formatted :
  Pci.format_pci_addr pci_addr = Ok formatted ->
  Pci.format_pci_addr formatted = Ok formatted.
Proof.
  intros E.
  destruct (format_pci_addr_inv _ _ E)
    as (d & b & sl & f & _ & -> & (Hd & Hb & Hsl & Hf) & (Hsl' & Hf')).
  rewrite format_pci_addr_parts;
    try (rewrite count_zfill; [assumption | discriminate]); try assumption.
  now rewrite !zfill_idempotent.
Qed.

(** X1: an address the formatter returns is in canonical form: formatting
    it again returns it unchanged. *)
Theorem format_pci_addr_idempotent (pci_addr formatted : string) :
  Pci.format_pci_addr pci_addr = Ok formatted ->
  Pci.format_pci_addr formatted = Ok formatted.
Proof. apply formatted_is_fixed. Qed.

Lemma format_pci_addr_idempotent_example :
  Pci.format_pci_addr "8086:2:0.1" = Ok "8086:02:00.1"
  /\ Pci.format_pci_addr "8086:02:00.1" = Ok "8086:02:00.1".
Proof.
  split; [reflexivity|].
  apply (format_pci_addr_idempotent "8086:2:0.1" "8086:02:00.1"). reflexivity.
Defined.

(** X2: the formatter returns an address exactly on the strings with two
    [:] and one [.] after the second; on every other string it raises
    [ValueError]. *)
Theorem format_pci_addr_accepts_iff (pci_addr : string) :
  (Spec.well_separated pci_addr = true
   <-> exists formatted, Pci.format_pci_addr pci_addr = Ok formatted)
  /\ (Spec.well_separated pci_addr = false
      <-> raises (Pci.format_pci_addr pci_addr) ValueError).
Proof.
  assert (Hcases : (Spec.well_separated pci_addr = true
                    /\ exists formatted, Pci.format_pci_addr pci_addr = Ok formatted)
                   \/ (Spec.well_separated pci_addr = false
                       /\ raises (Pci.format_pci_addr pci_addr) ValueError)).
  { unfold Spec.well_separated, Pci.format_pci_addr.
    pose proof (length_split ":" pci_addr) as L.
    pose proof (last_split ":" pci_addr) as La.
    destruct (Py.split ":" pci_addr) as [|d [|b [|sf [|x xs]]]];
      cbn [List.length] in L; try discriminate L; injection L as L; rewrite <- L;
      try (right; split; [reflexivity | apply unpack_error_raises]).
    cbn [last] in La. rewrite <- La. cbn [Nat.eqb andb].
    pose proof (length_split "." sf) as L2.
    destruct (Py.split "." sf) as [|s [|f [|y ys]]];
      cbn [List.length] in L2; try discriminate L2; injection L2 as L2; rewrite <- L2;
      try (right; split; [reflexivity | apply unpack_error_raises]).
    left. split; [reflexivity|]. eexists. reflexivity. }
  destruct Hcases as [[Hw (t & Ht)] | [Hw (msg & Hr)]]; rewrite Hw.
  - split; split; try discriminate.
    + intros _. now exists t.
    + reflexivity.
    + intros (msg & Hr). rewrite Ht in Hr. discriminate Hr.
  - split; split; try discriminate.
    + intros (t & Ht). rewrite Hr in Ht. discriminate Ht.
    + intros _. now exists msg.
    + reflexivity.
Qed.

Lemma after_last_app c s t :
  Spec.count c t = 0 -> Spec.after_last c (s ++ String c t) = t.
Proof.
  intros Ht. induction s as [|a s IH]; simpl.
  - rewrite Ht. simpl. now rewrite Ascii.eqb_refl.
  - rewrite count_append. simpl. rewrite Ascii.eqb_refl.
    replace (0 <? Spec.count c s + (1 + Spec.count c t))%nat with true
      by (symmetry; apply Nat.ltb_lt; lia).
    exact IH.
Qed.

Lemma function_last a b c f :
  a ++ ":" ++ b ++ ":" ++ c ++ "." ++ f = (a ++ ":" ++ b ++ ":" ++ c) ++ String "." f.
Proof. rewrite !append_assoc. reflexivity. Qed.

(** X3: on every address it accepts, the formatter keeps the function (the
    text after the [.]) as it is, returns a string at least as long as
    the address, and one of at least eleven characters. *)
Theorem format_pci_addr_keeps_function (pci_addr formatted : string) :
  Pci.format_pci_addr pci_addr = Ok formatted ->
  Spec.after_last "." formatted = Spec.after_last "." pci_addr
  /\ String.length pci_addr <= String.length formatted
  /\ 11 <= String.length formatted.
Proof.
  intros E.
  destruct (format_pci_addr_inv _ _ E)
    as (d & b & sl & f & -> & -> & _ & (_ & Hf')).
  split; [|split].
  - rewrite !function_last. now rewrite !after_last_app.
  - repeat (rewrite !length_append; simpl). rewrite !length_zfill. lia.
  - repeat (rewrite !length_append; simpl). rewrite !length_zfill. lia.
Qed.

Lemma format_pci_addr_keeps_function_example :
  Spec.after_last "." "0000:00:1f.6" = Spec.after_last "." "0:0:1f.6"
  /\ String.length "0:0:1f.6" <= String.length "0000:00:1f.6"
  /\ 11 <= String.length "0000:00:1f.6".
Proof.
  apply (format_pci_addr_keeps_function "0:0:1f.6" "0000:00:1f.6"). reflexivity.
Defined.

End FormatterFacts.

(** ** The PCI address of a path, on every path *)

Section PathFacts.

(** X4: on a path with a [/], as every absolute path has,
    [pci_address_of_path] returns a component of the path, which holds no
    [/]; on a text without [/] it returns the text, unless the text
    contains ["virtio"], where [path[-2]] raises [IndexError]. *)
Theorem pci_address_of_path_defined (fq_path : string) :
  (0 < Spec.count "/" fq_path ->
   exists pci_addr,
     Pci.pci_address_of_path fq_path = Ok pci_addr
     /\ In pci_addr (Py.split "/" fq_path)
     /\ Spec.count "/" pci_addr = 0)
  /\ (Spec.count "/" fq_path = 0 ->
      (Py.contains "virtio" fq_path = false ->
       Pci.pci_address_of_path fq_path = Ok fq_path)
      /\ (Py.contains "virtio" fq_path = true ->
          raises (Pci.pci_address_of_path fq_path) IndexError)).
Proof.
  split.
  - intros Hpos. unfold Pci.pci_address_of_path, Py.last_item, Py.penultimate_item.
    pose proof (length_split "/" fq_path) as L.
    pose proof (split_parts_no_sep "/" fq_path) as N.
    rewrite <- length_rev in L. apply Forall_rev in N.
    assert (Hin : forall x, In x (rev (Py.split "/" fq_path)) ->
                            In x (Py.split "/" fq_path))
      by (intros x Hx; now apply in_rev).
    destruct (rev (Py.split "/" fq_path)) as [|x [|y l]]; simpl in L; try lia.
    apply Forall_cons_iff in N as [Nx N]. apply Forall_cons_iff in N as [Ny _].
    cbn [res_bind]. destruct (Py.contains "virtio" x).
    + exists y. split; [reflexivity|]. split; [apply Hin; right; now left | exact Ny].
    + exists x. split; [reflexivity|]. split; [apply Hin; now left | exact Nx].
  - intros Hzero. unfold Pci.pci_address_of_path, Py.last_item, Py.penultimate_item.
    rewrite (split_no_sep "/" fq_path Hzero). cbn [rev app res_bind]. split.
    + now intros ->.
    + intros ->. eexists. reflexivity.
Qed.

Lemma pci_address_of_path_defined_example :
  (exists pci_addr,
      Pci.pci_address_of_path "/sys/devices/pci0000:00/0000:00:1f.6" = Ok pci_addr
      /\ In pci_addr (Py.split "/" "/sys/devices/pci0000:00/0000:00:1f.6")
      /\ Spec.count "/" pci_addr = 0)
  /\ raises (Pci.pci_address_of_path "virtio0") IndexError.
Proof.
  split.
  - apply (pci_address_of_path_defined "/sys/devices/pci0000:00/0000:00:1f.6").
    vm_compute. lia.
  - apply (pci_address_of_path_defined "virtio0"); reflexivity.
Defined.

End PathFacts.

(** ** The inventory scan *)

Section ScanFacts.
Context {W : Type} `{Host W}.

Lemma bind_inv {A B} (c : M W A) (k : A -> M W B) st r st' :
  bind c k st = (r, st') ->
  (exists a st1, c st = (Ok a, st1) /\ k a st1 = (r, st'))
  \/ (exists e, c st = (Raise e, st') /\ r = Raise e).
Proof.
  unfold bind. destruct (c st) as [[a|e] st1].
  - intros E. left. now exists a, st1.
  - intros [= <- <-]. right. now exists e.
Qed.

Lemma bind_ok_inv {A B} (c : M W A) (k : A -> M W B) st b st' :
  bind c k st = (Ok b, st') ->
  exists a st1, c st = (Ok a, st1) /\ k a st1 = (Ok b, st').
Proof.
  intros E. apply bind_inv in E as [E | (e & _ & E)]; [exact E | discriminate E].
Qed.

Lemma ask_inv {A} (f : W -> res A) st r st' :
  ask f st = (r, st') -> r = f (host st) /\ st' = st.
Proof. unfold ask. now intros [= <- <-]. Qed.

Lemma scan_dir_ok net_devs sdir st recs st' :
  Pci.scan_dir net_devs sdir st = (Ok recs, st') ->
  host st' = host st
  /\ (recs = net_devs
      \/ exists r, recs = (net_devs ++ [r])%list /\ Spec.record_ok r
                   /\ Spec.from_dir (host st) sdir r).
Proof.
  intros E. split; [exact (proj1 (quiet_run _ _ _ _ (quiet_scan_dir _ _) E))|].
  unfold Pci.scan_dir in E.
  apply bind_ok_inv in E as (pci_addr & st1 & E1 & E).
  apply ask_inv in E1 as [E1 ->].
  apply bind_ok_inv in E as (ifname & st2 & E2 & E).
  apply ask_inv in E2 as [E2 ->].
  destruct ifname as [[|a ifname]|].
  - apply bind_ok_inv in E as (u & st3 & _ & E). unfold ret in E.
    injection E as <- _. now left.
  - apply bind_ok_inv in E as (mac & st3 & E3 & E). apply ask_inv in E3 as [_ ->].
    apply bind_ok_inv in E as (state & st4 & E4 & E). apply ask_inv in E4 as [_ ->].
    apply bind_ok_inv in E as (cap & st5 & E5 & E). apply ask_inv in E5 as [_ ->].
    destruct cap.
    + apply bind_ok_inv in E as (total & st6 & E6 & E). apply ask_inv in E6 as [_ ->].
      apply bind_ok_inv in E as (num & st7 & E7 & E). apply ask_inv in E7 as [_ ->].
      unfold ret in E. injection E as <- _. right. eexists. split; [reflexivity|].
      split; [split; [discriminate | simpl; eauto] | split; simpl; congruence].
    + unfold ret in E. injection E as <- _. right. eexists. split; [reflexivity|].
      split; [split; [discriminate | simpl; auto] | split; simpl; congruence].
  - apply bind_ok_inv in E as (u & st3 & _ & E). unfold ret in E.
    injection E as <- _. now left.
Qed.

Lemma scan_dirs_ok sdirs : forall net_devs st recs st',
  fold_m Pci.scan_dir sdirs net_devs st = (Ok recs, st') ->
  exists added,
    recs = (net_devs ++ added)%list
    /\ List.length added <= List.length sdirs
    /\ Forall (fun r => Spec.record_ok r
                        /\ exists sdir, In sdir sdirs /\ Spec.from_dir (host st) sdir r) added.
Proof.
  induction sdirs as [|sdir sdirs IH]; intros net_devs st recs st' E; cbn [fold_m] in E.
  - unfold ret in E. injection E as <- _. exists []. rewrite app_nil_r. auto.
  - apply bind_ok_inv in E as (mid & st1 & E1 & E).
    apply scan_dir_ok in E1 as [Hhost Hmid].
    apply IH in E as (added & -> & Hlen & Hall). rewrite Hhost in Hall.
    assert (Hall' : Forall (fun r => Spec.record_ok r
                                     /\ exists d, In d (sdir :: sdirs)
                                                  /\ Spec.from_dir (host st) d r) added).
    { eapply Forall_impl; [|exact Hall]. intros r (Hr & d & Hd & Hfrom).
      split; [exact Hr|]. exists d. split; [now right | exact Hfrom]. }
    destruct Hmid as [-> | (r & -> & Hr & Hfrom)].
    + exists added. split; [reflexivity|]. split; [simpl; lia | exact Hall'].
    + exists (r :: added). rewrite <- app_assoc. split; [reflexivity|].
      split; [simpl; lia|]. constructor; [|exact Hall'].
      split; [exact Hr|]. exists sdir. split; [now left | exact Hfrom].
Qed.

(** X5: every record the inventory scan returns names its interface, has
    [sriov_totalvfs] and [sriov_numvfs] exactly when [sriov] is true, and
    comes from a matched directory, whose real path gives its PCI address
    and whose resolver gives its interface; there are at most as many
    records as matched directories, and the scan leaves the host as it
    is and writes nothing. *)
Theorem scan_records_well_formed (st st' : run_state W) (net_devs : list Pci.net_dev) :
  Pci.get_sysnet_interfaces_and_macs st = (Ok net_devs, st') ->
  let sdirs := (glob (host st) "/sys/bus/pci/devices/*/net/../"
                ++ glob (host st) "/sys/bus/pci/devices/*/virtio*/net/../")%list in
  Forall (fun r => Spec.record_ok r
                   /\ exists sdir, In sdir sdirs /\ Spec.from_dir (host st) sdir r) net_devs
  /\ List.length net_devs <= List.length sdirs
  /\ host st' = host st
  /\ writes (events st') = writes (events st).
Proof.
  intros E sdirs.
  destruct (quiet_run _ _ _ _ quiet_scan E) as (Hhost & Hwrites & _ & _).
  unfold Pci.get_sysnet_interfaces_and_macs in E.
  apply bind_ok_inv in E as (l & st1 & E1 & E). apply ask_inv in E1 as [E1 ->].
  injection E1 as ->.
  apply scan_dirs_ok in E as (added & -> & Hlen & Hall). simpl.
  repeat split; assumption.
Qed.

Lemma scan_records_ok (st st' : run_state W) (net_devs : list Pci.net_dev) :
  Pci.get_sysnet_interfaces_and_macs st = (Ok net_devs, st') ->
  Forall Spec.record_ok net_devs.
Proof.
  unfold Pci.get_sysnet_interfaces_and_macs. intros E.
  apply bind_ok_inv in E as (l & st1 & _ & E).
  apply scan_dirs_ok in E as (added & -> & _ & Hall). simpl.
  eapply Forall_impl; [|exact Hall]. now intros r [Hr _].
Qed.

Lemma update_from_record_ok self r :
  Spec.record_ok r -> exists self', Pci.update_from self r = Ok self'.
Proof.
  intros [_ Hr]. unfold Pci.update_from.
  destruct (String.eqb _ _); [|eauto].
  destruct (Pci.nd_sriov r); [|eauto].
  destruct Hr as (t & k & -> & ->). simpl. eauto.
Qed.

Lemma update_from_all_records_ok net_devices : forall self,
  Forall Spec.record_ok net_devices ->
  exists self', Pci.update_from_all self net_devices = Ok self'.
Proof.
  induction net_devices as [|r rs IH]; intros self Hall; simpl; [eauto|].
  apply Forall_cons_iff in Hall as [Hr Hrs].
  destruct (update_from_record_ok self r Hr) as (s1 & ->). simpl. now apply IH.
Qed.

(** X6: a refresh raises only what the inventory scan raises: the records
    of a scan that returned always have the keys the refresh reads. *)
Theorem refresh_fails_only_with_scan
  (self : Pci.PCINetDevice) (st st' : run_state W) (e : exn) :
  Pci.update_attributes self st = (Raise e, st') ->
  Pci.get_sysnet_interfaces_and_macs st = (Raise e, st').
Proof.
  unfold Pci.update_attributes, Pci.update_interface_info. intros E.
  apply bind_inv in E as [(recs & st1 & Escan & E) | (e' & Escan & [= <-])];
    [|exact Escan].
  destruct (update_from_all_records_ok recs self (scan_records_ok _ _ _ Escan))
    as (self' & Hup).
  unfold lift in E. rewrite Hup in E. discriminate E.
Qed.

End ScanFacts.

Section ScanRuns.

Lemma scan_records_two_nics :
  Forall (fun r => Spec.record_ok r
                   /\ exists sdir,
                       In sdir [Sim.dev0 ++ "/net/../"; Sim.dev1 ++ "/net/../"]
                       /\ Spec.from_dir (Sim.two_nics (Ok YNull)) sdir r)
         [Pci.NetDev "eth0" "52:54:00:00:00:01" "0000:01:00.0" "up" true
                     (Some 8%Z) (Some 2%Z);
          Pci.NetDev "eth1" "52:54:00:00:00:02" "0000:02:00.0" "down" false
                     None None]
  /\ 2 <= 2.
Proof.
  destruct (scan_records_well_formed
              (Sim.start (Sim.two_nics (Ok YNull))) (Sim.start (Sim.two_nics (Ok YNull)))
              [Pci.NetDev "eth0" "52:54:00:00:00:01" "0000:01:00.0" "up" true
                          (Some 8%Z) (Some 2%Z);
               Pci.NetDev "eth1" "52:54:00:00:00:02" "0000:02:00.0" "down" false
                          None None])
    as (Hall & Hlen & _); [vm_compute; reflexivity|].
  split; [exact Hall | exact Hlen].
Defined.

(** A [sriov_totalvfs] that is not a number makes the scan, and so the
    refresh, raise [ValueError]. *)
Lemma refresh_fails_with_scan_example :
  exists e,
    Pci.get_sysnet_interfaces_and_macs (Sim.start Sim.garbled)
    = (Raise e, Sim.start Sim.garbled)
    /\ exn_kind e = ValueError.
Proof.
  eexists. split.
  - apply (refresh_fails_only_with_scan Sim.eth0). vm_compute. reflexivity.
  - reflexivity.
Defined.

End ScanRuns.

(** ** Device objects and the collection *)

Section CollectionFacts.
Context {W : Type} `{Host W}.

Lemma update_attributes_ok_inv self st self' st' :
  Pci.update_attributes self st = (Ok self', st') ->
  exists net_devices,
    Pci.get_sysnet_interfaces_and_macs st = (Ok net_devices, st')
    /\ Pci.update_from_all self net_devices = Ok self'.
Proof.
  unfold Pci.update_attributes, Pci.update_interface_info. intros E.
  apply bind_ok_inv in E as (recs & st1 & Escan & E).
  unfold lift in E. injection E as E <-. now exists recs.
Qed.

Lemma update_from_found self r self' :
  Spec.never_found self \/ Spec.once_found self ->
  Pci.update_from self r = Ok self' ->
  Spec.never_found self' \/ Spec.once_found self'.
Proof.
  intros Hself. unfold Pci.update_from.
  destruct (String.eqb _ _); [|now intros [= <-]].
  destruct (Pci.nd_sriov r).
  - destruct (Pci.nd_sriov_totalvfs r); simpl; [|discriminate].
    destruct (Pci.nd_sriov_numvfs r); simpl; [|discriminate].
    intros [= <-]. right. unfold Spec.once_found. simpl.
    do 3 eexists. repeat split.
  - intros [= <-]. right. unfold Spec.once_found. simpl.
    do 3 eexists. repeat split.
Qed.

Lemma update_from_all_found net_devices : forall self self',
  Spec.never_found self \/ Spec.once_found self ->
  Pci.update_from_all self net_devices = Ok self' ->
  Spec.never_found self' \/ Spec.once_found self'.
Proof.
  induction net_devices as [|r rs IH]; simpl; intros self self' Hself.
  - now intros [= <-].
  - destruct (Pci.update_from self r) as [s1|e] eqn:E; simpl; [|discriminate].
    apply IH. eapply update_from_found; eauto.
Qed.

Lemma new_PCINetDevice_spec pci_addr st d st' :
  Pci.new_PCINetDevice pci_addr st = (Ok d, st') ->
  Pci.pci_address d = pci_addr
  /\ (Spec.never_found d \/ Spec.once_found d)
  /\ Spec.capacity_known d.
Proof.
  intros E. pose proof (new_PCINetDevice_capacity _ _ _ _ E) as Hcap.
  unfold Pci.new_PCINetDevice in E.
  apply update_attributes_ok_inv in E as (recs & _ & E). split; [|split].
  - now rewrite (update_from_all_pci_address _ _ _ E).
  - eapply update_from_all_found; [|exact E]. left. reflexivity.
  - exact Hcap.
Qed.

Lemma new_devices_spec addrs : forall st ds st',
  Pci.new_devices addrs st = (Ok ds, st') ->
  map Pci.pci_address ds = addrs
  /\ Forall (fun d => (Spec.never_found d \/ Spec.once_found d)
                      /\ Spec.capacity_known d) ds.
Proof.
  induction addrs as [|a addrs IH]; intros st ds st' E; cbn [Pci.new_devices] in E.
  - unfold ret in E. injection E as <- _. split; [reflexivity | constructor].
  - apply bind_ok_inv in E as (d & st1 & Ed & E).
    apply bind_ok_inv in E as (ds1 & st2 & Eds & E).
    unfold ret in E. injection E as <- _.
    apply new_PCINetDevice_spec in Ed as (Ha & Hf & Hc).
    apply IH in Eds as (Hmap & Hall). split.
    + simpl. now rewrite Ha, Hmap.
    + constructor; [split; assumption | exact Hall].
Qed.

Lemma unnamed_device_not_capable
  (st st' : run_state W) (devices : list Pci.PCINetDevice) (d : Pci.PCINetDevice) :
  Pci.new_PCINetDevices st = (Ok devices, st') ->
  In d devices -> Pci.interface_name d = None -> Pci.sriov d = false.
Proof.
  unfold Pci.new_PCINetDevices. intros E Hin Hname.
  apply bind_ok_inv in E as (addrs & st1 & _ & E).
  apply new_devices_spec in E as (_ & Hall). rewrite Forall_forall in Hall.
  destruct (Hall d Hin) as ([Hnever | (n & m & s & Hn & _)] & _).
  - now rewrite Hnever.
  - congruence.
Qed.

(** X7: every device object of a collection is either as [__init__] left
    it (no name, no MAC, no state, not capable, no VF counts), or has an
    interface name, a MAC address and a state; and a capable one has both
    VF counts.  So a device without a name is never capable. *)
Theorem discovered_devices_invariant
  (st st' : run_state W) (devices : list Pci.PCINetDevice) :
  Pci.new_PCINetDevices st = (Ok devices, st') ->
  Forall (fun d => (Spec.never_found d \/ Spec.once_found d)
                   /\ Spec.capacity_known d
                   /\ (Pci.interface_name d = None -> Pci.sriov d = false)) devices.
Proof.
  unfold Pci.new_PCINetDevices. intros E.
  apply bind_ok_inv in E as (addrs & st1 & _ & E).
  apply new_devices_spec in E as (_ & Hall).
  eapply Forall_impl; [|exact Hall]. intros d ([Hnever | Honce] & Hcap).
  - repeat split; auto. intros _. now rewrite Hnever.
  - repeat split; auto. destruct Honce as (n & m & s & Hn & _). congruence.
Qed.

Lemma get_device_from_pci_address_found devices : forall pci_addr,
  In pci_addr (map Pci.pci_address devices) ->
  exists d, Pci.get_device_from_pci_address devices pci_addr = Some d
            /\ Pci.pci_address d = pci_addr /\ In d devices.
Proof.
  unfold Pci.get_device_from_pci_address.
  induction devices as [|x xs IH]; intros a Hin; simpl in *; [now destruct Hin|].
  destruct (String.eqb_spec (Pci.pci_address x) a) as [E|Hne].
  - exists x. auto.
  - destruct Hin as [E | Hin]; [now destruct Hne|].
    destruct (IH a Hin) as (d & Hd & Ha & Hi). exists d. auto.
Qed.

(** X8: a collection has one device object per Ethernet address that
    [lspci] reports, in that order, each with its address; so looking up
    a reported address finds a device with that address, and looking up
    any other address finds nothing. *)
Theorem collection_follows_enumeration
  (st st' : run_state W) (devices : list Pci.PCINetDevice) :
  Pci.new_PCINetDevices st = (Ok devices, st') ->
  Pci.get_pci_ethernet_addresses (host st) = Ok (map Pci.pci_address devices)
  /\ (forall pci_addr,
        In pci_addr (map Pci.pci_address devices) ->
        exists d, Pci.get_device_from_pci_address devices pci_addr = Some d
                  /\ Pci.pci_address d = pci_addr)
  /\ (forall pci_addr,
        ~ In pci_addr (map Pci.pci_address devices) ->
        Pci.get_device_from_pci_address devices pci_addr = None).
Proof.
  unfold Pci.new_PCINetDevices. intros E.
  apply bind_ok_inv in E as (addrs & st1 & Ea & E). apply ask_inv in Ea as [Ea ->].
  apply new_devices_spec in E as (Hmap & _). split; [|split].
  - now rewrite Hmap.
  - intros a Hin. destruct (get_device_from_pci_address_found devices a Hin)
      as (d & Hd & Ha & _). now exists d.
  - intros a Hout. unfold Pci.get_device_from_pci_address.
    destruct (find _ devices) as [d|] eqn:F; [|reflexivity].
    apply find_some in F as [Hin Heq]. apply String.eqb_eq in Heq.
    destruct Hout. rewrite <- Heq. now apply in_map.
Qed.

Lemma update_devices_spec pci_devices : forall st ds st',
  Pci.update_devices pci_devices st = (Ok ds, st') ->
  map Pci.pci_address ds = map Pci.pci_address pci_devices.
Proof.
  induction pci_devices as [|x xs IH]; intros st ds st' E; cbn [Pci.update_devices] in E.
  - unfold ret in E. now injection E as <- _.
  - apply bind_ok_inv in E as (d & st1 & Ed & E).
    apply bind_ok_inv in E as (ds1 & st2 & Eds & E).
    unfold ret in E. injection E as <- _.
    apply update_attributes_ok_inv in Ed as (recs & _ & Ed).
    simpl. rewrite (update_from_all_pci_address _ _ _ Ed). f_equal. eapply IH; eauto.
Qed.

Lemma quiet_update_devices pci_devices : quiet (W:=W) (Pci.update_devices pci_devices).
Proof.
  induction pci_devices as [|x xs IH]; simpl; [apply quiet_ret|].
  apply quiet_bind; [apply quiet_update_attributes|intros d].
  apply quiet_bind; [exact IH|intros ds; apply quiet_ret].
Qed.

(** X9: [update_devices] keeps the devices of the collection, in their
    order and with their addresses; it neither adds nor drops one, writes
    nothing and leaves the host as it is. *)
Theorem update_devices_keeps_collection
  (pci_devices devices : list Pci.PCINetDevice) (st st' : run_state W) :
  Pci.update_devices pci_devices st = (Ok devices, st') ->
  map Pci.pci_address devices = map Pci.pci_address pci_devices
  /\ List.length devices = List.length pci_devices
  /\ host st' = host st
  /\ writes (events st') = writes (events st).
Proof.
  intros E. pose proof (update_devices_spec _ _ _ _ E) as Hmap.
  destruct (quiet_run _ _ _ _ (quiet_update_devices pci_devices) E) as (Hh & Hw & _).
  repeat split; try assumption.
  rewrite <- (length_map Pci.pci_address devices), Hmap. apply length_map.
Qed.

Lemma update_from_all_app l1 l2 : forall self,
  Pci.update_from_all self (l1 ++ l2)%list
  = res_bind (Pci.update_from_all self l1) (fun s => Pci.update_from_all s l2).
Proof.
  induction l1 as [|r rs IH]; intros self; simpl; [reflexivity|].
  destruct (Pci.update_from self r); simpl; [apply IH | reflexivity].
Qed.

(** X10: when the scan of a refresh returns exactly one record with the
    device's PCI address, the refresh sets the interface name, the MAC
    address, the state and [sriov] from that record; it sets the two VF
    counts from it when the record is SR-IOV capable, and leaves them as
    they were when it is not. *)
Theorem refresh_takes_the_record
  (self : Pci.PCINetDevice) (st st' : run_state W)
  (before after : list Pci.net_dev) (r : Pci.net_dev) :
  Pci.get_sysnet_interfaces_and_macs st = (Ok (before ++ r :: after)%list, st') ->
  Pci.nd_pci_address r = Pci.pci_address self ->
  Forall (fun x => Pci.nd_pci_address x <> Pci.pci_address self) before ->
  Forall (fun x => Pci.nd_pci_address x <> Pci.pci_address self) after ->
  Pci.update_attributes self st
  = (Ok (Pci.Device (Pci.pci_address self)
                    (Some (Pci.nd_interface r)) (Some (Pci.nd_mac_address r))
                    (Some (Pci.nd_state r)) (Pci.nd_sriov r)
                    (if Pci.nd_sriov r then Pci.nd_sriov_totalvfs r
                     else Pci.sriov_totalvfs self)
                    (if Pci.nd_sriov r then Pci.nd_sriov_numvfs r
                     else Pci.sriov_numvfs self)),
     st').
Proof.
  intros Escan Hr Hbefore Hafter.
  pose proof (scan_records_ok _ _ _ Escan) as Hall.
  apply Forall_app in Hall as [_ Hall]. apply Forall_cons_iff in Hall as [[_ Hok] _].
  unfold Pci.update_attributes, Pci.update_interface_info, bind, lift.
  rewrite Escan, update_from_all_app, (update_from_all_no_match before self Hbefore).
  cbn [res_bind Pci.update_from_all]. unfold Pci.update_from at 1.
  rewrite Hr, String.eqb_refl.
  destruct (Pci.nd_sriov r).
  - destruct Hok as (t & k & -> & ->). cbn [Pci.dict_get res_bind].
    now rewrite update_from_all_no_match.
  - cbn [res_bind]. now rewrite update_from_all_no_match.
Qed.

Lemma get_macs_spec pci_devices mac :
  In mac (Pci.get_macs pci_devices)
  <-> mac <> "" /\ exists d, In d pci_devices /\ Pci.mac_address d = Some mac.
Proof.
  induction pci_devices as [|x xs IH]; cbn [Pci.get_macs].
  - split; [intros [] | intros (_ & d & [] & _)].
  - destruct (Pci.mac_address x) as [[|c m]|] eqn:E.
    + rewrite IH. split.
      * intros (Hne & d & Hin & Hd). split; [exact Hne|]. exists d. split; [now right|auto].
      * intros (Hne & d & [<- | Hin] & Hd); [congruence|].
        split; [exact Hne|]. now exists d.
    + cbn [In]. rewrite IH. split.
      * intros [<- | (Hne & d & Hin & Hd)].
        -- split; [discriminate|]. exists x. split; [now left | exact E].
        -- split; [exact Hne|]. exists d. split; [now right | exact Hd].
      * intros (Hne & d & [<- | Hin] & Hd).
        -- left. congruence.
        -- right. split; [exact Hne|]. now exists d.
    + rewrite IH. split.
      * intros (Hne & d & Hin & Hd). split; [exact Hne|]. exists d. split; [now right|auto].
      * intros (Hne & d & [<- | Hin] & Hd); [congruence|].
        split; [exact Hne|]. now exists d.
Qed.

(** X11: [get_macs] lists exactly the MAC addresses of the devices that
    have one that is not empty, and each MAC address it lists is found
    again by [get_device_from_mac], on a device with that MAC address. *)
Theorem get_macs_lookup (pci_devices : list Pci.PCINetDevice) (mac : string) :
  (In mac (Pci.get_macs pci_devices)
   <-> mac <> "" /\ exists d, In d pci_devices /\ Pci.mac_address d = Some mac)
  /\ (In mac (Pci.get_macs pci_devices) ->
      exists d, Pci.get_device_from_mac pci_devices (Some mac) = Some d
                /\ Pci.mac_address d = Some mac /\ In d pci_devices).
Proof.
  split; [apply get_macs_spec|].
  intros Hin. apply get_macs_spec in Hin as (_ & d & Hd & Hmac).
  unfold Pci.get_device_from_mac.
  destruct (find (fun pcidev => Pci.opt_str_eqb (Pci.mac_address pcidev) (Some mac))
                 pci_devices) as [x|] eqn:F.
  - apply find_some in F as [Hx Heq]. exists x. split; [reflexivity|]. split; [|exact Hx].
    destruct (Pci.mac_address x) as [m|]; [|discriminate Heq].
    simpl in Heq. apply String.eqb_eq in Heq. now subst.
  - pose proof (find_none _ _ F d Hd) as Hno. cbn beta in Hno.
    rewrite Hmac in Hno. simpl in Hno. rewrite String.eqb_refl in Hno. discriminate Hno.
Qed.

Lemma lspci_line_canonical acc line out :
  Forall (fun a => Pci.format_pci_addr a = Ok a) acc ->
  Pci.lspci_line acc line = Ok out ->
  Forall (fun a => Pci.format_pci_addr a = Ok a) out.
Proof.
  intros Hacc. unfold Pci.lspci_line.
  destruct (Shlex.split line) as [columns|e]; [|discriminate]. cbn [res_bind].
  destruct columns as [|a [|class rest]]; try (now intros [= <-]).
  destruct (String.eqb class "Ethernet controller"); [|now intros [= <-]].
  destruct (Pci.format_pci_addr a) as [formatted|e] eqn:E; [|discriminate].
  cbn [res_bind]. intros [= <-]. apply Forall_app. split; [exact Hacc|].
  constructor; [|constructor]. eapply formatted_is_fixed; eauto.
Qed.

Lemma lspci_lines_canonical lines : forall acc out,
  Forall (fun a => Pci.format_pci_addr a = Ok a) acc ->
  Pci.lspci_lines acc lines = Ok out ->
  Forall (fun a => Pci.format_pci_addr a = Ok a) out.
Proof.
  induction lines as [|line lines IH]; intros acc out Hacc; simpl.
  - now intros [= <-].
  - destruct (Pci.lspci_line acc line) as [mid|e] eqn:E; [|discriminate].
    cbn [res_bind]. apply IH. eapply lspci_line_canonical; eauto.
Qed.

(** X12: every address [get_pci_ethernet_addresses] returns is in
    canonical form: the formatter returns it unchanged, and it has two
    [:] and one [.] after the second. *)
Theorem enumerated_addresses_canonical (w : W) (pci_addresses : list string) :
  Pci.get_pci_ethernet_addresses w = Ok pci_addresses ->
  Forall (fun a => Pci.format_pci_addr a = Ok a /\ Spec.well_separated a = true)
         pci_addresses.
Proof.
  unfold Pci.get_pci_ethernet_addresses.
  destruct (check_output w _) as [out|e]; [|discriminate]. cbn [res_bind]. intros E.
  apply lspci_lines_canonical in E; [|constructor].
  eapply Forall_impl; [|exact E]. intros a Ha. split; [exact Ha|].
  destruct (Spec.well_separated a) eqn:Hw; [reflexivity|].
  unfold Spec.well_separated, Pci.format_pci_addr in *.
  pose proof (length_split ":" a) as L. pose proof (last_split ":" a) as La.
  destruct (Py.split ":" a) as [|d [|b [|sf [|x xs]]]]; try discriminate Ha.
  cbn [List.length] in L. injection L as L. cbn [last] in La.
  rewrite <- L, <- La in Hw. cbn [Nat.eqb andb] in Hw.
  pose proof (length_split "." sf) as L2.
  destruct (Py.split "." sf) as [|s [|f [|y ys]]]; try discriminate Ha.
  cbn [List.length] in L2. injection L2 as L2. rewrite <- L2 in Hw. discriminate Hw.
Qed.

End CollectionFacts.

(** ** What a run writes *)

Section WriteFacts.
Context {W : Type} `{Host W}.

Lemma _set_sriov_numvfs_events self numvfs st r st' :
  Pci._set_sriov_numvfs self numvfs st = (r, st') ->
  exists log,
    events st' = (events st
                  ++ SysWrite (Pci.sriov_numvfs_path self) (Py.str_of_int numvfs) :: log)%list
    /\ writes log = []
    /\ (forall self', r = Ok self' -> Pci.pci_address self' = Pci.pci_address self).
Proof.
  unfold Pci._set_sriov_numvfs. intros E.
  apply bind_inv in E as [(u & st1 & Ew & E) | (e & Ew & ->)].
  - unfold Pci.sys_write in Ew.
    destruct (write_text (host st) _ _) as [rw w'] eqn:Hw. injection Ew as -> <-.
    destruct (quiet_run _ _ _ _ (quiet_update_attributes self) E)
      as (_ & _ & Hr & Hev).
    cbn [events host] in Hev, Hr.
    exists (logged (Pci.update_attributes self) w'). split; [|split].
    + rewrite Hev, <- app_assoc. reflexivity.
    + apply (proj2 (quiet_update_attributes self w' [])).
    + intros self' ->. symmetry in Hr. now apply update_attributes_pci_address in Hr.
  - unfold Pci.sys_write in Ew.
    destruct (write_text (host st) _ _) as [rw w'] eqn:Hw. injection Ew as -> <-.
    exists []. cbn [events]. split; [reflexivity|]. split; [reflexivity | discriminate].
Qed.

(** What [set_sriov_numvfs] adds to the event list, however it ends. *)
Lemma set_sriov_numvfs_events self numvfs st r st' :
  Pci.set_sriov_numvfs self numvfs st = (r, st') ->
  exists log1 log2,
    writes log1 = [] /\ writes log2 = []
    /\ ((st' = st /\ r = Ok (false, self))
        \/ (events st' = (events st ++ SysWrite (Pci.sriov_numvfs_path self) "0" :: log1)%list
            /\ exists e, r = Raise e)
        \/ (events st'
            = (events st
               ++ SysWrite (Pci.sriov_numvfs_path self) "0" :: log1
               ++ SysWrite (Pci.sriov_numvfs_path self) (Py.str_of_int numvfs) :: log2)%list)).
Proof.
  unfold Pci.set_sriov_numvfs.
  destruct (Pci.sriov self && Pci.differs numvfs (Pci.sriov_numvfs self)).
  - intros E. apply bind_inv in E as [(self1 & st1 & E1 & E) | (e & E1 & ->)].
    + apply _set_sriov_numvfs_events in E1 as (log1 & Hev1 & Hw1 & Haddr).
      assert (Hpath : Pci.sriov_numvfs_path self1 = Pci.sriov_numvfs_path self).
      { unfold Pci.sriov_numvfs_path. now rewrite (Haddr self1 eq_refl). }
      assert (E2 : exists r2, Pci._set_sriov_numvfs self1 numvfs st1 = (r2, st')).
      { apply bind_inv in E as [(self2 & st2 & E2 & E) | (e & E2 & _)].
        - unfold ret in E. injection E as _ <-. eauto.
        - eauto. }
      destruct E2 as (r2 & E2).
      apply _set_sriov_numvfs_events in E2 as (log2 & Hev2 & Hw2 & _).
      exists log1, log2. split; [exact Hw1|]. split; [exact Hw2|]. right. right.
      rewrite Hev2, Hev1, Hpath, <- app_assoc. reflexivity.
    + apply _set_sriov_numvfs_events in E1 as (log1 & Hev1 & Hw1 & _).
      exists log1, []. split; [exact Hw1|]. split; [reflexivity|]. right. left.
      split; [exact Hev1 | eauto].
  - unfold ret. intros [= <- <-]. exists [], []. auto.
Qed.

Lemma writes_cons_log e log : writes log = [] -> is_write e = true -> writes (e :: log) = [e].
Proof. intros Hl He. unfold writes in *. simpl. now rewrite He, Hl. Qed.

(** X13: however [set_sriov_numvfs] ends, by returning or by raising, it
    has written nothing, or ["0"], or ["0"] and then the target, always
    to the [sriov_numvfs] file of its device; it returns [True] only after
    both writes, and [False] only after none. *)
Theorem set_sriov_numvfs_writes_at_most_two
  (self : Pci.PCINetDevice) (numvfs : Z) (st st' : run_state W)
  (r : res (bool * Pci.PCINetDevice)) :
  Pci.set_sriov_numvfs self numvfs st = (r, st') ->
  exists new,
    events st' = (events st ++ new)%list
    /\ (writes new = []
        \/ writes new = [SysWrite (Pci.sriov_numvfs_path self) "0"]
        \/ writes new = [SysWrite (Pci.sriov_numvfs_path self) "0";
                         SysWrite (Pci.sriov_numvfs_path self) (Py.str_of_int numvfs)])
    /\ (forall self', r = Ok (true, self') ->
                      writes new = [SysWrite (Pci.sriov_numvfs_path self) "0";
                                    SysWrite (Pci.sriov_numvfs_path self)
                                             (Py.str_of_int numvfs)])
    /\ (forall self', r = Ok (false, self') -> new = [] /\ self' = self).
Proof.
  intros E. pose proof E as E0.
  apply set_sriov_numvfs_events in E
    as (log1 & log2 & Hw1 & Hw2 & [(-> & ->) | [(Hev & e & ->) | Hev]]).
  - exists []. rewrite app_nil_r. split; [reflexivity|]. split; [now left|].
    split; [discriminate | now intros self' [= <-]].
  - eexists. split; [exact Hev|]. split; [|split; discriminate].
    right. left. now apply writes_cons_log.
  - eexists. split; [exact Hev|].
    assert (Hw : writes (SysWrite (Pci.sriov_numvfs_path self) "0" :: log1
                         ++ SysWrite (Pci.sriov_numvfs_path self) (Py.str_of_int numvfs)
                         :: log2)%list
                 = [SysWrite (Pci.sriov_numvfs_path self) "0";
                    SysWrite (Pci.sriov_numvfs_path self) (Py.str_of_int numvfs)]).
    { change (SysWrite (Pci.sriov_numvfs_path self) "0" :: log1
              ++ SysWrite (Pci.sriov_numvfs_path self) (Py.str_of_int numvfs) :: log2)%list
        with ([SysWrite (Pci.sriov_numvfs_path self) "0"] ++ log1
              ++ [SysWrite (Pci.sriov_numvfs_path self) (Py.str_of_int numvfs)] ++ log2)%list.
      rewrite !writes_app, Hw1, Hw2. reflexivity. }
    split; [now right; right|]. split; [intros; exact Hw|].
    intros self' ->. unfold Pci.set_sriov_numvfs in E0.
    destruct (Pci.sriov self && Pci.differs numvfs (Pci.sriov_numvfs self)).
    + apply bind_inv in E0 as [(s1 & st1 & _ & E0) | (e & _ & E0)]; [|discriminate E0].
      apply bind_inv in E0 as [(s2 & st2 & _ & E0) | (e & _ & E0)]; [|discriminate E0].
      unfold ret in E0. discriminate E0.
    + unfold ret in E0. injection E0 as <- <-.
      apply (f_equal (@List.length event)) in Hev.
      rewrite length_app in Hev. simpl in Hev. lia.
Qed.

(** *** Confinement of the events of a computation *)

Lemma not_write_ok e : is_write e = false -> Spec.numvfs_write_only e.
Proof. destruct e; simpl; [trivial | trivial | discriminate]. Qed.

Lemma no_writes_ok log : writes log = [] -> Forall Spec.numvfs_write_only log.
Proof.
  induction log as [|e log IH]; [constructor|].
  unfold writes. simpl. destruct (is_write e) eqn:He; [discriminate|].
  intros Hl. constructor; [now apply not_write_ok | now apply IH].
Qed.

Lemma confined_quiet {A} (c : M W A) : quiet c -> Spec.confined Spec.numvfs_write_only c.
Proof.
  intros Hq st r st' E. destruct st as [w evs].
  destruct (Hq w evs) as [E1 Hw]. rewrite E1 in E. injection E as _ <-.
  exists (logged c w). split; [reflexivity | now apply no_writes_ok].
Qed.

Lemma confined_bind {A B} P (c : M W A) (k : A -> M W B) :
  Spec.confined P c -> (forall a, Spec.confined P (k a)) -> Spec.confined P (bind c k).
Proof.
  intros Hc Hk st r st' E.
  apply bind_inv in E as [(a & st1 & E1 & E2) | (e & E1 & _)].
  - destruct (Hc _ _ _ E1) as (n1 & Hev1 & Hp1).
    destruct (Hk a _ _ _ E2) as (n2 & Hev2 & Hp2).
    exists (n1 ++ n2)%list. split; [now rewrite Hev2, Hev1, app_assoc|].
    apply Forall_app. now split.
  - exact (Hc _ _ _ E1).
Qed.

Lemma confined_for_each {A} P (body : A -> M W unit) (xs : list A) :
  (forall x, Spec.confined P (body x)) -> Spec.confined P (for_each body xs).
Proof.
  intros Hbody. induction xs as [|x xs IH]; simpl.
  - intros st r st' [= _ <-]. exists []. now rewrite app_nil_r.
  - apply confined_bind; [apply Hbody | intros _; exact IH].
Qed.

Lemma confined_bind_with {A B} P (Q : A -> Prop) (c : M W A) (k : A -> M W B) :
  Spec.confined P c ->
  (forall st a st1, c st = (Ok a, st1) -> Q a) ->
  (forall a, Q a -> Spec.confined P (k a)) ->
  Spec.confined P (bind c k).
Proof.
  intros Hc Hq Hk st r st' E.
  apply bind_inv in E as [(a & st1 & E1 & E2) | (e & E1 & _)].
  - destruct (Hc _ _ _ E1) as (n1 & Hev1 & Hp1).
    destruct (Hk a (Hq _ _ _ E1) _ _ _ E2) as (n2 & Hev2 & Hp2).
    exists (n1 ++ n2)%list. split; [now rewrite Hev2, Hev1, app_assoc|].
    apply Forall_app. now split.
  - exact (Hc _ _ _ E1).
Qed.

Lemma endswith_slash_cons a b s :
  Py.endswith_slash (String a (String b s)) = Py.endswith_slash (String b s).
Proof. reflexivity. Qed.

Lemma endswith_slash_no_slash t :
  t <> "" -> Spec.count "/" t = 0 -> Py.endswith_slash t = false.
Proof.
  induction t as [|a t IH]; [now intros []|]. intros _ Hc.
  cbn [Spec.count] in Hc. destruct (Ascii.eqb a "/") eqn:Ea; [discriminate Hc|].
  destruct t as [|b t].
  - unfold Py.endswith_slash. simpl. exact Ea.
  - rewrite endswith_slash_cons. apply IH; [discriminate | exact Hc].
Qed.

Lemma endswith_slash_app pre t :
  t <> "" -> Py.endswith_slash (pre ++ t) = Py.endswith_slash t.
Proof.
  intros Ht. induction pre as [|a pre IH]; [reflexivity|].
  cbn [append]. destruct (pre ++ t) as [|b u] eqn:E.
  - destruct pre; [simpl in E; now destruct Ht | discriminate E].
  - rewrite endswith_slash_cons. exact IH.
Qed.

Lemma prefix_slash_no_slash t :
  Spec.count "/" t = 0 -> String.prefix "/" t = false.
Proof.
  destruct t as [|a t]; [reflexivity|]. cbn [Spec.count String.prefix]. intros Hc.
  destruct (ascii_dec "/" a) as [<-|_]; [discriminate Hc | reflexivity].
Qed.

(** The file [os.path.join] builds for an address without [/]. *)
Lemma sriov_numvfs_path_explicit addr :
  addr <> "" -> Spec.count "/" addr = 0 ->
  Py.path_join "/sys/bus/pci/devices" [addr; "sriov_numvfs"]
  = "/sys/bus/pci/devices/" ++ addr ++ "/sriov_numvfs".
Proof.
  intros Hne Hc. unfold Py.path_join. cbn [fold_left].
  assert (E1 : Py.path_join2 "/sys/bus/pci/devices" addr
               = "/sys/bus/pci/devices/" ++ addr).
  { unfold Py.path_join2. rewrite (prefix_slash_no_slash addr Hc). reflexivity. }
  rewrite E1. unfold Py.path_join2.
  change (String.prefix "/" "sriov_numvfs") with false. cbv iota.
  rewrite (endswith_slash_app "/sys/bus/pci/devices/" addr Hne).
  rewrite (endswith_slash_no_slash addr Hne Hc).
  replace (String.length ("/sys/bus/pci/devices/" ++ addr) =? 0)%nat with false
    by (symmetry; apply Nat.eqb_neq; rewrite length_append; simpl; lia).
  cbn [orb]. now rewrite append_assoc.
Qed.

Lemma formatted_not_empty addr : Pci.format_pci_addr addr = Ok addr -> addr <> "".
Proof. intros E ->. discriminate E. Qed.

Lemma numvfs_path_ok self data :
  Pci.format_pci_addr (Pci.pci_address self) = Ok (Pci.pci_address self) ->
  Spec.numvfs_write_only (SysWrite (Pci.sriov_numvfs_path self) data).
Proof.
  intros Hcanon. simpl. exists (Pci.pci_address self).
  split; [exact Hcanon|]. split; [reflexivity|].
  intros Hc. apply sriov_numvfs_path_explicit; [|exact Hc].
  now apply formatted_not_empty.
Qed.

Lemma confined_set_sriov_numvfs self numvfs :
  Pci.format_pci_addr (Pci.pci_address self) = Ok (Pci.pci_address self) ->
  Spec.confined Spec.numvfs_write_only (Pci.set_sriov_numvfs self numvfs).
Proof.
  intros Hcanon st r st' E.
  apply set_sriov_numvfs_events in E
    as (log1 & log2 & Hw1 & Hw2 & [(-> & _) | [(Hev & _) | Hev]]).
  - exists []. now rewrite app_nil_r.
  - eexists. split; [exact Hev|].
    constructor; [now apply numvfs_path_ok | now apply no_writes_ok].
  - eexists. split; [exact Hev|].
    constructor; [now apply numvfs_path_ok|]. apply Forall_app. split.
    + now apply no_writes_ok.
    + constructor; [now apply numvfs_path_ok | now apply no_writes_ok].
Qed.

(** The devices of a collection have addresses in canonical form. *)
Lemma new_PCINetDevices_canonical st devices st1 :
  Pci.new_PCINetDevices st = (Ok devices, st1) ->
  Forall (fun d => Pci.format_pci_addr (Pci.pci_address d) = Ok (Pci.pci_address d))
         devices.
Proof.
  unfold Pci.new_PCINetDevices. intros E.
  apply bind_ok_inv in E as (addrs & st0 & Ea & E). apply ask_inv in Ea as [Ea ->].
  apply new_devices_spec in E as (Hmap & _).
  symmetry in Ea. unfold Pci.get_pci_ethernet_addresses in Ea.
  destruct (check_output (host st) _) as [out|e]; [|discriminate Ea].
  cbn [res_bind] in Ea. apply lspci_lines_canonical in Ea; [|constructor].
  rewrite <- Hmap in Ea. now apply Forall_map in Ea.
Qed.

Lemma confined_configure_interface interfaces interface_name :
  Spec.confined Spec.numvfs_write_only (Cmd.configure_interface interfaces interface_name).
Proof.
  unfold Cmd.configure_interface.
  apply confined_bind; [apply confined_quiet, quiet_lift | intros entry].
  apply confined_bind; [apply confined_quiet, quiet_lift | intros num_vfs].
  apply (confined_bind_with _
           (Forall (fun d => Pci.format_pci_addr (Pci.pci_address d)
                             = Ok (Pci.pci_address d))));
    [apply confined_quiet, quiet_new_PCINetDevices
    | intros st devices st1; apply new_PCINetDevices_canonical
    | intros devices Hcanon].
  destruct (Pci.get_device_from_interface_name devices interface_name) as [device|] eqn:F;
    [|apply confined_quiet, quiet_ret].
  rewrite Forall_forall in Hcanon.
  pose proof (Hcanon device (get_device_from_interface_name_In _ _ _ F)) as Hdev.
  destruct (Pci.sriov device); [|apply confined_quiet, quiet_ret].
  destruct num_vfs as [|n|s|l|l]; try apply confined_quiet, quiet_throw.
  destruct (Pci.sriov_totalvfs device) as [total|]; [|apply confined_quiet, quiet_throw].
  apply confined_bind.
  - destruct (n >? total)%Z; [|apply confined_quiet, quiet_ret].
    apply confined_quiet, quiet_bind; [apply quiet_warn | intros; apply quiet_ret].
  - intros applied.
    apply confined_bind; [apply confined_quiet, quiet_info | intros _].
    apply confined_bind; [now apply confined_set_sriov_numvfs|].
    intros _. apply confined_quiet, quiet_ret.
Qed.

(** X14: whatever the configuration and the host, and however the run
    ends, every write of [configure], and so of [main], goes to the file
    [os.path.join("/sys/bus/pci/devices", address, "sriov_numvfs")] of an
    address in the canonical form of [format_pci_addr]; for an address
    without [/] that file is
    [/sys/bus/pci/devices/<address>/sriov_numvfs]. *)
Theorem configure_writes_only_sriov_numvfs
  (prog : string) (st : run_state W) :
  (forall r st', Cmd.configure st = (r, st') ->
                 exists new, events st' = (events st ++ new)%list
                             /\ Forall Spec.numvfs_write_only new)
  /\ (forall x st', Cmd.main prog (Some Cmd.configure) st = (x, st') ->
                    exists new, events st' = (events st ++ new)%list
                                /\ Forall Spec.numvfs_write_only new).
Proof.
  assert (Hc : Spec.confined Spec.numvfs_write_only (@Cmd.configure W _)).
  { unfold Cmd.configure.
    apply confined_bind; [apply confined_quiet, quiet_ask | intros [|]].
    - apply confined_bind; [apply confined_quiet, quiet_ask | intros configuration].
      apply confined_bind; [apply confined_quiet, quiet_lift | intros interfaces].
      apply confined_bind; [apply confined_quiet, quiet_lift | intros names].
      apply confined_for_each. intros x. apply confined_configure_interface.
    - apply confined_quiet, quiet_warn. }
  split; [exact (Hc st)|].
  intros x st'. unfold Cmd.main.
  destruct (Cmd.configure st) as [[u|e] st1] eqn:E; intros [= _ <-]; exact (Hc _ _ _ E).
Qed.

(** X15: an entry without the key [num_vfs] stops the run before
    discovery with a [KeyError]; an entry whose [num_vfs] is null, a
    string, a list or a mapping stops it with a [TypeError] when its
    interface finds a capable device, after discovery.  In both cases the
    entries after it are not looked at and nothing has been written for
    the entry. *)
Theorem configure_stops_at_bad_entry
  (interfaces interface_name entry : yaml) (rest : list yaml) (st : run_state W) :
  Cmd.getitem interfaces interface_name = Ok entry ->
  (forall e,
      Cmd.getitem entry (YStr "num_vfs") = Raise e ->
      for_each (Cmd.configure_interface interfaces) (interface_name :: rest) st
      = (Raise e, st))
  /\ (forall num_vfs devices device st1,
        Cmd.getitem entry (YStr "num_vfs") = Ok num_vfs ->
        (num_vfs = YNull \/ (exists s, num_vfs = YStr s)
         \/ (exists items, num_vfs = YSeq items)
         \/ (exists entries, num_vfs = YMap entries)) ->
        Pci.new_PCINetDevices st = (Ok devices, st1) ->
        Pci.get_device_from_interface_name devices interface_name = Some device ->
        Pci.sriov device = true ->
        for_each (Cmd.configure_interface interfaces) (interface_name :: rest) st
        = (Raise (Cmd.not_comparable num_vfs (Pci.sriov_totalvfs device)), st1)
        /\ exn_kind (Cmd.not_comparable num_vfs (Pci.sriov_totalvfs device)) = TypeError
        /\ host st1 = host st /\ writes (events st1) = writes (events st)).
Proof.
  intros He. split.
  - intros e Hn. cbn [for_each]. unfold bind at 1, Cmd.configure_interface.
    unfold bind at 1, lift. rewrite He. unfold bind at 1. now rewrite Hn.
  - intros num_vfs devices device st1 Hn Hkind Hd Hfind Hcap.
    destruct (quiet_run _ _ _ _ quiet_new_PCINetDevices Hd) as (Hh & Hw & _).
    split; [|split; [reflexivity | split; assumption]].
    cbn [for_each]. unfold bind at 1, Cmd.configure_interface.
    unfold bind at 1, lift. rewrite He. unfold bind at 1. rewrite Hn.
    unfold bind at 1. rewrite Hd, Hfind, Hcap.
    destruct Hkind as [-> | [(s & ->) | [(l & ->) | (l & ->)]]]; reflexivity.
Qed.

End WriteFacts.

(** ** Numbers written and read back *)

Section NumberFacts.

Lemma digits_acc (d : Decimal.uint) : forall acc : positive,
  Py.int_digits (Zpos acc) true (NilEmpty.string_of_uint d)
  = Some (Zpos (Pos.of_uint_acc d acc)).
Proof.
  induction d as [|d IH|d IH|d IH|d IH|d IH|d IH|d IH|d IH|d IH|d IH]; intros acc;
    [reflexivity|..];
    cbn [NilEmpty.string_of_uint Py.int_digits Pos.of_uint_acc];
    match goal with
    | |- context [Py.isdigit ?c] => change (Py.isdigit c) with true; cbv iota
    end;
    rewrite <- IH; f_equal; unfold Py.digit_val; cbn [nat_of_ascii]; vm_compute Z.of_nat;
    f_equal; lia.
Qed.

Lemma digits_from_zero (d : Decimal.uint) : forall prev : bool,
  prev = true \/ d <> Decimal.Nil ->
  Py.int_digits 0 prev (NilEmpty.string_of_uint d) = Some (Z.of_N (Pos.of_uint d)).
Proof.
  induction d as [|d IH|d IH|d IH|d IH|d IH|d IH|d IH|d IH|d IH|d IH]; intros prev Hp.
  - destruct Hp as [-> | Hp]; [reflexivity | now destruct Hp].
  - cbn [NilEmpty.string_of_uint Py.int_digits Pos.of_uint].
    change (Py.isdigit "0") with true. cbv iota. apply IH. now left.
  - exact (digits_acc d 1).
  - exact (digits_acc d 2).
  - exact (digits_acc d 3).
  - exact (digits_acc d 4).
  - exact (digits_acc d 5).
  - exact (digits_acc d 6).
  - exact (digits_acc d 7).
  - exact (digits_acc d 8).
  - exact (digits_acc d 9).
Qed.

Lemma digits_of_positive (p : positive) :
  Pos.to_uint p <> Decimal.Nil
  /\ Py.int_digits 0 false (NilEmpty.string_of_uint (Pos.to_uint p)) = Some (Zpos p).
Proof.
  pose proof (DecimalPos.Unsigned.of_to p) as E.
  assert (Hne : Pos.to_uint p <> Decimal.Nil).
  { intros Hnil. rewrite Hnil in E. discriminate E. }
  split; [exact Hne|].
  rewrite digits_from_zero by (now right). now rewrite E.
Qed.

Lemma string_of_uint_digits (d : Decimal.uint) :
  Spec.all_chars Py.isdigit (NilEmpty.string_of_uint d) = true.
Proof. induction d; simpl; auto. Qed.

Lemma isdigit_not_space (c : ascii) : Py.isdigit c = true -> Py.isspace c = false.
Proof.
  destruct c as [[] [] [] [] [] [] [] []]; vm_compute; intros E;
    solve [reflexivity | discriminate E].
Qed.

Lemma rstrip_no_space (s : string) :
  Spec.all_chars (fun c => negb (Py.isspace c)) s = true -> Py.rstrip s = s.
Proof.
  induction s as [|c s IH]; cbn [Spec.all_chars Py.rstrip]; [reflexivity|].
  intros Hs. apply andb_prop in Hs as [Hc Hs]. rewrite (IH Hs).
  destruct s; [|reflexivity]. apply negb_true_iff in Hc. now rewrite Hc.
Qed.

Lemma rstrip_newline (s : string) : Py.rstrip (s ++ String "010" "") = Py.rstrip s.
Proof.
  induction s as [|c s IH]; [reflexivity|].
  cbn [append Py.rstrip]. now rewrite IH.
Qed.

Lemma lstrip_no_space c s : Py.isspace c = false -> Py.lstrip (String c s) = String c s.
Proof. intros Hc. cbn [Py.lstrip]. now rewrite Hc. Qed.

Lemma all_chars_weaken (p q : ascii -> bool) s :
  (forall c, p c = true -> q c = true) ->
  Spec.all_chars p s = true -> Spec.all_chars q s = true.
Proof.
  intros Hpq. induction s as [|c s IH]; cbn [Spec.all_chars]; [reflexivity|].
  intros Hs. apply andb_prop in Hs as [Hc Hs]. now rewrite (Hpq c Hc), (IH Hs).
Qed.

(** The text of a number, bare or followed by a newline, trims to
    itself. *)
Lemma strip_number (s tail : string) :
  s <> "" ->
  Spec.all_chars (fun c => negb (Py.isspace c)) s = true ->
  tail = "" \/ tail = String "010" "" ->
  Py.strip (s ++ tail) = s.
Proof.
  intros Hne Hs Htail. unfold Py.strip.
  destruct s as [|c s]; [now destruct Hne|].
  pose proof Hs as Hs'. cbn [Spec.all_chars] in Hs'.
  apply andb_prop in Hs' as [Hc _]. apply negb_true_iff in Hc.
  cbn [append]. rewrite (lstrip_no_space c _ Hc).
  change (String c (s ++ tail)) with (String c s ++ tail).
  destruct Htail as [-> | ->].
  - rewrite append_nil_r. now apply rstrip_no_space.
  - rewrite rstrip_newline. now apply rstrip_no_space.
Qed.

Lemma strip_plain (s : string) :
  s <> "" -> Spec.all_chars (fun c => negb (Py.isspace c)) s = true -> Py.strip s = s.
Proof.
  intros Hne Hs. rewrite <- (append_nil_r s) at 1. apply strip_number; auto.
Qed.

Lemma int_str_tail (n : Z) (tail : string) :
  tail = "" \/ tail = String "010" "" ->
  Py.int (Py.strip (Py.str_of_int n ++ tail)) = Ok n.
Proof.
  intros Htail. unfold Py.str_of_int.
  assert (Hds : forall d, Spec.all_chars (fun c => negb (Py.isspace c))
                                         (NilEmpty.string_of_uint d) = true).
  { intros d. apply (all_chars_weaken Py.isdigit); [|apply string_of_uint_digits].
    intros c Hc. now rewrite (isdigit_not_space c Hc). }
  destruct n as [|p|p]; cbn [Z.to_int NilZero.string_of_int].
  - destruct Htail as [-> | ->]; reflexivity.
  - destruct (digits_of_positive p) as [Hne Hd].
    assert (Es : NilZero.string_of_uint (Pos.to_uint p)
                 = NilEmpty.string_of_uint (Pos.to_uint p))
      by (destruct (Pos.to_uint p); [now destruct Hne | reflexivity..]).
    rewrite Es.
    assert (Hs : NilEmpty.string_of_uint (Pos.to_uint p) <> "")
      by (destruct (Pos.to_uint p); [now destruct Hne | discriminate..]).
    rewrite strip_number by (auto using Hds).
    unfold Py.int. rewrite strip_plain by (auto using Hds).
    pose proof (string_of_uint_digits (Pos.to_uint p)) as Hall.
    destruct (NilEmpty.string_of_uint (Pos.to_uint p)) as [|c s] eqn:Estr;
      [now destruct Hs|].
    cbn [Spec.all_chars] in Hall. apply andb_prop in Hall as [Hc _].
    assert (Hminus : Ascii.eqb c "-" = false)
      by (destruct (Ascii.eqb_spec c "-") as [->|]; [discriminate Hc | reflexivity]).
    assert (Hplus : Ascii.eqb c "+" = false)
      by (destruct (Ascii.eqb_spec c "+") as [->|]; [discriminate Hc | reflexivity]).
    now rewrite Hminus, Hplus, Hd.
  - destruct (digits_of_positive p) as [Hne Hd].
    assert (Es : NilZero.string_of_uint (Pos.to_uint p)
                 = NilEmpty.string_of_uint (Pos.to_uint p))
      by (destruct (Pos.to_uint p); [now destruct Hne | reflexivity..]).
    rewrite Es.
    assert (Hall : Spec.all_chars (fun c => negb (Py.isspace c))
                     (String "-" (NilEmpty.string_of_uint (Pos.to_uint p))) = true)
      by (cbn [Spec.all_chars]; now rewrite Hds).
    rewrite strip_number by (auto; discriminate).
    unfold Py.int. rewrite strip_plain by (auto; discriminate).
    change (Ascii.eqb "-" "-") with true. cbv iota. now rewrite Hd.
Qed.

End NumberFacts.

Section ReadBack.
Context {W : Type} `{Host W}.

(** X16: what [_set_sriov_numvfs] writes for a number, [str(numvfs)], is
    read back as that number by [get_sriov_numvfs] and by
    [get_sriov_totalvfs], whether or not the file ends with a newline. *)
Theorem numvfs_text_reads_back (w : W) (sysdir : string) (n : Z) (tail : string) :
  tail = "" \/ tail = String "010" "" ->
  (read_text w (Py.path_join sysdir ["sriov_numvfs"]) = Ok (Py.str_of_int n ++ tail) ->
   Pci.get_sriov_numvfs w sysdir = Ok n)
  /\ (read_text w (Py.path_join sysdir ["sriov_totalvfs"]) = Ok (Py.str_of_int n ++ tail) ->
      Pci.get_sriov_totalvfs w sysdir = Ok n).
Proof.
  intros Htail. split; intros Hread.
  - unfold Pci.get_sriov_numvfs. rewrite Hread. cbn [res_bind].
    now apply int_str_tail.
  - unfold Pci.get_sriov_totalvfs. rewrite Hread. cbn [res_bind].
    now apply int_str_tail.
Qed.

End ReadBack.

(** ** Further runs on the simulated host *)

Section FurtherRuns.

Lemma format_pci_addr_accepts_examples :
  (exists formatted, Pci.format_pci_addr "0:0:1f.6" = Ok formatted)
  /\ raises (Pci.format_pci_addr "0000:00:1f") ValueError.
Proof.
  split.
  - apply (proj1 (format_pci_addr_accepts_iff "0:0:1f.6")). reflexivity.
  - apply (proj2 (format_pci_addr_accepts_iff "0000:00:1f")). reflexivity.
Defined.

Lemma discovered_devices_two_nics :
  Forall (fun d => (Spec.never_found d \/ Spec.once_found d)
                   /\ Spec.capacity_known d
                   /\ (Pci.interface_name d = None -> Pci.sriov d = false))
         [Sim.eth0; Sim.eth1].
Proof.
  apply (discovered_devices_invariant
           (Sim.start (Sim.two_nics (Ok YNull))) (Sim.start (Sim.two_nics (Ok YNull)))).
  vm_compute. reflexivity.
Defined.

Lemma collection_two_nics :
  Pci.get_pci_ethernet_addresses (Sim.two_nics (Ok YNull))
  = Ok ["0000:01:00.0"; "0000:02:00.0"]
  /\ (exists d, Pci.get_device_from_pci_address [Sim.eth0; Sim.eth1] "0000:02:00.0" = Some d
                /\ Pci.pci_address d = "0000:02:00.0")
  /\ Pci.get_device_from_pci_address [Sim.eth0; Sim.eth1] "0000:00:00.0" = None.
Proof.
  destruct (collection_follows_enumeration
              (Sim.start (Sim.two_nics (Ok YNull))) (Sim.start (Sim.two_nics (Ok YNull)))
              [Sim.eth0; Sim.eth1])
    as (Haddrs & Hfound & Hnone); [vm_compute; reflexivity|].
  split; [exact Haddrs | split].
  - apply Hfound. simpl. auto.
  - apply Hnone. simpl. intros [E | [E | []]]; discriminate E.
Defined.

Lemma update_devices_two_nics :
  map Pci.pci_address [Sim.eth0; Sim.eth1]
  = map Pci.pci_address
      [Pci.Device "0000:01:00.0" None None None false None None; Sim.eth1]
  /\ List.length [Sim.eth0; Sim.eth1]
     = List.length [Pci.Device "0000:01:00.0" None None None false None None; Sim.eth1]
  /\ Sim.two_nics (Ok YNull) = Sim.two_nics (Ok YNull)
  /\ writes [] = writes [].
Proof.
  apply (update_devices_keeps_collection
           [Pci.Device "0000:01:00.0" None None None false None None; Sim.eth1]
           [Sim.eth0; Sim.eth1]
           (Sim.start (Sim.two_nics (Ok YNull))) (Sim.start (Sim.two_nics (Ok YNull)))).
  vm_compute. reflexivity.
Defined.

Lemma refresh_takes_the_record_eth0 :
  Pci.update_attributes (Pci.Device "0000:01:00.0" None None None false None None)
                        (Sim.start (Sim.two_nics (Ok YNull)))
  = (Ok Sim.eth0, Sim.start (Sim.two_nics (Ok YNull))).
Proof.
  apply (refresh_takes_the_record
           (Pci.Device "0000:01:00.0" None None None false None None)
           (Sim.start (Sim.two_nics (Ok YNull))) (Sim.start (Sim.two_nics (Ok YNull)))
           []
           [Pci.NetDev "eth1" "52:54:00:00:00:02" "0000:02:00.0" "down" false None None]
           (Pci.NetDev "eth0" "52:54:00:00:00:01" "0000:01:00.0" "up" true
                       (Some 8%Z) (Some 2%Z))).
  - vm_compute. reflexivity.
  - reflexivity.
  - constructor.
  - repeat constructor. simpl. discriminate.
Defined.

Lemma get_macs_two_nics :
  exists d, Pci.get_device_from_mac [Sim.eth0; Sim.eth1] (Some "52:54:00:00:00:02") = Some d
            /\ Pci.mac_address d = Some "52:54:00:00:00:02"
            /\ In d [Sim.eth0; Sim.eth1].
Proof.
  apply (proj2 (get_macs_lookup [Sim.eth0; Sim.eth1] "52:54:00:00:00:02")).
  simpl. auto.
Defined.

Lemma enumerated_addresses_two_nics :
  Forall (fun a => Pci.format_pci_addr a = Ok a /\ Spec.well_separated a = true)
         ["0000:01:00.0"; "0000:02:00.0"].
Proof.
  apply (enumerated_addresses_canonical (Sim.two_nics (Ok YNull))).
  vm_compute. reflexivity.
Defined.

Lemma set_sriov_numvfs_writes_eth0 :
  exists new,
    events (snd (Pci.set_sriov_numvfs Sim.eth0 4 (Sim.start (Sim.two_nics (Ok YNull)))))
    = ([] ++ new)%list
    /\ (writes new = []
        \/ writes new = [SysWrite (Pci.sriov_numvfs_path Sim.eth0) "0"]
        \/ writes new = [SysWrite (Pci.sriov_numvfs_path Sim.eth0) "0";
                         SysWrite (Pci.sriov_numvfs_path Sim.eth0) (Py.str_of_int 4)]).
Proof.
  destruct (set_sriov_numvfs_writes_at_most_two
              Sim.eth0 4 (Sim.start (Sim.two_nics (Ok YNull)))
              (snd (Pci.set_sriov_numvfs Sim.eth0 4 (Sim.start (Sim.two_nics (Ok YNull)))))
              (fst (Pci.set_sriov_numvfs Sim.eth0 4 (Sim.start (Sim.two_nics (Ok YNull))))))
    as (new & Hev & Hwrites & _).
  - apply surjective_pairing.
  - exists new. split; [exact Hev | exact Hwrites].
Defined.

Lemma configure_writes_configured :
  exists new,
    events (snd (Cmd.configure (Sim.start Sim.configured))) = ([] ++ new)%list
    /\ Forall Spec.numvfs_write_only new.
Proof.
  apply (proj1 (configure_writes_only_sriov_numvfs
                  "sriov-netplan-shim" (Sim.start Sim.configured))
           (fst (Cmd.configure (Sim.start Sim.configured)))).
  apply surjective_pairing.
Defined.

(** An entry for [eth0] without [num_vfs], and one whose [num_vfs] is the
    text ["4"]. *)
Lemma configure_stops_examples :
  (exists e,
      for_each (Cmd.configure_interface (YMap [(YStr "eth0", YMap []); (YStr "eth1", YMap [])]))
        [YStr "eth0"; YStr "eth1"] (Sim.start (Sim.two_nics (Ok YNull)))
      = (Raise e, Sim.start (Sim.two_nics (Ok YNull)))
      /\ exn_kind e = KeyError)
  /\ for_each (Cmd.configure_interface
                 (YMap [(YStr "eth0", YMap [(YStr "num_vfs", YStr "4")])]))
       [YStr "eth0"] (Sim.start (Sim.two_nics (Ok YNull)))
     = (Raise (Cmd.not_comparable (YStr "4") (Some 8%Z)),
        Sim.start (Sim.two_nics (Ok YNull))).
Proof.
  split.
  - exists (Exn KeyError "'num_vfs'"). split; [|reflexivity].
    apply (proj1 (configure_stops_at_bad_entry
                    (YMap [(YStr "eth0", YMap []); (YStr "eth1", YMap [])])
                    (YStr "eth0") (YMap []) [YStr "eth1"]
                    (Sim.start (Sim.two_nics (Ok YNull))) eq_refl)).
    reflexivity.
  - apply (proj2 (configure_stops_at_bad_entry
                    (YMap [(YStr "eth0", YMap [(YStr "num_vfs", YStr "4")])])
                    (YStr "eth0") (YMap [(YStr "num_vfs", YStr "4")]) []
                    (Sim.start (Sim.two_nics (Ok YNull))) eq_refl)
             (YStr "4") [Sim.eth0; Sim.eth1] Sim.eth0
             (Sim.start (Sim.two_nics (Ok YNull)))).
    + reflexivity.
    + right. left. now exists "4".
    + vm_compute. reflexivity.
    + reflexivity.
    + reflexivity.
Defined.

Lemma numvfs_reads_back_two_nics :
  Pci.get_sriov_numvfs (Sim.two_nics (Ok YNull)) (Sim.dev0 ++ "/net/../") = Ok 2%Z
  /\ Pci.get_sriov_totalvfs (Sim.two_nics (Ok YNull)) (Sim.dev0 ++ "/net/../") = Ok 8%Z.
Proof.
  split.
  - apply (proj1 (numvfs_text_reads_back
                    (Sim.two_nics (Ok YNull)) (Sim.dev0 ++ "/net/../") 2
                    (String "010" "") (or_intror eq_refl))).
    vm_compute. reflexivity.
  - apply (proj2 (numvfs_text_reads_back
                    (Sim.two_nics (Ok YNull)) (Sim.dev0 ++ "/net/../") 8
                    (String "010" "") (or_intror eq_refl))).
    vm_compute. reflexivity.
Defined.

End FurtherRuns.

(** ** Keys that are not interface names; failures of the resolver *)

Section MoreEdges.
Context {W : Type} `{Host W}.

Lemma null_name_never_found
  (st st' : run_state W) (devices : list Pci.PCINetDevice) (d : Pci.PCINetDevice) :
  Pci.new_PCINetDevices st = (Ok devices, st') ->
  In d devices -> Pci.interface_name d = None -> Spec.never_found d.
Proof.
  unfold Pci.new_PCINetDevices. intros E Hin Hname.
  apply bind_ok_inv in E as (addrs & st1 & _ & E).
  apply new_devices_spec in E as (_ & Hall). rewrite Forall_forall in Hall.
  destruct (Hall d Hin) as ([Hnever | (n & m & s & Hn & _)] & _);
    [exact Hnever | congruence].
Qed.

(** X17: an entry of the configuration whose key is null or a number
    never configures anything: once discovery has run, the loop body of
    [configure] returns without a write, whatever [num_vfs] is.  A number
    names no device; null equals the [None] name of a device, and a device
    of the collection with that name is one no scan has found, as
    [__init__] left it, which is not SR-IOV capable. *)
Theorem configure_ignores_non_string_key
  (interfaces interface_name entry num_vfs : yaml)
  (st st1 : run_state W) (devices : list Pci.PCINetDevice) :
  interface_name = YNull \/ (exists n, interface_name = YInt n) ->
  Cmd.getitem interfaces interface_name = Ok entry ->
  Cmd.getitem entry (YStr "num_vfs") = Ok num_vfs ->
  Pci.new_PCINetDevices st = (Ok devices, st1) ->
  Cmd.configure_interface interfaces interface_name st = (Ok tt, st1)
  /\ host st1 = host st
  /\ writes (events st1) = writes (events st)
  /\ ((exists n, interface_name = YInt n) ->
      Pci.get_device_from_interface_name devices interface_name = None)
  /\ (forall d,
        Pci.get_device_from_interface_name devices interface_name = Some d ->
        interface_name = YNull /\ Pci.interface_name d = None
        /\ Spec.never_found d /\ Pci.sriov d = false).
Proof.
  intros Hkey He Hn Hd.
  destruct (quiet_run _ _ _ _ quiet_new_PCINetDevices Hd) as (Hh & Hw & _).
  assert (Hfound : forall d,
             Pci.get_device_from_interface_name devices interface_name = Some d ->
             interface_name = YNull /\ Pci.interface_name d = None
             /\ Spec.never_found d /\ Pci.sriov d = false).
  { intros d F.
    pose proof (get_device_from_interface_name_In _ _ _ F) as Hin.
    unfold Pci.get_device_from_interface_name in F. apply find_some in F as [_ Heq].
    unfold Pci.name_eqb in Heq.
    destruct (Pci.interface_name d) as [x|] eqn:Ename.
    - destruct Hkey as [-> | (n & ->)]; discriminate Heq.
    - destruct Hkey as [-> | (n & ->)]; [|discriminate Heq].
      pose proof (null_name_never_found _ _ _ d Hd Hin Ename) as Hnever.
      repeat split; [exact Hnever | now rewrite Hnever]. }
  split; [|split; [exact Hh | split; [exact Hw | split; [|exact Hfound]]]].
  - unfold Cmd.configure_interface.
    unfold bind at 1, lift. rewrite He. unfold bind at 1. rewrite Hn.
    unfold bind at 1. rewrite Hd.
    destruct (Pci.get_device_from_interface_name devices interface_name) as [d|] eqn:F;
      [|reflexivity].
    destruct (Hfound d eq_refl) as (_ & _ & _ & ->). reflexivity.
  - intros (n & ->).
    destruct (Pci.get_device_from_interface_name devices (YInt n)) as [d|] eqn:F;
      [|reflexivity].
    destruct (Hfound d eq_refl) as [Habs _]. discriminate Habs.
Qed.

Lemma first_pf_raises (w : W) (sysdir : string) (netdevs : list string) (e : exn) :
  Pci.first_pf w (Py.path_join sysdir ["net"]) netdevs = Raise e ->
  exists netdev,
    In netdev netdevs
    /\ read_text w (Spec.phys_port_name_file sysdir netdev) = Raise e
    /\ exn_kind e <> OSError.
Proof.
  induction netdevs as [|x rest IH]; cbn [Pci.first_pf]; [discriminate|].
  unfold Pci._phys_port_name_is_pf.
  change (Py.path_join (Py.path_join (Py.path_join sysdir ["net"]) [x]) ["phys_port_name"])
    with (Spec.phys_port_name_file sysdir x).
  destruct (read_text w (Spec.phys_port_name_file sysdir x)) as [content|e'] eqn:E.
  - cbn [res_bind]. destruct (Re.is_match _ _ _); [discriminate|].
    intros Hrest. destruct (IH Hrest) as (netdev & Hin & Hr & Hk).
    exists netdev. split; [now right | auto].
  - destruct (exn_kind e') eqn:K; cbn [res_bind];
      try (intros [= <-]; exists x; split; [now left|]; split; [exact E|];
           rewrite K; discriminate).
    intros Hrest. destruct (IH Hrest) as (netdev & Hin & Hr & Hk).
    exists netdev. split; [now right | auto].
Qed.

(** X18: [get_sysnet_interface] raises only what [os.listdir] raises on
    the [net] directory, or what reading the [phys_port_name] of one of
    several netdevs raises when that is not an [OSError]. *)
Theorem get_sysnet_interface_raises (w : W) (sysdir : string) (e : exn) :
  Pci.get_sysnet_interface w sysdir = Raise e ->
  listdir w (Py.path_join sysdir ["net"]) = Raise e
  \/ exists netdevs netdev,
      listdir w (Py.path_join sysdir ["net"]) = Ok netdevs
      /\ List.length netdevs <> 1
      /\ In netdev netdevs
      /\ read_text w (Spec.phys_port_name_file sysdir netdev) = Raise e
      /\ exn_kind e <> OSError.
Proof.
  unfold Pci.get_sysnet_interface.
  destruct (listdir w (Py.path_join sysdir ["net"])) as [netdevs|e'] eqn:L;
    cbn [res_bind]; [|intros [= <-]; now left].
  intros E. right.
  assert (Hmany : List.length netdevs <> 1
                  /\ Pci.first_pf w (Py.path_join sysdir ["net"]) netdevs = Raise e).
  { destruct netdevs as [|a [|b l]]; [split; [discriminate | exact E] | discriminate E |].
    split; [discriminate | exact E]. }
  destruct Hmany as [Hlen Hfirst].
  destruct (first_pf_raises _ _ _ _ Hfirst) as (netdev & Hin & Hr & Hk).
  exists netdevs, netdev. auto.
Qed.

End MoreEdges.

Section MoreEdgesRuns.

(** The key [null] on a host where [lspci] reports a controller that has
    no netdev: the lookup returns the device object of that controller,
    and nothing is configured. *)
Lemma configure_ignores_null_key :
  Pci.get_device_from_interface_name [Sim.eth0; Sim.eth1; Sim.unbound] YNull
  = Some Sim.unbound
  /\ Spec.never_found Sim.unbound
  /\ Cmd.configure_interface (YMap [(YNull, YMap [(YStr "num_vfs", YInt 4)])]) YNull
       (Sim.start Sim.with_unbound)
     = (Ok tt, Sim.start Sim.with_unbound)
  /\ Pci.get_device_from_interface_name [Sim.eth0; Sim.eth1; Sim.unbound] (YInt 0) = None.
Proof.
  destruct (configure_ignores_non_string_key
              (YMap [(YNull, YMap [(YStr "num_vfs", YInt 4)])]) YNull
              (YMap [(YStr "num_vfs", YInt 4)]) (YInt 4)
              (Sim.start Sim.with_unbound) (Sim.start Sim.with_unbound)
              [Sim.eth0; Sim.eth1; Sim.unbound])
    as (Hrun & _ & _ & _ & Hfound);
    [now left | reflexivity | reflexivity | vm_compute; reflexivity |].
  destruct (configure_ignores_non_string_key
              (YMap [(YInt 0, YMap [(YStr "num_vfs", YInt 4)])]) (YInt 0)
              (YMap [(YStr "num_vfs", YInt 4)]) (YInt 4)
              (Sim.start Sim.with_unbound) (Sim.start Sim.with_unbound)
              [Sim.eth0; Sim.eth1; Sim.unbound])
    as (_ & _ & _ & Hnumber & _);
    [right; now exists 0%Z | reflexivity | reflexivity | vm_compute; reflexivity |].
  split; [reflexivity|]. split; [|split; [exact Hrun|]].
  - exact (proj1 (proj2 (proj2 (Hfound Sim.unbound eq_refl)))).
  - apply Hnumber. now exists 0%Z.
Defined.

(** A device directory that does not exist. *)
Lemma get_sysnet_interface_raises_example :
  listdir (Sim.two_nics (Ok YNull))
    (Py.path_join "/sys/bus/pci/devices/0000:0f:00.0/net/../" ["net"])
  = Raise (Sim.no_such_file "/sys/bus/pci/devices/0000:0f:00.0/net/../net")
  \/ exists netdevs netdev,
      listdir (Sim.two_nics (Ok YNull))
        (Py.path_join "/sys/bus/pci/devices/0000:0f:00.0/net/../" ["net"]) = Ok netdevs
      /\ List.length netdevs <> 1
      /\ In netdev netdevs
      /\ read_text (Sim.two_nics (Ok YNull))
           (Spec.phys_port_name_file "/sys/bus/pci/devices/0000:0f:00.0/net/../" netdev)
         = Raise (Sim.no_such_file "/sys/bus/pci/devices/0000:0f:00.0/net/../net")
      /\ exn_kind (Sim.no_such_file "/sys/bus/pci/devices/0000:0f:00.0/net/../net")
         <> OSError.
Proof.
  apply (get_sysnet_interface_raises
           (Sim.two_nics (Ok YNull)) "/sys/bus/pci/devices/0000:0f:00.0/net/../").
  vm_compute. reflexivity.
Defined.

End MoreEdgesRuns.
